(** * Rufus, src/smart.c: ATA passthrough over USB bridges and the HDD score

    A shallow embedding of [smart.c] and the properties of its
    specification.

    Conventions of the embedding.
    - C integers are [Z].  A value held in a [uint8_t], [uint16_t] or
      [size_t] object is a [Z] in the range of its type; every explicit
      cast of the source ([(uint8_t)(BufLen >> 8)], ...) is written out
      with [mod].
    - An array is a [list]; [a !! i] is a read that fails ([None]) outside
      the array, and a computation that reads or copies outside an array
      has no result ([None]).
    - The device, the log ([uprintf], [DumpBufferHex]) and the block of
      memory the data buffer points to are threaded as an explicit state.
    - The macros of [smart.h] are kept abstract, as the fields of the class
      [SmartH]: the theorems hold for every header that satisfies what the
      C compiler enforces on it (the labels of one [switch] are pairwise
      distinct) and what smart.c itself relies on (512-byte sectors, a
      512-byte IDENTIFY structure). *)

From Stdlib Require Import ZArith Lia Ascii.
From stdpp Require Import base numbers option list strings.

Local Open Scope Z_scope.

(** ** Constants of the Windows SDK *)

Module Win32.
(** ntddscsi.h *)
Definition SCSI_IOCTL_DATA_OUT : Z := 0.
Definition SCSI_IOCTL_DATA_IN : Z := 1.
Definition SCSI_IOCTL_DATA_UNSPECIFIED : Z := 2.
(** [sizeof(((SCSI_PASS_THROUGH_DIRECT* )0)->Cdb)]: [UCHAR Cdb[16]] *)
Definition sizeof_sptd_Cdb : Z := 16.
(** winerror.h *)
Definition ERROR_INVALID_PARAMETER : Z := 87.
Definition ERROR_SEM_TIMEOUT : Z := 121.
(** winbase.h *)
Definition DRIVE_REMOVABLE : Z := 2.
Definition DRIVE_FIXED : Z := 3.
(** windef.h *)
Definition FALSE : Z := 0.
Definition TRUE : Z := 1.
End Win32.
Export Win32.

(** ** The macros of smart.h *)

Class SmartH : Type := {
  (* ATA commands and SMART sub-commands *)
  ATA_IDENTIFY_DEVICE : Z;
  ATA_IDENTIFY_PACKET_DEVICE : Z;
  ATA_READ_LOG_EXT : Z;
  ATA_SMART_CMD : Z;
  ATA_DATA_SET_MANAGEMENT : Z;
  ATA_SMART_STATUS : Z;
  ATA_SMART_WRITE_LOG_SECTOR : Z;
  (* transfer directions *)
  ATA_PASSTHROUGH_DATA_OUT : Z;
  ATA_PASSTHROUGH_DATA_IN : Z;
  ATA_PASSTHROUGH_DATA_NONE : Z;
  (* opcodes of the bridges *)
  SAT_ATA_PASSTHROUGH_12 : Z;
  USB_JMICRON_ATA_PASSTHROUGH : Z;
  USB_SUNPLUS_ATA_PASSTHROUGH : Z;
  USB_CYPRESS_ATA_PASSTHROUGH : Z;
  (* status codes of ScsiPassthroughDirect *)
  SPT_SUCCESS : Z;
  SPT_ERROR_CDB_LENGTH : Z;
  SPT_ERROR_BUFFER : Z;
  SPT_ERROR_DIRECTION : Z;
  SPT_ERROR_EXTENDED_CDB : Z;
  SPT_ERROR_CDB_OPCODE : Z;
  SPT_ERROR_TIMEOUT : Z;
  SPT_ERROR_INVALID_PARAMETER : Z;
  SPT_ERROR_CHECK_STATUS : Z;
  SPT_ERROR_UNKNOWN_ERROR : Z;
  (* sizes and layout *)
  SECTOR_SIZE_SHIFT_BIT : Z;
  SPT_SENSE_LENGTH : Z;
  SPT_TIMEOUT_VALUE : Z;
  sizeof_SCSI_PASS_THROUGH_DIRECT : Z;
  offsetof_SenseBuf : Z;
  (* IDENTIFY_DEVICE_DATA: the byte that holds the bit-field
     CommandSetSupport.SmartCommands, and the position of the bit in it *)
  offsetof_CommandSetSupport : nat;
  bitof_SmartCommands : Z;
}.

(** What a header that compiles with smart.c satisfies. *)
Record SmartH_ok (H : SmartH) : Prop := {
  (* the case labels of the switch of GetAtaDirection *)
  ata_cmd_labels :
    NoDup [ATA_IDENTIFY_DEVICE; ATA_READ_LOG_EXT; ATA_SMART_CMD;
           ATA_DATA_SET_MANAGEMENT];
  (* the case labels of the switch of SatAtaPassthrough *)
  direction_labels :
    NoDup [ATA_PASSTHROUGH_DATA_NONE; ATA_PASSTHROUGH_DATA_IN;
           ATA_PASSTHROUGH_DATA_OUT];
  (* the case labels of the switch of SptStrerr *)
  spt_labels :
    NoDup [SPT_SUCCESS; SPT_ERROR_CDB_LENGTH; SPT_ERROR_BUFFER;
           SPT_ERROR_DIRECTION; SPT_ERROR_EXTENDED_CDB; SPT_ERROR_CDB_OPCODE;
           SPT_ERROR_TIMEOUT; SPT_ERROR_INVALID_PARAMETER;
           SPT_ERROR_CHECK_STATUS];
  (* the shift divides by the block size, 512 in SatAtaPassthrough *)
  sector_shift : SECTOR_SIZE_SHIFT_BIT = 9;
  (* COMPILE_TIME_ASSERT(sizeof(IDENTIFY_DEVICE_DATA) == 512) *)
  smart_byte_in_idd : (offsetof_CommandSetSupport < 512)%nat;
}.

(** The values of the ATA command set (ACS), of the SAT standard and of the
    bridge vendors' protocols, with the status codes numbered downwards from
    -1; the theorems below are instantiated at this header. *)
Definition acs_header : SmartH := {|
  ATA_IDENTIFY_DEVICE := 0xEC;
  ATA_IDENTIFY_PACKET_DEVICE := 0xA1;
  ATA_READ_LOG_EXT := 0x2F;
  ATA_SMART_CMD := 0xB0;
  ATA_DATA_SET_MANAGEMENT := 0x06;
  ATA_SMART_STATUS := 0xDA;
  ATA_SMART_WRITE_LOG_SECTOR := 0xD6;
  ATA_PASSTHROUGH_DATA_OUT := SCSI_IOCTL_DATA_OUT;
  ATA_PASSTHROUGH_DATA_IN := SCSI_IOCTL_DATA_IN;
  ATA_PASSTHROUGH_DATA_NONE := SCSI_IOCTL_DATA_UNSPECIFIED;
  SAT_ATA_PASSTHROUGH_12 := 0xA1;
  USB_JMICRON_ATA_PASSTHROUGH := 0xDF;
  USB_SUNPLUS_ATA_PASSTHROUGH := 0xF8;
  USB_CYPRESS_ATA_PASSTHROUGH := 0x24;
  SPT_SUCCESS := 0;
  SPT_ERROR_CDB_LENGTH := -1;
  SPT_ERROR_BUFFER := -2;
  SPT_ERROR_DIRECTION := -3;
  SPT_ERROR_EXTENDED_CDB := -4;
  SPT_ERROR_CDB_OPCODE := -5;
  SPT_ERROR_TIMEOUT := -6;
  SPT_ERROR_INVALID_PARAMETER := -7;
  SPT_ERROR_CHECK_STATUS := -8;
  SPT_ERROR_UNKNOWN_ERROR := -99;
  SECTOR_SIZE_SHIFT_BIT := 9;
  SPT_SENSE_LENGTH := 32;
  SPT_TIMEOUT_VALUE := 2;
  sizeof_SCSI_PASS_THROUGH_DIRECT := 56;
  offsetof_SenseBuf := 64;
  offsetof_CommandSetSupport := 164;
  bitof_SmartCommands := 0;
|}.

(** ** Helper functions *)

Section GetAtaDirection.
Context {H : SmartH}.

(** [static uint8_t GetAtaDirection(uint8_t AtaCmd, uint8_t Features)].
    The [switch] is the chain of its labels in the order of the source;
    the [ATA_SMART_CMD] case falls through to [ATA_DATA_SET_MANAGEMENT]
    when [smart_out] holds. *)
Definition GetAtaDirection (AtaCmd Features : Z) : Z :=
  let smart_out :=
    (AtaCmd =? ATA_SMART_CMD) &&
    ((Features =? ATA_SMART_STATUS) || (Features =? ATA_SMART_WRITE_LOG_SECTOR)) in
  if (AtaCmd =? ATA_IDENTIFY_DEVICE) || (AtaCmd =? ATA_READ_LOG_EXT) then
    ATA_PASSTHROUGH_DATA_IN
  else if AtaCmd =? ATA_SMART_CMD then
    if negb smart_out then ATA_PASSTHROUGH_DATA_IN
    else ATA_PASSTHROUGH_DATA_OUT
  else if AtaCmd =? ATA_DATA_SET_MANAGEMENT then
    ATA_PASSTHROUGH_DATA_OUT
  else
    ATA_PASSTHROUGH_DATA_NONE.
End GetAtaDirection.

(** ** Integer conversions and arrays *)

Definition uint8_t (x : Z) : Z := x mod 2 ^ 8.
Definition uint16_t (x : Z) : Z := x mod 2 ^ 16.

(** [memcpy(dst, src, n)]: the first [n] bytes of [dst] become those of
    [src]; both arrays must hold [n] bytes. *)
Definition memcpy (dst src : list Z) (n : nat) : option (list Z) :=
  if decide (n ≤ length src ∧ n ≤ length dst)%nat
  then Some (take n src ++ drop n dst)
  else None.

(** ** The device, the log and the state *)

(** [SCSI_PASS_THROUGH_DIRECT], the fields that ScsiPassthroughDirect sets. *)
Record SCSI_PASS_THROUGH_DIRECT : Type := {
  sptd_Length : Z;
  sptd_PathId : Z;
  sptd_TargetId : Z;
  sptd_Lun : Z;
  sptd_CdbLength : Z;
  sptd_DataIn : Z;
  sptd_SenseInfoLength : Z;
  sptd_DataTransferLength : Z;
  sptd_TimeOutValue : Z;
  sptd_DataBuffer : Z;
  sptd_SenseInfoOffset : Z;
  sptd_Cdb : list Z;
}.

(** What one [DeviceIoControl(IOCTL_SCSI_PASS_THROUGH_DIRECT)] gives back:
    the BOOL it returns, the [ScsiStatus] it leaves in the structure, and
    the bytes it transfers into the data buffer. *)
Record ioctl_result : Type := {
  ioctl_ret : bool;
  ioctl_ScsiStatus : Z;
  ioctl_data : list Z;
}.

(** The operating system and the device behind the handle. *)
Class Host : Type := {
  World : Type;
  DeviceIoControl :
    World → Z → SCSI_PASS_THROUGH_DIRECT → list Z → ioctl_result * World;
  GetLastError : World → Z;
}.

(** What the program does that can be observed from outside. *)
Inductive event : Type :=
  | Uprintf (format : string) (args : list string)
  | DumpBufferHex (buf : list Z) (size : Z)
  | IoControl (hPhysical : Z) (sptd : SCSI_PASS_THROUGH_DIRECT).

(** Bytes transferred by the device overwrite the start of the buffer and
    never grow it. *)
Definition dma_write (data buf : list Z) : list Z :=
  take (length buf) (data ++ drop (length data) buf).

Section State.
Context {D : Host}.

Record St : Type := mkSt {
  world : World;
  (* the memory that DataBuffer points to *)
  block : list Z;
  trace : list event;
}.

(** Computations on the state; [None] is an access outside an array. *)
Definition M (A : Type) : Type := St → option (A * St).

#[export] Instance M_ret : MRet M := λ A (a : A) s, Some (a, s).
#[export] Instance M_bind : MBind M := λ A B (f : A → M B) (m : M A) s,
  match m s with
  | Some (a, s') => f a s'
  | None => None
  end.

Definition emit (e : event) : M unit := λ s,
  Some ((), mkSt (world s) (block s) (trace s ++ [e])).

Definition uprintf (format : string) (args : list string) : M unit :=
  emit (Uprintf format args).

(** A read of an array inside a computation. *)
Definition load (a : list Z) (i : nat) : M Z := λ s,
  match a !! i with
  | Some x => Some (x, s)
  | None => None
  end.

Definition lift {A} (o : option A) : M A := λ s,
  match o with
  | Some x => Some (x, s)
  | None => None
  end.

Definition io_control (hPhysical : Z) (sptd : SCSI_PASS_THROUGH_DIRECT)
  : M ioctl_result := λ s,
  let '(res, w) := DeviceIoControl (world s) hPhysical sptd (block s) in
  Some (res, mkSt w (dma_write (ioctl_data res) (block s))
                    (trace s ++ [IoControl hPhysical sptd])).

Definition get_last_error : M Z := λ s, Some (GetLastError (world s), s).
End State.

Arguments St : clear implicits.
Arguments St {D}.

(** ** SptStrerr *)

Definition hex_digit (d : Z) : ascii :=
  default "?"%char (String.get (Z.to_nat d) "0123456789ABCDEF").

(** The conversion [%02X] of a value below 256. *)
Definition sprintf_02X (x : Z) : string :=
  String (hex_digit (x / 16)) (String (hex_digit (x mod 16)) EmptyString).

Section Strerr.
Context {H : SmartH}.

(** [const char* SptStrerr(int errcode)] *)
Definition SptStrerr (errcode : Z) : string :=
  if (errcode >? 0) && (errcode <=? 0xff) then
    "SCSI status: 0x" +:+ sprintf_02X (uint8_t errcode)
  else if errcode =? SPT_SUCCESS then "Success"
  else if errcode =? SPT_ERROR_CDB_LENGTH then "Invalid CDB length"
  else if errcode =? SPT_ERROR_BUFFER then
    "Buffer must be aligned to a page boundary and less than 64KB in size"
  else if errcode =? SPT_ERROR_DIRECTION then "Invalid Direction"
  else if errcode =? SPT_ERROR_EXTENDED_CDB then
    "Extended and variable length CDB commands are not supported"
  else if errcode =? SPT_ERROR_CDB_OPCODE then
    "Opcodes above 0xC0 are not supported"
  else if errcode =? SPT_ERROR_TIMEOUT then "Timeout"
  else if errcode =? SPT_ERROR_INVALID_PARAMETER then
    "Invalid DeviceIoControl parameter"
  else if errcode =? SPT_ERROR_CHECK_STATUS then "SCSI error (check Status)"
  else "Unknown error".
End Strerr.

(** ** SCSI passthrough and the bridges *)

(** [ATA_PASSTHROUGH_CMD]; every field is a [uint8_t]. *)
Record ATA_PASSTHROUGH_CMD : Type := {
  AtaCmd : Z;
  Features : Z;
  Lba_low : Z;
  Lba_mid : Z;
  Lba_high : Z;
  Device : Z;
}.

Section Passthrough.
Context {H : SmartH} {D : Host}.

(** [BOOL ScsiPassthroughDirect(HANDLE hPhysical, uint8_t* Cdb,
      size_t CdbLen, uint8_t Direction, void* DataBuffer, size_t BufLen,
      uint32_t Timeout)].
    [Cdb] is the array the pointer points to, [DataBuffer] the address of
    the data buffer, whose content is the [block] of the state. *)
Definition ScsiPassthroughDirect (hPhysical : Z) (Cdb : list Z) (CdbLen : Z)
    (Direction : Z) (DataBuffer : Z) (BufLen : Z) (Timeout : Z) : M Z :=
  (* Sanity checks *)
  if (CdbLen =? 0) || (CdbLen >? sizeof_sptd_Cdb) then
    mret SPT_ERROR_CDB_LENGTH
  else if negb (DataBuffer mod 0x10 =? 0) || (BufLen >? 0xFFFF) then
    mret SPT_ERROR_BUFFER
  else if Direction >? SCSI_IOCTL_DATA_UNSPECIFIED then
    mret SPT_ERROR_DIRECTION
  else
    Cdb0 ← load Cdb 0;
    if (Cdb0 =? 0x7e) || (Cdb0 =? 0x7f) then
      mret SPT_ERROR_EXTENDED_CDB
    else if (Cdb0 >=? 0xc0) && negb (Cdb0 =? USB_JMICRON_ATA_PASSTHROUGH)
            && negb (Cdb0 =? USB_SUNPLUS_ATA_PASSTHROUGH) then
      mret SPT_ERROR_CDB_OPCODE
    else
      cdb ← lift (memcpy (replicate 16 0) Cdb (Z.to_nat CdbLen));
      let sptd := {|
        sptd_Length := sizeof_SCSI_PASS_THROUGH_DIRECT;
        sptd_PathId := 0;
        sptd_TargetId := 0;
        sptd_Lun := 0;
        sptd_CdbLength := uint8_t CdbLen;
        sptd_DataIn := Direction;
        sptd_SenseInfoLength := SPT_SENSE_LENGTH;
        sptd_DataTransferLength := uint16_t BufLen;
        sptd_TimeOutValue := Timeout;
        sptd_DataBuffer := DataBuffer;
        sptd_SenseInfoOffset := offsetof_SenseBuf;
        sptd_Cdb := cdb;
      |} in
      res ← io_control hPhysical sptd;
      if ioctl_ret res && (ioctl_ScsiStatus res =? 0) then
        mret SPT_SUCCESS
      else if negb (ioctl_ScsiStatus res =? 0) then
        mret (ioctl_ScsiStatus res)
      else
        err ← get_last_error;
        if err =? ERROR_SEM_TIMEOUT then mret SPT_ERROR_TIMEOUT
        else if err =? ERROR_INVALID_PARAMETER then
          mret SPT_ERROR_INVALID_PARAMETER
        else mret SPT_ERROR_UNKNOWN_ERROR.

(** The array [Cdb] of SatAtaPassthrough when it is handed to
    ScsiPassthroughDirect. *)
Definition SatAtaPassthrough_Cdb (Command : ATA_PASSTHROUGH_CMD) (BufLen : Z)
    : list Z :=
  let Cdb := replicate 12 0 in
  let extend := 0 in
  let ck_cond := 0 in
  let protocol := 3 in
  let t_dir := 1 in
  let byte_block := 1 in
  let t_length := 0 in
  let Direction := GetAtaDirection (AtaCmd Command) (Features Command) in
  let '(protocol, t_length, t_dir) :=
    if negb (BufLen =? 0) then
      if Direction =? ATA_PASSTHROUGH_DATA_NONE then
        (protocol, t_length, t_dir)
      else if Direction =? ATA_PASSTHROUGH_DATA_IN then
        (4, 2, t_dir)
      else if Direction =? ATA_PASSTHROUGH_DATA_OUT then
        (5, 2, 0)
      else (protocol, t_length, t_dir)
    else (protocol, t_length, t_dir) in
  let Cdb := <[0%nat := SAT_ATA_PASSTHROUGH_12]> Cdb in
  let Cdb := <[1%nat := Z.lor (Z.shiftl protocol 1) extend]> Cdb in
  let Cdb := <[2%nat := Z.lor (Z.lor (Z.lor (Z.shiftl ck_cond 5)
                (Z.shiftl t_dir 3)) (Z.shiftl byte_block 2)) t_length]> Cdb in
  let Cdb := <[3%nat := Features Command]> Cdb in
  let Cdb := <[4%nat := uint8_t (Z.shiftr BufLen SECTOR_SIZE_SHIFT_BIT)]> Cdb in
  let Cdb := <[5%nat := Lba_low Command]> Cdb in
  let Cdb := <[6%nat := Lba_mid Command]> Cdb in
  let Cdb := <[7%nat := Lba_high Command]> Cdb in
  let Cdb := <[8%nat := Device Command]> Cdb in
  let Cdb := <[9%nat := AtaCmd Command]> Cdb in
  Cdb.

(** [static int SatAtaPassthrough(HANDLE hPhysical,
      ATA_PASSTHROUGH_CMD* Command, void* DataBuffer, size_t BufLen,
      uint32_t Timeout)] *)
Definition SatAtaPassthrough (hPhysical : Z) (Command : ATA_PASSTHROUGH_CMD)
    (DataBuffer : Z) (BufLen : Z) (Timeout : Z) : M Z :=
  if negb (BufLen mod 512 =? 0) then
    uprintf "SatAtaPassthrough: BufLen must be a multiple of <block size>\n" [];;
    mret SPT_ERROR_BUFFER
  else
    let Direction := GetAtaDirection (AtaCmd Command) (Features Command) in
    ScsiPassthroughDirect hPhysical (SatAtaPassthrough_Cdb Command BufLen) 12
      Direction DataBuffer BufLen Timeout.

(** The array [Cdb] of _UsbJMPLAtaPassthrough. *)
Definition _UsbJMPLAtaPassthrough_Cdb (Command : ATA_PASSTHROUGH_CMD)
    (BufLen : Z) : list Z :=
  let Cdb := replicate 14 0 in
  let Direction := GetAtaDirection (AtaCmd Command) (Features Command) in
  let Cdb := <[0%nat := USB_JMICRON_ATA_PASSTHROUGH]> Cdb in
  let Cdb := <[1%nat := if negb (BufLen =? 0)
                           && (Direction =? ATA_PASSTHROUGH_DATA_OUT)
                        then 0x00 else 0x10]> Cdb in
  let Cdb := <[3%nat := uint8_t (Z.shiftr BufLen 8)]> Cdb in
  let Cdb := <[4%nat := uint8_t BufLen]> Cdb in
  let Cdb := <[5%nat := Features Command]> Cdb in
  let Cdb := <[6%nat := uint8_t (Z.shiftr BufLen SECTOR_SIZE_SHIFT_BIT)]> Cdb in
  let Cdb := <[7%nat := Lba_low Command]> Cdb in
  let Cdb := <[8%nat := Lba_mid Command]> Cdb in
  let Cdb := <[9%nat := Lba_high Command]> Cdb in
  let Cdb := <[10%nat := Device Command]> Cdb in
  let Cdb := <[11%nat := AtaCmd Command]> Cdb in
  (* Prolific PL3507 *)
  let Cdb := <[12%nat := 0x06]> Cdb in
  let Cdb := <[13%nat := 0x7b]> Cdb in
  Cdb.

(** [static int _UsbJMPLAtaPassthrough(..., BOOL prolific)] *)
Definition _UsbJMPLAtaPassthrough (hPhysical : Z)
    (Command : ATA_PASSTHROUGH_CMD) (DataBuffer : Z) (BufLen : Z)
    (Timeout : Z) (prolific : bool) : M Z :=
  let Direction := GetAtaDirection (AtaCmd Command) (Features Command) in
  ScsiPassthroughDirect hPhysical (_UsbJMPLAtaPassthrough_Cdb Command BufLen)
    (14 - (if prolific then 2 else 0)) Direction DataBuffer BufLen Timeout.

Definition UsbJmicronAtaPassthrough (hPhysical : Z)
    (Command : ATA_PASSTHROUGH_CMD) (DataBuffer : Z) (BufLen : Z)
    (Timeout : Z) : M Z :=
  _UsbJMPLAtaPassthrough hPhysical Command DataBuffer BufLen Timeout false.

Definition UsbProlificAtaPassthrough (hPhysical : Z)
    (Command : ATA_PASSTHROUGH_CMD) (DataBuffer : Z) (BufLen : Z)
    (Timeout : Z) : M Z :=
  _UsbJMPLAtaPassthrough hPhysical Command DataBuffer BufLen Timeout true.

(** The array [Cdb] of UsbSunPlusAtaPassthrough. *)
Definition UsbSunPlusAtaPassthrough_Cdb (Command : ATA_PASSTHROUGH_CMD)
    (BufLen : Z) : list Z :=
  let Cdb := replicate 12 0 in
  let Direction := GetAtaDirection (AtaCmd Command) (Features Command) in
  let Cdb := <[0%nat := USB_SUNPLUS_ATA_PASSTHROUGH]> Cdb in
  let Cdb := <[2%nat := 0x22]> Cdb in
  let Cdb :=
    if negb (BufLen =? 0) then
      if Direction =? ATA_PASSTHROUGH_DATA_IN then <[3%nat := 0x10]> Cdb
      else if Direction =? ATA_PASSTHROUGH_DATA_OUT then <[3%nat := 0x11]> Cdb
      else Cdb
    else Cdb in
  let Cdb := <[4%nat := uint8_t (Z.shiftr BufLen SECTOR_SIZE_SHIFT_BIT)]> Cdb in
  let Cdb := <[5%nat := Features Command]> Cdb in
  let Cdb := <[6%nat := uint8_t (Z.shiftr BufLen SECTOR_SIZE_SHIFT_BIT)]> Cdb in
  let Cdb := <[7%nat := Lba_low Command]> Cdb in
  let Cdb := <[8%nat := Lba_mid Command]> Cdb in
  let Cdb := <[9%nat := Lba_high Command]> Cdb in
  let Cdb := <[10%nat := Z.lor (Device Command) 0xa0]> Cdb in
  let Cdb := <[11%nat := AtaCmd Command]> Cdb in
  Cdb.

Definition UsbSunPlusAtaPassthrough (hPhysical : Z)
    (Command : ATA_PASSTHROUGH_CMD) (DataBuffer : Z) (BufLen : Z)
    (Timeout : Z) : M Z :=
  let Direction := GetAtaDirection (AtaCmd Command) (Features Command) in
  ScsiPassthroughDirect hPhysical (UsbSunPlusAtaPassthrough_Cdb Command BufLen)
    12 Direction DataBuffer BufLen Timeout.

(** The array [Cdb] of UsbCypressAtaPassthrough. *)
Definition UsbCypressAtaPassthrough_Cdb (Command : ATA_PASSTHROUGH_CMD)
    (BufLen : Z) : list Z :=
  let Cdb := replicate 16 0 in
  let Cdb := <[0%nat := USB_CYPRESS_ATA_PASSTHROUGH]> Cdb in
  let Cdb := <[1%nat := USB_CYPRESS_ATA_PASSTHROUGH]> Cdb in
  let Cdb :=
    if (AtaCmd Command =? ATA_IDENTIFY_DEVICE)
       || (AtaCmd Command =? ATA_IDENTIFY_PACKET_DEVICE)
    then <[2%nat := Z.shiftl 1 7]> Cdb else Cdb in
  let Cdb := <[3%nat := 0xff - Z.shiftl 1 0 - Z.shiftl 1 6]> Cdb in
  let Cdb := <[4%nat := 1]> Cdb in
  let Cdb := <[6%nat := Features Command]> Cdb in
  let Cdb := <[7%nat := uint8_t (Z.shiftr BufLen SECTOR_SIZE_SHIFT_BIT)]> Cdb in
  let Cdb := <[8%nat := Lba_low Command]> Cdb in
  let Cdb := <[9%nat := Lba_mid Command]> Cdb in
  let Cdb := <[10%nat := Lba_high Command]> Cdb in
  let Cdb := <[11%nat := Device Command]> Cdb in
  let Cdb := <[12%nat := AtaCmd Command]> Cdb in
  Cdb.

Definition UsbCypressAtaPassthrough (hPhysical : Z)
    (Command : ATA_PASSTHROUGH_CMD) (DataBuffer : Z) (BufLen : Z)
    (Timeout : Z) : M Z :=
  let Direction := GetAtaDirection (AtaCmd Command) (Features Command) in
  ScsiPassthroughDirect hPhysical (UsbCypressAtaPassthrough_Cdb Command BufLen)
    16 Direction DataBuffer BufLen Timeout.

(** ** The bridges, and Identify *)

Record AtaPassThroughType : Type := {
  fn : Z → ATA_PASSTHROUGH_CMD → Z → Z → Z → M Z;
  type : string;
}.

(** The various bridges we will try, in order *)
Definition pt : list AtaPassThroughType := [
  {| fn := SatAtaPassthrough; type := "SAT" |};
  {| fn := UsbJmicronAtaPassthrough; type := "JMicron" |};
  {| fn := UsbProlificAtaPassthrough; type := "Prolific" |};
  {| fn := UsbSunPlusAtaPassthrough; type := "SunPlus" |};
  {| fn := UsbCypressAtaPassthrough; type := "Cypress" |}
].

Definition sizeof_IDENTIFY_DEVICE_DATA : Z := 512.

(** [idd->CommandSetSupport.SmartCommands], read from the block. *)
Definition SmartCommands (idd : list Z) : option bool :=
  b ← idd !! offsetof_CommandSetSupport;
  Some (Z.testbit b bitof_SmartCommands).

Definition read_SmartCommands : M bool := λ s,
  match SmartCommands (block s) with
  | Some b => Some (b, s)
  | None => None
  end.

Definition dump_idd : M unit := λ s,
  emit (DumpBufferHex (block s) sizeof_IDENTIFY_DEVICE_DATA) s.

(** The [for] loop of Identify over the entries [pt[i], pt[i+1], ...];
    the result is the value of [i] when the loop is left. *)
Fixpoint Identify_for (entries : list AtaPassThroughType) (i : Z)
    (hPhysical : Z) (Command : ATA_PASSTHROUGH_CMD) (idd : Z) : M Z :=
  match entries with
  | [] => mret i
  | pt_i :: entries' =>
      r ← fn pt_i hPhysical Command idd sizeof_IDENTIFY_DEVICE_DATA
             SPT_TIMEOUT_VALUE;
      if r =? SPT_SUCCESS then
        uprintf "Success using %s\n" [type pt_i];;
        smart ← read_SmartCommands;
        (if smart : bool then
           dump_idd;;
           uprintf "SMART support detected!\n" []
         else
           uprintf "No SMART support\n" []);;
        mret i
      else
        uprintf "No joy with: %s (%s)\n" [type pt_i; SptStrerr r];;
        Identify_for entries' (i + 1) hPhysical Command idd
  end.

(** [BOOL Identify(HANDLE hPhysical)].  [idd] is what [_aligned_malloc]
    returned: [None] for NULL, else the address of the new block, whose
    bytes are the [block] of the state. *)
Definition Identify (hPhysical : Z) (idd : option Z) : M Z :=
  let Command := {| AtaCmd := ATA_IDENTIFY_DEVICE; Features := 0;
                    Lba_low := 0; Lba_mid := 0; Lba_high := 0;
                    Device := 0 |} in
  match idd with
  | None => mret FALSE
  | Some idd =>
      i ← Identify_for pt 0 hPhysical Command idd;
      (if i >=? Z.of_nat (length pt) then uprintf "NO ATA FOR YOU!\n" []
       else mret ());;
      mret TRUE
  end.
End Passthrough.

(** ** C strings *)

(** A [const char*] is [None] for NULL, else the array it points to.  The
    array of a string: its characters, then the terminator. *)
Definition c_array (s : string) : list ascii :=
  String.list_ascii_of_string s ++ [Ascii.zero].

(** The pointer to the NUL-terminated string with the characters of [s]. *)
Definition c_str (s : string) : option (list ascii) := Some (c_array s).

(** The value of a [char] (a signed type with the compilers Rufus uses). *)
Definition char_val (c : ascii) : Z :=
  let n := Z.of_N (Ascii.N_of_ascii c) in
  if n <? 128 then n else n - 256.

(** [strlen]: the number of characters before the first NUL; running off
    the array is an out-of-bounds read. *)
Fixpoint strlen (str : list ascii) : option nat :=
  match str with
  | [] => None
  | c :: str' => if Ascii.eqb c Ascii.zero then Some O else S <$> strlen str'
  end.

(** [safe_strlen] of rufus.h: [strlen] that gives 0 for NULL. *)
Definition safe_strlen (str : option (list ascii)) : option nat :=
  match str with
  | None => Some O
  | Some a => strlen a
  end.

(** [tolower] in the C locale, on the code of a character. *)
Definition tolower (c : Z) : Z :=
  if (65 <=? c) && (c <=? 90) then c + 32 else c.

(** [_strnicmp(string1, string2, count)] of the C runtime: compares at most
    [count] characters without regard to case and stops after a NUL. *)
Fixpoint _strnicmp (string1 string2 : list ascii) (count : nat) : option Z :=
  match count with
  | O => Some 0
  | S count' =>
      c1 ← head string1;
      c2 ← head string2;
      let f := tolower (Z.of_N (Ascii.N_of_ascii c1)) in
      let l := tolower (Z.of_N (Ascii.N_of_ascii c2)) in
      if negb (f =? l) then Some (f - l)
      else if f =? 0 then Some 0
      else _strnicmp (tail string1) (tail string2) count'
  end.

(** ** The HDD score *)

(** [str_score] and [vid_score]; both structures of the source name their
    second field [score]. *)
Record str_score : Type := { name : string; str_score_score : Z }.
Record vid_score : Type := { vid_score_vid : Z; vid_score_score : Z }.

(** '#' below means any number in [0-9] *)
Definition manufacturer_str : list str_score := [
  {| name := "HP "; str_score_score := 10 |};
  {| name := "ST#"; str_score_score := 10 |};
  {| name := "MX#"; str_score_score := 10 |};
  {| name := "WDC"; str_score_score := 10 |};
  {| name := "IBM"; str_score_score := 10 |};
  {| name := "STM#"; str_score_score := 10 |};
  {| name := "HTS#"; str_score_score := 10 |};
  {| name := "MAXTOR"; str_score_score := 10 |};
  {| name := "HITACHI"; str_score_score := 10 |};
  {| name := "SEAGATE"; str_score_score := 10 |};
  {| name := "SAMSUNG"; str_score_score := 10 |};
  {| name := "FUJITSU"; str_score_score := 10 |};
  {| name := "TOSHIBA"; str_score_score := 10 |};
  {| name := "QUANTUM"; str_score_score := 10 |}
].

Definition manufacturer_vid : list vid_score := [
  {| vid_score_vid := 0x04b4; vid_score_score := 10 |};  (* Cypress *)
  {| vid_score_vid := 0x067b; vid_score_score := 10 |};  (* Prolific *)
  {| vid_score_vid := 0x0bc2; vid_score_score := 10 |};  (* Seagate *)
  {| vid_score_vid := 0x152d; vid_score_score := 10 |}   (* JMicron *)
].

(** The first [for] loop of IsHDD over the entries
    [manufacturer_str[i], manufacturer_str[i+1], ...]; the result is [score]
    when the loop is left.  The two operands of [&&] are evaluated in order,
    the second only when the first holds. *)
Fixpoint IsHDD_for_str (entries : list str_score) (strid : option (list ascii))
    (ilen : nat) (score : Z) : option Z :=
  match entries with
  | [] => Some score
  | e :: entries' =>
      let name_i := c_array (name e) in
      mlen ← strlen name_i;
      if (ilen <? mlen)%nat then Some score
      else
        (* name[mlen-1]; for mlen = 0 the index is SIZE_MAX *)
        last ← match mlen with O => None | S m => name_i !! m end;
        let wc := Ascii.eqb last "#" in
        str ← strid;
        r ← _strnicmp str name_i (mlen - (if wc then 1 else 0));
        if r =? 0 then
          if negb wc then Some (score + str_score_score e)
          else
            c ← str !! mlen;
            if (char_val c >=? char_val "0") && (char_val c <=? char_val "9")
            then Some (score + str_score_score e)
            else IsHDD_for_str entries' strid ilen score
        else IsHDD_for_str entries' strid ilen score
  end.

(** The second [for] loop of IsHDD. *)
Fixpoint IsHDD_for_vid (entries : list vid_score) (vid : Z) (score : Z) : Z :=
  match entries with
  | [] => score
  | e :: entries' =>
      if vid =? vid_score_vid e then score + vid_score_score e
      else IsHDD_for_vid entries' vid score
  end.

(** [int IsHDD(UINT drive_type, uint16_t vid, uint16_t pid,
      const char* strid)] *)
Definition IsHDD (drive_type : Z) (vid : Z) (pid : Z)
    (strid : option (list ascii)) : option Z :=
  let score := 0 in
  let score := if drive_type =? DRIVE_FIXED then score + 3 else score in
  ilen ← safe_strlen strid;
  score ← IsHDD_for_str manufacturer_str strid ilen score;
  Some (IsHDD_for_vid manufacturer_vid vid score).

(** ** The manufacturer match in the words of the specification *)

Module Spec.
Definition is_digit (c : ascii) : bool :=
  let n := Ascii.N_of_ascii c in ((48 <=? n) && (n <=? 57))%N.

Definition lower (c : ascii) : ascii :=
  let n := Ascii.N_of_ascii c in
  if ((65 <=? n) && (n <=? 90))%N then Ascii.ascii_of_N (n + 32) else c.

(** [s] starts with [p], case-insensitively. *)
Fixpoint starts_with (p s : list ascii) : bool :=
  match p, s with
  | [], _ => true
  | _ :: _, [] => false
  | a :: p', b :: s' => Ascii.eqb (lower a) (lower b) && starts_with p' s'
  end.

(** The entry is a wildcard entry: a literal followed by '#'. *)
Definition is_wildcard (e : list ascii) : bool :=
  match last e with
  | Some c => Ascii.eqb c "#"
  | None => false
  end.

(** A table entry matches [s]: a literal entry when [s] starts with it; a
    wildcard entry (a literal followed by '#') when [s] starts with the
    literal followed immediately by at least one ASCII digit. *)
Definition entry_matches (entry : string) (s : string) : bool :=
  let e := String.list_ascii_of_string entry in
  let l := String.list_ascii_of_string s in
  if is_wildcard e then
    let lit := take (length e - 1) e in
    starts_with lit l &&
    match l !! length lit with
    | Some c => is_digit c
    | None => false
    end
  else starts_with e l.

(** The scan of the table: it stops at the first entry whose prefix is
    longer than [s] and at the first entry that matches. *)
Fixpoint scan (entries : list str_score) (s : string) : bool :=
  match entries with
  | [] => false
  | e :: entries' =>
      if (String.length s <? String.length (name e))%nat then false
      else if entry_matches (name e) s then true
      else scan entries' s
  end.

(** The +10 of the manufacturer string is awarded. *)
Definition manufacturer_match (s : string) : bool :=
  scan manufacturer_str s.
End Spec.

(** ** The manufacturer match as the loop of IsHDD computes it *)

Module Loop.
(** As [Spec.entry_matches], but for a wildcard entry the digit is looked for
    at [strid[mlen]], one character after the place of '#'. *)
Definition entry_matches (entry : string) (s : string) : bool :=
  let e := String.list_ascii_of_string entry in
  let l := String.list_ascii_of_string s in
  if Spec.is_wildcard e then
    let lit := take (length e - 1) e in
    Spec.starts_with lit l &&
    match l !! length e with
    | Some c => Spec.is_digit c
    | None => false
    end
  else Spec.starts_with e l.

(** The points the scan of the table awards. *)
Fixpoint award (entries : list str_score) (s : string) : Z :=
  match entries with
  | [] => 0
  | e :: entries' =>
      if (String.length s <? String.length (name e))%nat then 0
      else if entry_matches (name e) s then str_score_score e
      else award entries' s
  end.
End Loop.

(** A name of the table: not empty, and without NUL. *)
Definition good_name (e : str_score) : Prop :=
  String.list_ascii_of_string (name e) ≠ [] ∧
  Ascii.zero ∉ String.list_ascii_of_string (name e).

(** ** What ScsiPassthroughDirect submits, and what Identify logs *)

Section Observations.
Context {H : SmartH} {D : Host}.

(** The structure that ScsiPassthroughDirect hands to DeviceIoControl once
    its checks have passed: the fields as lines 129-141 of the source set
    them, [cdb] being the 16 bytes of [sptd.Cdb] after the [memcpy]. *)
Definition submitted (cdb : list Z) (CdbLen Direction DataBuffer BufLen
    Timeout : Z) : SCSI_PASS_THROUGH_DIRECT := {|
  sptd_Length := sizeof_SCSI_PASS_THROUGH_DIRECT;
  sptd_PathId := 0;
  sptd_TargetId := 0;
  sptd_Lun := 0;
  sptd_CdbLength := uint8_t CdbLen;
  sptd_DataIn := Direction;
  sptd_SenseInfoLength := SPT_SENSE_LENGTH;
  sptd_DataTransferLength := uint16_t BufLen;
  sptd_TimeOutValue := Timeout;
  sptd_DataBuffer := DataBuffer;
  sptd_SenseInfoOffset := offsetof_SenseBuf;
  sptd_Cdb := cdb;
|}.

(** The value ScsiPassthroughDirect returns for what DeviceIoControl gave
    back and the error code of GetLastError. *)
Definition outcome (res : ioctl_result) (err : Z) : Z :=
  if ioctl_ret res && (ioctl_ScsiStatus res =? 0) then SPT_SUCCESS
  else if negb (ioctl_ScsiStatus res =? 0) then ioctl_ScsiStatus res
  else if err =? ERROR_SEM_TIMEOUT then SPT_ERROR_TIMEOUT
  else if err =? ERROR_INVALID_PARAMETER then SPT_ERROR_INVALID_PARAMETER
  else SPT_ERROR_UNKNOWN_ERROR.

(** The five checks of ScsiPassthroughDirect hold. *)
Definition checks_pass (Cdb : list Z) (CdbLen Direction DataBuffer BufLen : Z)
    : Prop :=
  0 < CdbLen ≤ 16 ∧ DataBuffer mod 16 = 0 ∧ BufLen ≤ 0xFFFF ∧
  Direction ≤ SCSI_IOCTL_DATA_UNSPECIFIED ∧
  ∃ op, Cdb !! 0%nat = Some op ∧ op ≠ 0x7e ∧ op ≠ 0x7f ∧
    (op < 0xc0 ∨ op = USB_JMICRON_ATA_PASSTHROUGH
     ∨ op = USB_SUNPLUS_ATA_PASSTHROUGH).

(** The fields of the CDB of SAT ATA PASS-THROUGH (12) where
    SatAtaPassthrough packs them: byte 1 is [(protocol << 1) | extend],
    byte 2 is [(ck_cond << 5) | (t_dir << 3) | (byte_block << 2) |
    t_length]. *)
Definition sat_protocol (Cdb : list Z) : option Z :=
  b ← Cdb !! 1%nat; Some (Z.land (Z.shiftr b 1) 0xF).
Definition sat_t_length (Cdb : list Z) : option Z :=
  b ← Cdb !! 2%nat; Some (Z.land b 3).

(** The bridges that a log shows as tried, in order: one line of Identify
    follows each call of a bridge function. *)
Definition attempts (log : list event) : list string :=
  omap (λ e,
    match e with
    | Uprintf "Success using %s\n" [t] => Some t
    | Uprintf "No joy with: %s (%s)\n" [t; _] => Some t
    | _ => None
    end) log.

(** The bridges that a log shows as successful. *)
Definition successes (log : list event) : list string :=
  omap (λ e,
    match e with
    | Uprintf "Success using %s\n" [t] => Some t
    | _ => None
    end) log.

(** What a log says about the S.M.A.R.T. capability: [true] for each
    "SMART support detected!", [false] for each "No SMART support". *)
Definition smart_reports (log : list event) : list bool :=
  omap (λ e,
    match e with
    | Uprintf "SMART support detected!\n" [] => Some true
    | Uprintf "No SMART support\n" [] => Some false
    | _ => None
    end) log.

(** The log says that no bridge worked. *)
Definition no_ata (log : list event) : bool :=
  existsb (λ e,
    match e with
    | Uprintf "NO ATA FOR YOU!\n" [] => true
    | _ => false
    end) log.

Section Failing.
Variables (hPhysical : Z) (Command : ATA_PASSTHROUGH_CMD) (idd : Z).

(** [failing entries s s']: from the state [s], Identify calls the
    bridge functions of [entries] one after the other, none returns
    SPT_SUCCESS, and the state is [s'] after the last "No joy" line. *)
Inductive failing : list AtaPassThroughType → St → St → Prop :=
  | failing_nil (s : St) : failing [] s s
  | failing_cons (pt_i : AtaPassThroughType)
      (entries : list AtaPassThroughType) (s s1 s2 s' : St) (r : Z) :
      fn pt_i hPhysical Command idd sizeof_IDENTIFY_DEVICE_DATA
         SPT_TIMEOUT_VALUE s = Some (r, s1) →
      r ≠ SPT_SUCCESS →
      uprintf "No joy with: %s (%s)\n" [type pt_i; SptStrerr r] s1
        = Some ((), s2) →
      failing entries s2 s' →
      failing (pt_i :: entries) s s'.
End Failing.

(** What the bridge functions add to the trace: device requests and the
    complaint of SatAtaPassthrough, no line of Identify. *)
Definition bridge_events (evs : list event) : Prop :=
  attempts evs = [] ∧ successes evs = [] ∧ smart_reports evs = [] ∧
  no_ata evs = false.

(** A computation that keeps the size of the block and adds only such
    events. *)
Definition quiet {A} (m : M A) : Prop :=
  ∀ (s s' : St) (r : A), m s = Some (r, s') →
    length (block s') = length (block s) ∧
    ∃ evs, trace s' = trace s ++ evs ∧ bridge_events evs.

(** The command that Identify issues. *)
Definition identify_command : ATA_PASSTHROUGH_CMD :=
  {| AtaCmd := ATA_IDENTIFY_DEVICE; Features := 0; Lba_low := 0;
     Lba_mid := 0; Lba_high := 0; Device := 0 |}.
End Observations.

(** ** Devices for the examples *)

(** A drive behind a bridge: a request that [accepts] recognises succeeds
    and transfers [data]; every other request ends with the SCSI status
    CHECK CONDITION.  The world counts the requests. *)
Definition bridge (accepts : SCSI_PASS_THROUGH_DIRECT → bool) (data : list Z)
    : Host := {|
  World := nat;
  DeviceIoControl := λ w _ sptd _,
    if accepts sptd
    then ({| ioctl_ret := true; ioctl_ScsiStatus := 0; ioctl_data := data |},
          S w)
    else ({| ioctl_ret := true; ioctl_ScsiStatus := 2; ioctl_data := [] |},
          S w);
  GetLastError := λ _, 0;
|}.

(** The 12-byte form of the JMicron command, and no other. *)
Definition prolific_only (sptd : SCSI_PASS_THROUGH_DIRECT) : bool :=
  bool_decide (sptd_Cdb sptd !! 0%nat = Some 0xDF) && (sptd_CdbLength sptd =? 12).

(** IDENTIFY DEVICE data in which only bit 0 of word 82 may be set. *)
Definition identify_data (smart : bool) : list Z :=
  replicate 164 0 ++ [if smart then 1 else 0] ++ replicate 347 0.

(** ** Further notions for the properties of the code *)

(** The convention of the comment on ScsiPassthroughDirect: "Returns 0
    (SPT_SUCCESS) on success, a positive SCSI Status in case of an SCSI
    error or negative otherwise". *)
Record SmartH_signs (H : SmartH) : Prop := {
  success_zero : SPT_SUCCESS = 0;
  errors_negative :
    Forall (λ e, e < 0)
      [SPT_ERROR_CDB_LENGTH; SPT_ERROR_BUFFER; SPT_ERROR_DIRECTION;
       SPT_ERROR_EXTENDED_CDB; SPT_ERROR_CDB_OPCODE; SPT_ERROR_TIMEOUT;
       SPT_ERROR_INVALID_PARAMETER; SPT_ERROR_CHECK_STATUS;
       SPT_ERROR_UNKNOWN_ERROR];
}.

(** [ScsiStatus] is a [UCHAR]: the device leaves a byte in it. *)
Definition status_is_byte (D : Host) : Prop :=
  ∀ (w : World) (h : Z) (sptd : SCSI_PASS_THROUGH_DIRECT) (buf : list Z),
    0 ≤ ioctl_ScsiStatus (DeviceIoControl w h sptd buf).1 ≤ 255.

(** The value of an upper-case hexadecimal digit. *)
Definition hex_value (c : ascii) : option Z :=
  let n := Z.of_N (Ascii.N_of_ascii c) in
  if (48 <=? n) && (n <=? 57) then Some (n - 48)
  else if (65 <=? n) && (n <=? 70) then Some (n - 55)
  else None.

(** The requests that a log shows, in order, with their handles. *)
Definition requests (log : list event)
    : list (Z * SCSI_PASS_THROUGH_DIRECT) :=
  omap (λ e,
    match e with
    | IoControl h sptd => Some (h, sptd)
    | _ => None
    end) log.

(** A value that fits a [uint8_t]. *)
Definition is_byte (x : Z) : Prop := 0 ≤ x < 256.

(** A command whose fields are bytes, as their type says. *)
Definition byte_command (Command : ATA_PASSTHROUGH_CMD) : Prop :=
  is_byte (AtaCmd Command) ∧ is_byte (Features Command) ∧
  is_byte (Lba_low Command) ∧ is_byte (Lba_mid Command) ∧
  is_byte (Lba_high Command) ∧ is_byte (Device Command).

Section Header_conditions.
Context {H : SmartH}.

(** An opcode that passes the last two checks of ScsiPassthroughDirect. *)
Definition opcode_allowed (op : Z) : Prop :=
  op ≠ 0x7e ∧ op ≠ 0x7f ∧
  (op < 0xc0 ∨ op = USB_JMICRON_ATA_PASSTHROUGH
   ∨ op = USB_SUNPLUS_ATA_PASSTHROUGH).

(** The three directions of smart.h are among the values that
    ScsiPassthroughDirect takes ("Direction should be one of
    SCSI_IOCTL_DATA_###"). *)
Definition directions_recognized : Prop :=
  Forall (λ d, 0 ≤ d ≤ SCSI_IOCTL_DATA_UNSPECIFIED)
    [ATA_PASSTHROUGH_DATA_OUT; ATA_PASSTHROUGH_DATA_IN;
     ATA_PASSTHROUGH_DATA_NONE].

(** The [switch] of SptStrerr as a table. *)
Definition spt_messages : list (Z * string) := [
  (SPT_SUCCESS, "Success");
  (SPT_ERROR_CDB_LENGTH, "Invalid CDB length");
  (SPT_ERROR_BUFFER,
   "Buffer must be aligned to a page boundary and less than 64KB in size");
  (SPT_ERROR_DIRECTION, "Invalid Direction");
  (SPT_ERROR_EXTENDED_CDB,
   "Extended and variable length CDB commands are not supported");
  (SPT_ERROR_CDB_OPCODE, "Opcodes above 0xC0 are not supported");
  (SPT_ERROR_TIMEOUT, "Timeout");
  (SPT_ERROR_INVALID_PARAMETER, "Invalid DeviceIoControl parameter");
  (SPT_ERROR_CHECK_STATUS, "SCSI error (check Status)")
].
(** The four opcodes of the bridges pass the checks of
    ScsiPassthroughDirect. *)
Definition opcodes_allowed : Prop :=
  Forall opcode_allowed
    [SAT_ATA_PASSTHROUGH_12; USB_JMICRON_ATA_PASSTHROUGH;
     USB_SUNPLUS_ATA_PASSTHROUGH; USB_CYPRESS_ATA_PASSTHROUGH].
(** The four opcodes of the bridges are bytes, as the type of [Cdb] wants. *)
Definition byte_opcodes : Prop :=
  Forall is_byte
    [SAT_ATA_PASSTHROUGH_12; USB_JMICRON_ATA_PASSTHROUGH;
     USB_SUNPLUS_ATA_PASSTHROUGH; USB_CYPRESS_ATA_PASSTHROUGH].
End Header_conditions.

(** The first entry of a table with the key [k], else [d]. *)
Fixpoint table_find (tbl : list (Z * string)) (d : string) (k : Z) : string :=
  match tbl with
  | [] => d
  | (k', m) :: tbl' => if k =? k' then m else table_find tbl' d k
  end.

(** ** The requests of Identify *)

Section Identify_requests_def.
Context {H : SmartH}.

(** The five requests of Identify as they reach the device: the length of
    the CDB and the 16 bytes of [sptd.Cdb], for the command IDENTIFY DEVICE
    and a buffer of 512 bytes. *)
Definition identify_cdbs : list (Z * list Z) := [
  (12, [SAT_ATA_PASSTHROUGH_12; 0x08; 0x0E; 0; 1; 0; 0; 0; 0;
        ATA_IDENTIFY_DEVICE; 0; 0; 0; 0; 0; 0]);
  (14, [USB_JMICRON_ATA_PASSTHROUGH; 0x10; 0; 2; 0; 0; 1; 0; 0; 0; 0;
        ATA_IDENTIFY_DEVICE; 0x06; 0x7b; 0; 0]);
  (12, [USB_JMICRON_ATA_PASSTHROUGH; 0x10; 0; 2; 0; 0; 1; 0; 0; 0; 0;
        ATA_IDENTIFY_DEVICE; 0; 0; 0; 0]);
  (12, [USB_SUNPLUS_ATA_PASSTHROUGH; 0; 0x22; 0x10; 1; 0; 1; 0; 0; 0; 0xa0;
        ATA_IDENTIFY_DEVICE; 0; 0; 0; 0]);
  (16, [USB_CYPRESS_ATA_PASSTHROUGH; USB_CYPRESS_ATA_PASSTHROUGH; 0x80; 0xBE;
        1; 0; 0; 1; 0; 0; 0; 0; ATA_IDENTIFY_DEVICE; 0; 0; 0])
].

(** The request of Identify with the CDB [c], on the handle [hPhysical]
    and the buffer at [idd]. *)
Definition identify_request (hPhysical idd : Z) (c : Z * list Z)
    : Z * SCSI_PASS_THROUGH_DIRECT :=
  (hPhysical,
   {| sptd_Length := sizeof_SCSI_PASS_THROUGH_DIRECT;
      sptd_PathId := 0;
      sptd_TargetId := 0;
      sptd_Lun := 0;
      sptd_CdbLength := c.1;
      sptd_DataIn := ATA_PASSTHROUGH_DATA_IN;
      sptd_SenseInfoLength := SPT_SENSE_LENGTH;
      sptd_DataTransferLength := 512;
      sptd_TimeOutValue := SPT_TIMEOUT_VALUE;
      sptd_DataBuffer := idd;
      sptd_SenseInfoOffset := offsetof_SenseBuf;
      sptd_Cdb := c.2 |}).

Definition identify_requests (hPhysical idd : Z)
    : list (Z * SCSI_PASS_THROUGH_DIRECT) :=
  map (identify_request hPhysical idd) identify_cdbs.
End Identify_requests_def.

Section Sends.
Context {H : SmartH} {D : Host}.

(** A bridge function that, whenever it returns, has sent the request [q]
    and nothing else. *)
Definition sends (f : M Z) (q : Z * SCSI_PASS_THROUGH_DIRECT) : Prop :=
  ∀ (s s' : St) (r : Z), f s = Some (r, s') →
    trace s' = trace s ++ [IoControl q.1 q.2].
End Sends.

(** ** The tables of IsHDD *)

(** Some entry of the table matches, as the loop of IsHDD tests it. *)
Definition any_entry_matches (entries : list str_score) (s : string) : bool :=
  existsb (λ e, Loop.entry_matches (name e) s) entries.

(** The vendor ID is in the table. *)
Definition known_vid (vid : Z) : bool :=
  existsb (λ e, vid =? vid_score_vid e) manufacturer_vid.

(** The names of a table come in the order of their lengths. *)
Fixpoint by_length (entries : list str_score) : Prop :=
  match entries with
  | [] => True
  | e :: entries' =>
      Forall (λ e', (String.length (name e) ≤ String.length (name e'))%nat)
        entries' ∧ by_length entries'
  end.

(** * Properties *)

(** ** The header *)

Lemma acs_header_ok : SmartH_ok acs_header.
Proof. split; apply (bool_decide_unpack _); vm_compute; exact I. Qed.

(** Two entries of a duplicate-free list at different places differ. *)
Lemma NoDup_lookup_ne {A} (l : list A) (i j : nat) (x y : A) :
  NoDup l → l !! i = Some x → l !! j = Some y → i ≠ j → x ≠ y.
Proof. intros Hl Hi Hj Hij ->. apply Hij. eapply NoDup_lookup; eauto. Qed.

(** Case analysis on every integer equality test of the goal. *)
Ltac zbool :=
  repeat match goal with
  | |- context [?a =? ?b] =>
      destruct (Z.eqb_spec a b); simpl; try lia; try congruence
  end.

Section Labels.
Context {H : SmartH} (Hok : SmartH_ok H).

Lemma ata_cmd_distinct :
  ATA_IDENTIFY_DEVICE ≠ ATA_READ_LOG_EXT ∧
  ATA_IDENTIFY_DEVICE ≠ ATA_SMART_CMD ∧
  ATA_IDENTIFY_DEVICE ≠ ATA_DATA_SET_MANAGEMENT ∧
  ATA_READ_LOG_EXT ≠ ATA_SMART_CMD ∧
  ATA_READ_LOG_EXT ≠ ATA_DATA_SET_MANAGEMENT ∧
  ATA_SMART_CMD ≠ ATA_DATA_SET_MANAGEMENT.
Proof.
  pose proof (ata_cmd_labels _ Hok) as Hl.
  pose proof (NoDup_lookup_ne _ 0 1 _ _ Hl eq_refl eq_refl).
  pose proof (NoDup_lookup_ne _ 0 2 _ _ Hl eq_refl eq_refl).
  pose proof (NoDup_lookup_ne _ 0 3 _ _ Hl eq_refl eq_refl).
  pose proof (NoDup_lookup_ne _ 1 2 _ _ Hl eq_refl eq_refl).
  pose proof (NoDup_lookup_ne _ 1 3 _ _ Hl eq_refl eq_refl).
  pose proof (NoDup_lookup_ne _ 2 3 _ _ Hl eq_refl eq_refl).
  repeat split; auto with lia.
Qed.

Lemma direction_distinct :
  ATA_PASSTHROUGH_DATA_NONE ≠ ATA_PASSTHROUGH_DATA_IN ∧
  ATA_PASSTHROUGH_DATA_NONE ≠ ATA_PASSTHROUGH_DATA_OUT ∧
  ATA_PASSTHROUGH_DATA_IN ≠ ATA_PASSTHROUGH_DATA_OUT.
Proof.
  pose proof (direction_labels _ Hok) as Hl.
  pose proof (NoDup_lookup_ne _ 0 1 _ _ Hl eq_refl eq_refl).
  pose proof (NoDup_lookup_ne _ 0 2 _ _ Hl eq_refl eq_refl).
  pose proof (NoDup_lookup_ne _ 1 2 _ _ Hl eq_refl eq_refl).
  repeat split; auto with lia.
Qed.
End Labels.

(** ** GetAtaDirection *)

Section GetAtaDirection_facts.
Context {H : SmartH}.

(** The result is one of the three directions. *)
Lemma GetAtaDirection_range (AtaCmd Features : Z) :
  GetAtaDirection AtaCmd Features ∈
    [ATA_PASSTHROUGH_DATA_NONE; ATA_PASSTHROUGH_DATA_IN;
     ATA_PASSTHROUGH_DATA_OUT].
Proof.
  unfold GetAtaDirection. rewrite !elem_of_cons. zbool; auto.
Qed.

(** An opcode that is no label of the [switch] takes the default. *)
Lemma GetAtaDirection_default (AtaCmd Features : Z) :
  AtaCmd ∉ [ATA_IDENTIFY_DEVICE; ATA_READ_LOG_EXT; ATA_SMART_CMD;
            ATA_DATA_SET_MANAGEMENT] →
  GetAtaDirection AtaCmd Features = ATA_PASSTHROUGH_DATA_NONE.
Proof.
  intros Hop. repeat (rewrite not_elem_of_cons in Hop).
  unfold GetAtaDirection. zbool; tauto.
Qed.

(** C7.  For every Features value [f]: the SMART opcode resolves to
    DataOut with SMART_STATUS and with SMART_WRITE_LOG_SECTOR and to DataIn
    with every other [f]; DATA_SET_MANAGEMENT resolves to DataOut;
    IDENTIFY_DEVICE and READ_LOG_EXT resolve to DataIn; every opcode
    outside these four resolves to None; and every result is one of the
    three directions (the function is total and has no error case). *)
Theorem GetAtaDirection_spec (Hok : SmartH_ok H) (f : Z) :
  GetAtaDirection ATA_SMART_CMD ATA_SMART_STATUS
    = ATA_PASSTHROUGH_DATA_OUT ∧
  GetAtaDirection ATA_SMART_CMD ATA_SMART_WRITE_LOG_SECTOR
    = ATA_PASSTHROUGH_DATA_OUT ∧
  (f ≠ ATA_SMART_STATUS → f ≠ ATA_SMART_WRITE_LOG_SECTOR →
   GetAtaDirection ATA_SMART_CMD f = ATA_PASSTHROUGH_DATA_IN) ∧
  GetAtaDirection ATA_DATA_SET_MANAGEMENT f = ATA_PASSTHROUGH_DATA_OUT ∧
  GetAtaDirection ATA_IDENTIFY_DEVICE f = ATA_PASSTHROUGH_DATA_IN ∧
  GetAtaDirection ATA_READ_LOG_EXT f = ATA_PASSTHROUGH_DATA_IN ∧
  (∀ op : Z,
     op ∉ [ATA_IDENTIFY_DEVICE; ATA_READ_LOG_EXT; ATA_SMART_CMD;
           ATA_DATA_SET_MANAGEMENT] →
     GetAtaDirection op f = ATA_PASSTHROUGH_DATA_NONE) ∧
  (∀ op : Z,
     GetAtaDirection op f ∈
       [ATA_PASSTHROUGH_DATA_NONE; ATA_PASSTHROUGH_DATA_IN;
        ATA_PASSTHROUGH_DATA_OUT]).
Proof.
  destruct (ata_cmd_distinct Hok) as (? & ? & ? & ? & ? & ?).
  repeat split; try (unfold GetAtaDirection; intros; zbool; fail).
  - intros op. apply GetAtaDirection_default.
  - intros op. apply GetAtaDirection_range.
Qed.

(** C3, as the code has it.  IDENTIFY_PACKET_DEVICE is no label of the
    [switch] of GetAtaDirection: when its opcode differs from the four
    opcodes that are, it resolves to None for every Features value. *)
Theorem GetAtaDirection_identify_packet (f : Z) :
  ATA_IDENTIFY_PACKET_DEVICE ∉
    [ATA_IDENTIFY_DEVICE; ATA_READ_LOG_EXT; ATA_SMART_CMD;
     ATA_DATA_SET_MANAGEMENT] →
  GetAtaDirection ATA_IDENTIFY_PACKET_DEVICE f = ATA_PASSTHROUGH_DATA_NONE.
Proof. apply GetAtaDirection_default. Qed.
End GetAtaDirection_facts.

Lemma GetAtaDirection_spec_witness :
  GetAtaDirection (H := acs_header) 0xB0 0xDA = SCSI_IOCTL_DATA_OUT ∧
  GetAtaDirection (H := acs_header) 0xB0 0xD0 = SCSI_IOCTL_DATA_IN ∧
  GetAtaDirection (H := acs_header) 0xEC 0xD0 = SCSI_IOCTL_DATA_IN.
Proof.
  destruct (GetAtaDirection_spec (H := acs_header) acs_header_ok 0xD0)
    as (Hstatus & _ & Hin & _ & Hid & _).
  split; [exact Hstatus | split; [apply Hin; discriminate | exact Hid]].
Defined.

Lemma GetAtaDirection_identify_packet_witness :
  GetAtaDirection (H := acs_header) 0xA1 0 = SCSI_IOCTL_DATA_UNSPECIFIED.
Proof.
  apply (GetAtaDirection_identify_packet (H := acs_header) 0).
  apply (bool_decide_unpack _). vm_compute. exact I.
Defined.

(** C3 as stated fails: with the opcodes of the ATA command set,
    IDENTIFY PACKET DEVICE (A1h) does not resolve to DataIn. *)
Lemma GetAtaDirection_identify_packet_not_DataIn :
  GetAtaDirection (H := acs_header)
    (ATA_IDENTIFY_PACKET_DEVICE (SmartH := acs_header)) 0
  ≠ ATA_PASSTHROUGH_DATA_IN (SmartH := acs_header).
Proof. vm_compute. discriminate. Qed.

(** ** ScsiPassthroughDirect *)

(** Boolean tests of the source as propositions. *)
Ltac bprop E :=
  repeat first
    [ rewrite orb_true_iff in E | rewrite orb_false_iff in E
    | rewrite andb_true_iff in E | rewrite andb_false_iff in E
    | rewrite negb_true_iff in E | rewrite negb_false_iff in E
    | rewrite Z.eqb_eq in E | rewrite Z.eqb_neq in E
    | rewrite Z.gtb_ltb in E | rewrite Z.geb_leb in E
    | rewrite Z.ltb_lt in E | rewrite Z.ltb_ge in E
    | rewrite Z.leb_le in E | rewrite Z.leb_gt in E ].

Ltac btest b :=
  let E := fresh "E" in
  destruct b eqn:E; bprop E.

Section Transport.
Context {H : SmartH} {D : Host}.
Variables (hPhysical : Z) (Cdb : list Z).
Variables (CdbLen Direction DataBuffer BufLen Timeout : Z).

Local Abbreviation run :=
  (ScsiPassthroughDirect hPhysical Cdb CdbLen Direction DataBuffer BufLen
     Timeout).

(** Once the checks hold, exactly one request goes to the device: the
    first [CdbLen] bytes of [Cdb], padded with zeros. *)
Lemma ScsiPassthroughDirect_submits (s : St) :
  checks_pass Cdb CdbLen Direction DataBuffer BufLen →
  (Z.to_nat CdbLen ≤ length Cdb)%nat →
  let cdb :=
    take (Z.to_nat CdbLen) Cdb ++ replicate (16 - Z.to_nat CdbLen) 0 in
  let sptd := submitted cdb CdbLen Direction DataBuffer BufLen Timeout in
  let res := DeviceIoControl (world s) hPhysical sptd (block s) in
  run s = Some (outcome res.1 (GetLastError res.2),
                mkSt res.2 (dma_write (ioctl_data res.1) (block s))
                     (trace s ++ [IoControl hPhysical sptd])).
Proof.
  intros (Hlen & Hal & Hbuf & Hdir & op & Hop & H7e & H7f & Hvend) Hsrc.
  cbv zeta. unfold ScsiPassthroughDirect.
  btest ((CdbLen =? 0) || (CdbLen >? sizeof_sptd_Cdb));
    [unfold sizeof_sptd_Cdb in *; lia|].
  btest (negb (DataBuffer mod 16 =? 0) || (BufLen >? 65535)); [lia|].
  btest (Direction >? SCSI_IOCTL_DATA_UNSPECIFIED); [lia|].
  unfold mbind, M_bind, load. rewrite Hop.
  btest ((op =? 126) || (op =? 127)); [lia|].
  btest ((op >=? 192) && negb (op =? USB_JMICRON_ATA_PASSTHROUGH)
         && negb (op =? USB_SUNPLUS_ATA_PASSTHROUGH)); [lia|].
  unfold lift, memcpy. rewrite length_replicate.
  rewrite decide_True by lia.
  rewrite drop_replicate.
  unfold io_control.
  fold (submitted
          (take (Z.to_nat CdbLen) Cdb ++ replicate (16 - Z.to_nat CdbLen) 0)
          CdbLen Direction DataBuffer BufLen Timeout).
  destruct (DeviceIoControl _ _ _ _) as [res w]. cbn [fst snd].
  unfold outcome, get_last_error, mret, M_ret.
  destruct (ioctl_ret res && (ioctl_ScsiStatus res =? 0)); [reflexivity|].
  destruct (negb (ioctl_ScsiStatus res =? 0)); [reflexivity|].
  cbn beta iota delta [world].
  destruct (GetLastError w =? ERROR_SEM_TIMEOUT); [reflexivity|].
  destruct (GetLastError w =? ERROR_INVALID_PARAMETER); reflexivity.
Qed.

Lemma spt_errors_distinct (Hok : SmartH_ok H) :
  NoDup [SPT_ERROR_CDB_LENGTH; SPT_ERROR_BUFFER; SPT_ERROR_DIRECTION;
         SPT_ERROR_EXTENDED_CDB; SPT_ERROR_CDB_OPCODE].
Proof.
  eapply sublist_NoDup; [exact (spt_labels _ Hok)|].
  apply sublist_cons. do 5 apply sublist_skip. do 3 apply sublist_cons.
  apply sublist_nil.
Qed.

Lemma check_cdb_length (s : St) :
  CdbLen = 0 ∨ CdbLen > 16 → run s = Some (SPT_ERROR_CDB_LENGTH, s).
Proof.
  intros Hc. unfold ScsiPassthroughDirect.
  btest ((CdbLen =? 0) || (CdbLen >? sizeof_sptd_Cdb)); [reflexivity|].
  unfold sizeof_sptd_Cdb in *; lia.
Qed.

Lemma check_buffer (s : St) :
  0 < CdbLen ≤ 16 → DataBuffer mod 16 ≠ 0 ∨ BufLen > 0xFFFF →
  run s = Some (SPT_ERROR_BUFFER, s).
Proof.
  intros Hc Hb. unfold ScsiPassthroughDirect.
  btest ((CdbLen =? 0) || (CdbLen >? sizeof_sptd_Cdb));
    [unfold sizeof_sptd_Cdb in *; lia|].
  btest (negb (DataBuffer mod 16 =? 0) || (BufLen >? 65535));
    [reflexivity|lia].
Qed.

Lemma check_direction (s : St) :
  0 < CdbLen ≤ 16 → DataBuffer mod 16 = 0 → BufLen ≤ 0xFFFF →
  Direction > SCSI_IOCTL_DATA_UNSPECIFIED →
  run s = Some (SPT_ERROR_DIRECTION, s).
Proof.
  intros Hc Ha Hb Hd. unfold ScsiPassthroughDirect.
  btest ((CdbLen =? 0) || (CdbLen >? sizeof_sptd_Cdb));
    [unfold sizeof_sptd_Cdb in *; lia|].
  btest (negb (DataBuffer mod 16 =? 0) || (BufLen >? 65535)); [lia|].
  btest (Direction >? SCSI_IOCTL_DATA_UNSPECIFIED); [reflexivity|lia].
Qed.

Lemma check_opcode (s : St) (op : Z) :
  0 < CdbLen ≤ 16 → DataBuffer mod 16 = 0 → BufLen ≤ 0xFFFF →
  Direction ≤ SCSI_IOCTL_DATA_UNSPECIFIED →
  Cdb !! 0%nat = Some op →
  (op = 0x7e ∨ op = 0x7f → run s = Some (SPT_ERROR_EXTENDED_CDB, s)) ∧
  (0xc0 ≤ op → op ≠ USB_JMICRON_ATA_PASSTHROUGH →
   op ≠ USB_SUNPLUS_ATA_PASSTHROUGH →
   run s = Some (SPT_ERROR_CDB_OPCODE, s)).
Proof.
  intros Hc Ha Hb Hd Hop. unfold ScsiPassthroughDirect.
  btest ((CdbLen =? 0) || (CdbLen >? sizeof_sptd_Cdb));
    [unfold sizeof_sptd_Cdb in *; lia|].
  btest (negb (DataBuffer mod 16 =? 0) || (BufLen >? 65535)); [lia|].
  btest (Direction >? SCSI_IOCTL_DATA_UNSPECIFIED); [lia|].
  unfold mbind, M_bind, load. rewrite Hop.
  split.
  - intros Hx. btest ((op =? 126) || (op =? 127)); [reflexivity|lia].
  - intros Hge Hj Hs.
    btest ((op =? 126) || (op =? 127)); [lia|].
    btest ((op >=? 192) && negb (op =? USB_JMICRON_ATA_PASSTHROUGH)
           && negb (op =? USB_SUNPLUS_ATA_PASSTHROUGH)); [reflexivity|lia].
Qed.

(** A run of ScsiPassthroughDirect either leaves the state as it is, or has
    passed the five checks and sent one request. *)
Lemma ScsiPassthroughDirect_inv (s s' : St) (r : Z) :
  0 ≤ CdbLen →
  run s = Some (r, s') →
  s' = s ∨
  checks_pass Cdb CdbLen Direction DataBuffer BufLen ∧
  trace s' = trace s ++
    [IoControl hPhysical
       (submitted
          (take (Z.to_nat CdbLen) Cdb ++ replicate (16 - Z.to_nat CdbLen) 0)
          CdbLen Direction DataBuffer BufLen Timeout)].
Proof.
  intros Hlen0 Hrun.
  destruct (decide (CdbLen = 0 ∨ CdbLen > 16)) as [Hc|Hc].
  { rewrite check_cdb_length in Hrun by exact Hc. left. congruence. }
  assert (0 < CdbLen ≤ 16) as Hlen by lia.
  destruct (decide (DataBuffer mod 16 ≠ 0 ∨ BufLen > 65535)) as [Hb|Hb].
  { rewrite check_buffer in Hrun by auto. left. congruence. }
  assert (DataBuffer mod 16 = 0 ∧ BufLen ≤ 65535) as [Hal Hbuf] by lia.
  destruct (decide (Direction > SCSI_IOCTL_DATA_UNSPECIFIED)) as [Hd|Hd].
  { rewrite check_direction in Hrun by auto. left. congruence. }
  assert (Direction ≤ SCSI_IOCTL_DATA_UNSPECIFIED) as Hdir by lia.
  destruct (Cdb !! 0%nat) as [op|] eqn:Hop.
  2:{ exfalso. revert Hrun. unfold ScsiPassthroughDirect.
      btest ((CdbLen =? 0) || (CdbLen >? sizeof_sptd_Cdb));
        [unfold sizeof_sptd_Cdb in *; lia|].
      btest (negb (DataBuffer mod 16 =? 0) || (BufLen >? 65535)); [lia|].
      btest (Direction >? SCSI_IOCTL_DATA_UNSPECIFIED); [lia|].
      unfold mbind, M_bind, load. rewrite Hop. discriminate. }
  destruct (check_opcode s op Hlen Hal Hbuf Hdir Hop) as [Hext Hopc].
  destruct (decide (op = 0x7e ∨ op = 0x7f)) as [Hx|Hx].
  { rewrite Hext in Hrun by exact Hx. left. congruence. }
  destruct (decide (0xc0 ≤ op ∧ op ≠ USB_JMICRON_ATA_PASSTHROUGH
                    ∧ op ≠ USB_SUNPLUS_ATA_PASSTHROUGH)) as [Hv|Hv].
  { rewrite Hopc in Hrun by tauto. left. congruence. }
  assert (checks_pass Cdb CdbLen Direction DataBuffer BufLen) as Hpass.
  { repeat split; try lia. exists op. repeat split; try exact Hop; lia. }
  right. split; [exact Hpass|].
  destruct (decide (Z.to_nat CdbLen ≤ length Cdb)%nat) as [Hsrc|Hsrc].
  - rewrite (ScsiPassthroughDirect_submits s Hpass Hsrc) in Hrun.
    injection Hrun as _ <-. reflexivity.
  - exfalso. revert Hrun. unfold ScsiPassthroughDirect.
    btest ((CdbLen =? 0) || (CdbLen >? sizeof_sptd_Cdb));
      [unfold sizeof_sptd_Cdb in *; lia|].
    btest (negb (DataBuffer mod 16 =? 0) || (BufLen >? 65535)); [lia|].
    btest (Direction >? SCSI_IOCTL_DATA_UNSPECIFIED); [lia|].
    unfold mbind, M_bind, load. rewrite Hop.
    btest ((op =? 126) || (op =? 127)); [lia|].
    btest ((op >=? 192) && negb (op =? USB_JMICRON_ATA_PASSTHROUGH)
           && negb (op =? USB_SUNPLUS_ATA_PASSTHROUGH)); [lia|].
    unfold lift, memcpy. rewrite decide_False by tauto. discriminate.
Qed.
(** C5.  ScsiPassthroughDirect checks its request in this order, and each
    failed check returns its own error code with the state unchanged (no
    request reaches the device): the CDB length (0 or more than 16); then
    the buffer (address not a multiple of 16, or length above 65535);
    then the direction (none of the three SCSI_IOCTL_DATA values); then
    the opcode 0x7E or 0x7F; then an opcode from 0xC0 on that is neither
    the JMicron nor the SunPlus passthrough opcode.  With one of these two
    opcodes the request is submitted.  The five error codes are pairwise
    distinct.  [Direction] is a [uint8_t], hence not negative. *)
Theorem ScsiPassthroughDirect_validation (Hok : SmartH_ok H) (s : St) :
  0 ≤ Direction →
  (CdbLen = 0 ∨ CdbLen > 16 → run s = Some (SPT_ERROR_CDB_LENGTH, s)) ∧
  (0 < CdbLen ≤ 16 →
     (DataBuffer mod 16 ≠ 0 ∨ BufLen > 65535 →
      run s = Some (SPT_ERROR_BUFFER, s)) ∧
     (DataBuffer mod 16 = 0 → BufLen ≤ 65535 →
        (Direction ∉ [SCSI_IOCTL_DATA_OUT; SCSI_IOCTL_DATA_IN;
                      SCSI_IOCTL_DATA_UNSPECIFIED] →
         run s = Some (SPT_ERROR_DIRECTION, s)) ∧
        (Direction ∈ [SCSI_IOCTL_DATA_OUT; SCSI_IOCTL_DATA_IN;
                      SCSI_IOCTL_DATA_UNSPECIFIED] →
         ∀ op : Z, Cdb !! 0%nat = Some op →
           (op = 0x7e ∨ op = 0x7f →
            run s = Some (SPT_ERROR_EXTENDED_CDB, s)) ∧
           (0xc0 ≤ op → op ≠ USB_JMICRON_ATA_PASSTHROUGH →
            op ≠ USB_SUNPLUS_ATA_PASSTHROUGH →
            run s = Some (SPT_ERROR_CDB_OPCODE, s)) ∧
           (0xc0 ≤ op →
            op = USB_JMICRON_ATA_PASSTHROUGH
            ∨ op = USB_SUNPLUS_ATA_PASSTHROUGH →
            (Z.to_nat CdbLen ≤ length Cdb)%nat →
            ∃ (r : Z) (s' : St) (cdb : list Z),
              run s = Some (r, s') ∧
              trace s' = trace s ++
                [IoControl hPhysical
                   (submitted cdb CdbLen Direction DataBuffer BufLen
                      Timeout)])))) ∧
  NoDup [SPT_ERROR_CDB_LENGTH; SPT_ERROR_BUFFER; SPT_ERROR_DIRECTION;
         SPT_ERROR_EXTENDED_CDB; SPT_ERROR_CDB_OPCODE].
Proof.
  intros Hd0. split; [apply check_cdb_length|].
  split; [|apply spt_errors_distinct, Hok].
  intros Hlen. split; [apply check_buffer, Hlen|].
  intros Hal Hbuf. split.
  - intros Hdir. apply check_direction; auto.
    repeat (rewrite not_elem_of_cons in Hdir).
    unfold SCSI_IOCTL_DATA_OUT, SCSI_IOCTL_DATA_IN,
      SCSI_IOCTL_DATA_UNSPECIFIED in *. lia.
  - intros Hdir op Hop.
    assert (Direction ≤ SCSI_IOCTL_DATA_UNSPECIFIED) as Hle.
    { repeat (rewrite elem_of_cons in Hdir). rewrite elem_of_nil in Hdir.
      unfold SCSI_IOCTL_DATA_OUT, SCSI_IOCTL_DATA_IN,
        SCSI_IOCTL_DATA_UNSPECIFIED in *. lia. }
    destruct (check_opcode s op Hlen Hal Hbuf Hle Hop) as [Hext Hopc].
    split; [exact Hext|]. split; [exact Hopc|].
    intros Hge Hvend Hsrc.
    assert (checks_pass Cdb CdbLen Direction DataBuffer BufLen) as Hpass.
    { repeat split; try lia. exists op. repeat split; auto; lia. }
    pose proof (ScsiPassthroughDirect_submits s Hpass Hsrc) as Hrun.
    cbv zeta in Hrun.
    eexists _, _, _. split; [exact Hrun | reflexivity].
Qed.
End Transport.

Lemma ScsiPassthroughDirect_validation_witness :
  let s := mkSt (D := bridge (λ _, true) []) O (replicate 512 0) [] in
  ScsiPassthroughDirect (H := acs_header) 0 [0xC1] 1 SCSI_IOCTL_DATA_IN
    0x1000 512 2 s = Some (-5, s).
Proof.
  intros s.
  destruct (ScsiPassthroughDirect_validation (H := acs_header)
              (D := bridge (λ _, true) []) 0 [0xC1] 1 SCSI_IOCTL_DATA_IN
              0x1000 512 2 acs_header_ok s) as (_ & Hchk & _);
    [vm_compute; discriminate|].
  destruct Hchk as (_ & Hchk); [lia|].
  destruct Hchk as (_ & Hchk); [reflexivity | lia |].
  destruct (Hchk ltac:(apply (bool_decide_unpack _); vm_compute; exact I)
              0xC1 eq_refl) as (_ & Hopc & _).
  apply Hopc; [lia | discriminate | discriminate].
Defined.

(** ** The bridges *)

(** For a length that ScsiPassthroughDirect accepts, the sector count fits
    its byte. *)
Lemma sector_count_exact (BufLen : Z) :
  0 ≤ BufLen ≤ 0xFFFF → uint8_t (BufLen / 512) = BufLen / 512.
Proof.
  intros Hb. unfold uint8_t. apply Z.mod_small.
  split; [apply Z.div_pos; lia|]. apply Z.div_lt_upper_bound; lia.
Qed.

(** The two bytes [(uint8_t)(BufLen >> 8)] and [(uint8_t)BufLen] are the
    16-bit length, high byte first. *)
Lemma length_bytes_exact (BufLen : Z) :
  0 ≤ BufLen ≤ 0xFFFF →
  256 * uint8_t (Z.shiftr BufLen 8) + uint8_t BufLen = BufLen.
Proof.
  intros Hb. unfold uint8_t. rewrite Z.shiftr_div_pow2 by lia.
  change (2 ^ 8) with 256.
  rewrite (Z.mod_small (BufLen / 256)).
  - pose proof (Z.div_mod BufLen 256). lia.
  - split; [apply Z.div_pos; lia|]. apply Z.div_lt_upper_bound; lia.
Qed.

Section Bridges.
Context {H : SmartH} {D : Host}.
Variables (hPhysical : Z) (Command : ATA_PASSTHROUGH_CMD).
Variables (DataBuffer BufLen Timeout : Z).

Lemma sector_shift_div (Hok : SmartH_ok H) :
  Z.shiftr BufLen SECTOR_SIZE_SHIFT_BIT = BufLen / 512.
Proof. rewrite (sector_shift _ Hok). apply Z.shiftr_div_pow2. lia. Qed.

(** C6.  SatAtaPassthrough returns SPT_ERROR_BUFFER when [BufLen] is no
    multiple of 512, having logged one line and sent nothing to the
    device.  Otherwise it hands to ScsiPassthroughDirect, with length 12,
    a 12-byte CDB whose protocol field is 3 when no data is transferred
    (empty buffer or direction None), 4 for a data-in and 5 for a data-out
    transfer; whose t_length field is 2 (the sector-count field) when data
    is transferred and 0 otherwise; whose sector-count byte is
    [(uint8_t)(BufLen / 512)], which is [BufLen / 512] for every length up
    to 65535, the largest that ScsiPassthroughDirect accepts; and which
    holds Features, the three LBA bytes, the device byte and the ATA
    opcode as they are in the command.  Whenever SatAtaPassthrough sends a
    request to the device, it carries this CDB with length 12, and its
    sector-count byte is [BufLen / 512]. *)
Theorem SatAtaPassthrough_spec (Hok : SmartH_ok H) (s : St) :
  let Direction := GetAtaDirection (AtaCmd Command) (Features Command) in
  let Cdb := SatAtaPassthrough_Cdb Command BufLen in
  (BufLen mod 512 ≠ 0 →
   SatAtaPassthrough hPhysical Command DataBuffer BufLen Timeout s
   = Some (SPT_ERROR_BUFFER,
           mkSt (world s) (block s)
             (trace s ++
              [Uprintf
                 "SatAtaPassthrough: BufLen must be a multiple of <block size>\n"
                 []]))) ∧
  (BufLen mod 512 = 0 →
   SatAtaPassthrough hPhysical Command DataBuffer BufLen Timeout s
   = ScsiPassthroughDirect hPhysical Cdb 12 Direction DataBuffer BufLen
       Timeout s) ∧
  length Cdb = 12%nat ∧
  Cdb !! 0%nat = Some SAT_ATA_PASSTHROUGH_12 ∧
  (BufLen = 0 ∨ Direction = ATA_PASSTHROUGH_DATA_NONE →
   sat_protocol Cdb = Some 3 ∧ sat_t_length Cdb = Some 0) ∧
  (BufLen ≠ 0 → Direction = ATA_PASSTHROUGH_DATA_IN →
   sat_protocol Cdb = Some 4 ∧ sat_t_length Cdb = Some 2) ∧
  (BufLen ≠ 0 → Direction = ATA_PASSTHROUGH_DATA_OUT →
   sat_protocol Cdb = Some 5 ∧ sat_t_length Cdb = Some 2) ∧
  Cdb !! 3%nat = Some (Features Command) ∧
  Cdb !! 4%nat = Some (uint8_t (BufLen / 512)) ∧
  (0 ≤ BufLen ≤ 0xFFFF → Cdb !! 4%nat = Some (BufLen / 512)) ∧
  Cdb !! 5%nat = Some (Lba_low Command) ∧
  Cdb !! 6%nat = Some (Lba_mid Command) ∧
  Cdb !! 7%nat = Some (Lba_high Command) ∧
  Cdb !! 8%nat = Some (Device Command) ∧
  Cdb !! 9%nat = Some (AtaCmd Command) ∧
  (0 ≤ BufLen →
   ∀ (r : Z) (s' : St) (sptd : SCSI_PASS_THROUGH_DIRECT),
     SatAtaPassthrough hPhysical Command DataBuffer BufLen Timeout s
     = Some (r, s') →
     trace s' = trace s ++ [IoControl hPhysical sptd] →
     sptd = submitted (Cdb ++ [0; 0; 0; 0]) 12 Direction DataBuffer BufLen
              Timeout ∧
     Cdb !! 4%nat = Some (BufLen / 512)).
Proof.
  destruct (direction_distinct Hok) as (Hni & Hno & Hio).
  intros Direction Cdb.
  assert (length Cdb = 12%nat) as HlenCdb.
  { subst Cdb. unfold SatAtaPassthrough_Cdb. fold Direction.
    destruct (negb (BufLen =? 0)); [|reflexivity].
    destruct (Direction =? ATA_PASSTHROUGH_DATA_NONE); [reflexivity|].
    destruct (Direction =? ATA_PASSTHROUGH_DATA_IN); [reflexivity|].
    destruct (Direction =? ATA_PASSTHROUGH_DATA_OUT); reflexivity. }
  assert (Cdb !! 4%nat = Some (uint8_t (BufLen / 512))) as H4.
  { subst Cdb. unfold SatAtaPassthrough_Cdb. rewrite (sector_shift_div Hok).
    fold Direction.
    destruct (negb (BufLen =? 0)); [|reflexivity].
    destruct (Direction =? ATA_PASSTHROUGH_DATA_NONE); [reflexivity|].
    destruct (Direction =? ATA_PASSTHROUGH_DATA_IN); [reflexivity|].
    destruct (Direction =? ATA_PASSTHROUGH_DATA_OUT); reflexivity. }
  split; [|split].
  - intros Hm. unfold SatAtaPassthrough.
    btest (negb (BufLen mod 512 =? 0)); [reflexivity|lia].
  - intros Hm. unfold SatAtaPassthrough.
    btest (negb (BufLen mod 512 =? 0)); [lia|reflexivity].
  - repeat match goal with |- _ ∧ _ => split end;
      try exact HlenCdb; try exact H4;
      try (intros; rewrite H4; f_equal; apply sector_count_exact; lia);
      try (subst Cdb; unfold SatAtaPassthrough_Cdb, sat_protocol, sat_t_length;
           fold Direction; intros;
           btest (negb (BufLen =? 0));
           btest (Direction =? ATA_PASSTHROUGH_DATA_NONE);
           btest (Direction =? ATA_PASSTHROUGH_DATA_IN);
           btest (Direction =? ATA_PASSTHROUGH_DATA_OUT);
           first [reflexivity | congruence | lia | tauto
                 | split; reflexivity]).
    intros Hb0 r s' sptd Hrun Htr.
    unfold SatAtaPassthrough in Hrun. fold Direction in Hrun. fold Cdb in Hrun.
    btest (negb (BufLen mod 512 =? 0)).
    { injection Hrun as _ <-. cbn [trace] in Htr.
      apply app_inv_head in Htr. discriminate. }
    destruct (ScsiPassthroughDirect_inv _ _ 12 _ _ _ _ _ _ _ ltac:(lia) Hrun)
      as [-> | [Hpass Hsent]].
    { rewrite <- (app_nil_r (trace s)) in Htr at 1.
      apply app_inv_head in Htr. discriminate. }
    rewrite Hsent in Htr. apply app_inv_head in Htr. injection Htr as <-.
    destruct Hpass as (_ & _ & Hbuf & _).
    split.
    + rewrite take_ge by (rewrite HlenCdb; cbn; lia). reflexivity.
    + rewrite H4. f_equal. apply sector_count_exact. lia.
Qed.

(** C8.  UsbJmicronAtaPassthrough and UsbProlificAtaPassthrough build the
    same 14 bytes: the JMicron opcode, the mode byte (0x00 for a DataOut
    command with a non-empty buffer, else 0x10), a zero byte, the two
    bytes of the length, Features, the sector-count byte, the three LBA
    bytes, the device byte, the ATA opcode and the trailer 0x06, 0x7B.  For
    a length up to 65535 the two length bytes are the 16-bit length and
    the sector-count byte is [BufLen / 512].  JMicron hands them to
    ScsiPassthroughDirect with length 14, Prolific with length 12, so that
    the CDB of the request holds all 14 bytes, or the first 12 without the
    trailer: that request is sent once the checks of ScsiPassthroughDirect
    pass, and no other request is ever sent. *)
Theorem UsbJMPLAtaPassthrough_spec (Hok : SmartH_ok H) (s : St) :
  let Direction := GetAtaDirection (AtaCmd Command) (Features Command) in
  let Cdb := _UsbJMPLAtaPassthrough_Cdb Command BufLen in
  let mode :=
    if negb (BufLen =? 0) && (Direction =? ATA_PASSTHROUGH_DATA_OUT)
    then 0x00 else 0x10 in
  let hi := uint8_t (Z.shiftr BufLen 8) in
  let lo := uint8_t BufLen in
  Cdb = [USB_JMICRON_ATA_PASSTHROUGH; mode; 0; hi; lo; Features Command;
         uint8_t (BufLen / 512); Lba_low Command; Lba_mid Command;
         Lba_high Command; Device Command; AtaCmd Command; 0x06; 0x7b] ∧
  (0 ≤ BufLen ≤ 0xFFFF →
   256 * hi + lo = BufLen ∧ uint8_t (BufLen / 512) = BufLen / 512) ∧
  UsbJmicronAtaPassthrough hPhysical Command DataBuffer BufLen Timeout s
  = ScsiPassthroughDirect hPhysical Cdb 14 Direction DataBuffer BufLen
      Timeout s ∧
  UsbProlificAtaPassthrough hPhysical Command DataBuffer BufLen Timeout s
  = ScsiPassthroughDirect hPhysical Cdb 12 Direction DataBuffer BufLen
      Timeout s ∧
  (checks_pass Cdb 14 Direction DataBuffer BufLen →
   ∃ (r : Z) (s' : St),
     UsbJmicronAtaPassthrough hPhysical Command DataBuffer BufLen Timeout s
     = Some (r, s') ∧
     trace s' = trace s ++
       [IoControl hPhysical
          (submitted (Cdb ++ [0; 0]) 14 Direction DataBuffer BufLen
             Timeout)]) ∧
  (checks_pass Cdb 12 Direction DataBuffer BufLen →
   ∃ (r : Z) (s' : St),
     UsbProlificAtaPassthrough hPhysical Command DataBuffer BufLen Timeout s
     = Some (r, s') ∧
     trace s' = trace s ++
       [IoControl hPhysical
          (submitted (take 12 Cdb ++ [0; 0; 0; 0]) 12 Direction DataBuffer
             BufLen Timeout)]) ∧
  (∀ (r : Z) (s' : St) (sptd : SCSI_PASS_THROUGH_DIRECT),
     UsbJmicronAtaPassthrough hPhysical Command DataBuffer BufLen Timeout s
     = Some (r, s') →
     trace s' = trace s ++ [IoControl hPhysical sptd] →
     sptd = submitted (Cdb ++ [0; 0]) 14 Direction DataBuffer BufLen
              Timeout) ∧
  (∀ (r : Z) (s' : St) (sptd : SCSI_PASS_THROUGH_DIRECT),
     UsbProlificAtaPassthrough hPhysical Command DataBuffer BufLen Timeout s
     = Some (r, s') →
     trace s' = trace s ++ [IoControl hPhysical sptd] →
     sptd = submitted (take 12 Cdb ++ [0; 0; 0; 0]) 12 Direction DataBuffer
              BufLen Timeout) ∧
  Cdb = take 12 Cdb ++ [0x06; 0x7b].
Proof.
  intros Direction Cdb mode hi lo.
  assert (Cdb = [USB_JMICRON_ATA_PASSTHROUGH; mode; 0; hi; lo;
                 Features Command; uint8_t (BufLen / 512);
                 Lba_low Command; Lba_mid Command; Lba_high Command;
                 Device Command; AtaCmd Command; 0x06; 0x7b]) as HCdb.
  { subst Cdb. unfold _UsbJMPLAtaPassthrough_Cdb.
    rewrite (sector_shift_div Hok). reflexivity. }
  split; [exact HCdb|].
  split; [intros Hb; split;
          [apply length_bytes_exact, Hb | apply sector_count_exact, Hb]|].
  split; [reflexivity|]. split; [reflexivity|].
  split; [|split; [|split; [|split]]].
  - intros Hpass. eexists _, _.
    unfold UsbJmicronAtaPassthrough, _UsbJMPLAtaPassthrough.
    fold Direction. fold Cdb. change (14 - 0) with 14.
    rewrite (ScsiPassthroughDirect_submits hPhysical Cdb 14 Direction
               DataBuffer BufLen Timeout s Hpass)
      by (rewrite HCdb; cbn; lia).
    split; [reflexivity|]. cbn [trace]. rewrite HCdb. reflexivity.
  - intros Hpass. eexists _, _.
    unfold UsbProlificAtaPassthrough, _UsbJMPLAtaPassthrough.
    fold Direction. fold Cdb. change (14 - 2) with 12.
    rewrite (ScsiPassthroughDirect_submits hPhysical Cdb 12 Direction
               DataBuffer BufLen Timeout s Hpass)
      by (rewrite HCdb; cbn; lia).
    split; [reflexivity|]. cbn [trace]. rewrite HCdb. reflexivity.
  - intros r s' sptd Hrun Htr.
    unfold UsbJmicronAtaPassthrough, _UsbJMPLAtaPassthrough in Hrun.
    fold Direction in Hrun. fold Cdb in Hrun. change (14 - 0) with 14 in Hrun.
    destruct (ScsiPassthroughDirect_inv _ _ 14 _ _ _ _ _ _ _ ltac:(lia) Hrun)
      as [-> | [_ Hsent]].
    { rewrite <- (app_nil_r (trace s)) in Htr at 1.
      apply app_inv_head in Htr. discriminate. }
    rewrite Hsent in Htr. apply app_inv_head in Htr.
    replace sptd with
      (submitted (take (Z.to_nat 14) Cdb ++ replicate (16 - Z.to_nat 14) 0)
         14 Direction DataBuffer BufLen Timeout) by congruence.
    rewrite HCdb. reflexivity.
  - intros r s' sptd Hrun Htr.
    unfold UsbProlificAtaPassthrough, _UsbJMPLAtaPassthrough in Hrun.
    fold Direction in Hrun. fold Cdb in Hrun. change (14 - 2) with 12 in Hrun.
    destruct (ScsiPassthroughDirect_inv _ _ 12 _ _ _ _ _ _ _ ltac:(lia) Hrun)
      as [-> | [_ Hsent]].
    { rewrite <- (app_nil_r (trace s)) in Htr at 1.
      apply app_inv_head in Htr. discriminate. }
    rewrite Hsent in Htr. apply app_inv_head in Htr.
    replace sptd with
      (submitted (take (Z.to_nat 12) Cdb ++ replicate (16 - Z.to_nat 12) 0)
         12 Direction DataBuffer BufLen Timeout) by congruence.
    rewrite HCdb. reflexivity.
  - rewrite HCdb. reflexivity.
Qed.
End Bridges.

Lemma SatAtaPassthrough_spec_witness :
  SatAtaPassthrough_Cdb (H := acs_header)
    (identify_command (H := acs_header)) 512 !! 4%nat = Some 1 ∧
  sat_protocol (SatAtaPassthrough_Cdb (H := acs_header)
    (identify_command (H := acs_header)) 512) = Some 4.
Proof.
  destruct (SatAtaPassthrough_spec (H := acs_header)
              (D := bridge (λ _, true) []) 0
              (identify_command (H := acs_header)) 0x1000 512 2 acs_header_ok
              (mkSt (D := bridge (λ _, true) []) O (replicate 512 0) []))
    as (_ & _ & _ & _ & _ & Hin & _ & _ & _ & Hsec & _).
  split; [apply Hsec; lia | apply Hin; [discriminate | reflexivity]].
Defined.

Lemma UsbJMPLAtaPassthrough_spec_witness :
  _UsbJMPLAtaPassthrough_Cdb (H := acs_header)
    (identify_command (H := acs_header)) 512
  = [0xDF; 0x10; 0; 2; 0; 0; 1; 0; 0; 0; 0; 0xEC; 0x06; 0x7b].
Proof.
  destruct (UsbJMPLAtaPassthrough_spec (H := acs_header)
              (D := bridge (λ _, true) []) 0
              (identify_command (H := acs_header)) 0x1000 512 2 acs_header_ok
              (mkSt (D := bridge (λ _, true) []) O (replicate 512 0) []))
    as (Hcdb & _).
  exact Hcdb.
Defined.

(** ** Identify *)

Lemma dma_write_length (data buf : list Z) :
  length (dma_write data buf) = length buf.
Proof.
  unfold dma_write. rewrite length_take, length_app, length_drop. lia.
Qed.

Section Quiet.
Context {H : SmartH} {D : Host}.

Lemma quiet_ret {A} (a : A) : quiet (mret a).
Proof.
  intros s s' r Hr. injection Hr as <- <-. split; [reflexivity|].
  exists []. rewrite app_nil_r. repeat split.
Qed.

Lemma ScsiPassthroughDirect_quiet hPhysical Cdb CdbLen Direction DataBuffer
    BufLen Timeout :
  quiet (ScsiPassthroughDirect hPhysical Cdb CdbLen Direction DataBuffer
           BufLen Timeout).
Proof.
  unfold ScsiPassthroughDirect.
  destruct (_ || _); [apply quiet_ret|].
  destruct (_ || _); [apply quiet_ret|].
  destruct (_ >? _); [apply quiet_ret|].
  intros s s' r. unfold mbind, M_bind, load.
  destruct (Cdb !! 0%nat) as [op|]; [|discriminate].
  destruct (_ || _); [apply quiet_ret|].
  destruct (_ && _); [apply quiet_ret|].
  unfold lift. destruct (memcpy _ _ _) as [cdb|]; [|discriminate].
  unfold io_control. destruct (DeviceIoControl _ _ _ _) as [res w].
  unfold get_last_error.
  intros Hr.
  assert (s' = mkSt w (dma_write (ioctl_data res) (block s))
                 (trace s ++ [IoControl hPhysical
                    (submitted cdb CdbLen Direction DataBuffer BufLen Timeout)])) as ->.
  { repeat match type of Hr with
           | (if ?b then _ else _) _ = _ => destruct b
           end; injection Hr as _ <-; reflexivity. }
  cbn [block trace]. split; [apply dma_write_length|].
  eexists. split; [reflexivity|]. repeat split.
Qed.

Lemma SatAtaPassthrough_quiet h Command DataBuffer BufLen Timeout :
  quiet (SatAtaPassthrough h Command DataBuffer BufLen Timeout).
Proof.
  unfold SatAtaPassthrough.
  destruct (negb _); [|apply ScsiPassthroughDirect_quiet].
  intros s s' r Hr. injection Hr as <- <-. split; [reflexivity|].
  eexists. split; [reflexivity|]. repeat split.
Qed.

Lemma pt_quiet h Command DataBuffer BufLen Timeout :
  Forall (λ pt_i, quiet (fn pt_i h Command DataBuffer BufLen Timeout)) pt.
Proof.
  repeat apply Forall_cons_2; try apply Forall_nil_2;
    first [apply SatAtaPassthrough_quiet | apply ScsiPassthroughDirect_quiet].
Qed.

(** ScsiPassthroughDirect reads nothing outside [Cdb] when the array holds
    [CdbLen] bytes and at least one. *)
Lemma ScsiPassthroughDirect_total hPhysical Cdb CdbLen Direction DataBuffer
    BufLen Timeout (s : St) :
  (0 < length Cdb)%nat → (Z.to_nat CdbLen ≤ length Cdb)%nat →
  is_Some (ScsiPassthroughDirect hPhysical Cdb CdbLen Direction DataBuffer
             BufLen Timeout s).
Proof.
  intros Hne Hsrc. unfold ScsiPassthroughDirect.
  btest ((CdbLen =? 0) || (CdbLen >? sizeof_sptd_Cdb)); [by eexists|].
  destruct (_ || _); [by eexists|].
  destruct (_ >? _); [by eexists|].
  unfold mbind, M_bind, load.
  destruct (lookup_lt_is_Some_2 Cdb 0 Hne) as [op ->].
  destruct (_ || _); [by eexists|].
  destruct (_ && _); [by eexists|].
  unfold lift, memcpy. rewrite length_replicate.
  rewrite decide_True by (unfold sizeof_sptd_Cdb in *; lia).
  unfold io_control. destruct (DeviceIoControl _ _ _ _) as [res w].
  unfold get_last_error.
  repeat match goal with
         | |- is_Some ((if ?b then _ else _) _) => destruct b
         end; by eexists.
Qed.

Lemma pt_total h Command DataBuffer BufLen Timeout :
  Forall (λ pt_i, ∀ s : St,
            is_Some (fn pt_i h Command DataBuffer BufLen Timeout s)) pt.
Proof.
  repeat apply Forall_cons_2; try apply Forall_nil_2; intros s; cbn [fn].
  - unfold SatAtaPassthrough. destruct (negb _); [by eexists|].
    apply ScsiPassthroughDirect_total;
      unfold SatAtaPassthrough_Cdb;
      repeat match goal with
             | |- context [if ?b then _ else _] => destruct b
             end; cbn; lia.
  - apply ScsiPassthroughDirect_total; cbn; lia.
  - apply ScsiPassthroughDirect_total; cbn; lia.
  - apply ScsiPassthroughDirect_total;
      unfold UsbSunPlusAtaPassthrough_Cdb;
      repeat match goal with
             | |- context [if ?b then _ else _] => destruct b
             end; cbn; lia.
  - apply ScsiPassthroughDirect_total;
      unfold UsbCypressAtaPassthrough_Cdb;
      repeat match goal with
             | |- context [if ?b then _ else _] => destruct b
             end; cbn; lia.
Qed.

Section For_loop.
Variables (hPhysical : Z) (Command : ATA_PASSTHROUGH_CMD) (idd : Z).

(** The loop runs through a failing prefix. *)
Lemma Identify_for_failing entries rest (i : Z) (s s' : St) :
  failing hPhysical Command idd entries s s' →
  Identify_for (entries ++ rest) i hPhysical Command idd s
  = Identify_for rest (i + Z.of_nat (length entries)) hPhysical Command
      idd s'.
Proof.
  intros Hf. revert i. induction Hf as [s|e es s s1 s2 s' r Hfn Hr Hlog Hf IH];
    intros i.
  - cbn. f_equal. lia.
  - cbn [app Identify_for]. unfold mbind at 1, M_bind at 1. rewrite Hfn.
    destruct (Z.eqb_spec r SPT_SUCCESS) as [|_]; [contradiction|].
    unfold mbind at 1, M_bind at 1. rewrite Hlog.
    rewrite IH. f_equal. cbn [length]. lia.
Qed.

(** The loop stops at a bridge that succeeds. *)
Lemma Identify_for_success pt_i rest (i : Z) (s s' : St) (smart : bool) :
  fn pt_i hPhysical Command idd sizeof_IDENTIFY_DEVICE_DATA
     SPT_TIMEOUT_VALUE s = Some (SPT_SUCCESS, s') →
  SmartCommands (block s') = Some smart →
  Identify_for (pt_i :: rest) i hPhysical Command idd s
  = Some (i, mkSt (world s') (block s')
               (trace s' ++ Uprintf "Success using %s\n" [type pt_i] ::
                  (if smart
                   then [DumpBufferHex (block s')
                           sizeof_IDENTIFY_DEVICE_DATA;
                         Uprintf "SMART support detected!\n" []]
                   else [Uprintf "No SMART support\n" []]))).
Proof.
  intros Hfn Hsm. cbn [Identify_for].
  unfold mbind at 1, M_bind at 1. rewrite Hfn. rewrite Z.eqb_refl.
  unfold mbind, M_bind, uprintf, emit, read_SmartCommands, dump_idd, emit.
  cbn [block world trace]. rewrite Hsm.
  destruct smart; cbn [block world trace mret M_ret];
    rewrite <- ?app_assoc; reflexivity.
Qed.

(** What a failing run leaves in the trace. *)
Lemma failing_trace entries (s s' : St) :
  Forall (λ pt_i, quiet (fn pt_i hPhysical Command idd
                           sizeof_IDENTIFY_DEVICE_DATA SPT_TIMEOUT_VALUE))
    entries →
  failing hPhysical Command idd entries s s' →
  length (block s') = length (block s) ∧
  ∃ evs, trace s' = trace s ++ evs ∧
    attempts evs = map type entries ∧ successes evs = [] ∧
    smart_reports evs = [] ∧ no_ata evs = false.
Proof.
  intros Hq Hf. induction Hf as [s|e es s s1 s2 s' r Hfn Hr Hlog Hf IH].
  - split; [reflexivity|]. exists []. rewrite app_nil_r. repeat split.
  - apply Forall_cons_1 in Hq as [Hqe Hqes].
    destruct (Hqe _ _ _ Hfn) as (Hlen1 & evs1 & Ht1 & Ha1 & Hs1 & Hr1 & Hn1).
    injection Hlog as <-.
    destruct (IH Hqes) as (Hlen2 & evs2 & Ht2 & Ha2 & Hs2 & Hr2 & Hn2).
    cbn [block trace] in *. split; [congruence|].
    exists (evs1 ++ Uprintf "No joy with: %s (%s)\n" [type e; SptStrerr r] :: evs2).
    rewrite Ht2, Ht1, <- !app_assoc. split; [reflexivity|].
    unfold attempts, successes, smart_reports, no_ata in *.
    rewrite !omap_app, existsb_app, Ha1, Hs1, Hr1, Hn1. cbn.
    rewrite Ha2, Hs2, Hr2, Hn2. repeat split.
Qed.
(** Bridge functions that always return either all fail, or one of them is
    the first to succeed. *)
Lemma failing_or_success (entries : list AtaPassThroughType) (s : St) :
  Forall (λ pt_i, ∀ s : St,
            is_Some (fn pt_i hPhysical Command idd
                       sizeof_IDENTIFY_DEVICE_DATA SPT_TIMEOUT_VALUE s))
    entries →
  (∃ s1, failing hPhysical Command idd entries s s1) ∨
  (∃ (k : nat) pt_k (s1 s2 : St),
     entries !! k = Some pt_k ∧
     failing hPhysical Command idd (take k entries) s s1 ∧
     fn pt_k hPhysical Command idd sizeof_IDENTIFY_DEVICE_DATA
        SPT_TIMEOUT_VALUE s1 = Some (SPT_SUCCESS, s2)).
Proof.
  intros Htot. revert s. induction Htot as [|e es He _ IH]; intros s.
  { left. exists s. constructor. }
  destruct (He s) as [[r s1] Hcall].
  destruct (decide (r = SPT_SUCCESS)) as [->|Hr].
  { right. exists 0%nat, e, s, s1. repeat split; [constructor | exact Hcall]. }
  destruct (IH (mkSt (world s1) (block s1)
                  (trace s1 ++ [Uprintf "No joy with: %s (%s)\n"
                                  [type e; SptStrerr r]])))
    as [[s' Hf] | (k & pt_k & s' & s2 & Hk & Hf & Hs)].
  - left. exists s'. econstructor; eauto.
  - right. exists (S k), pt_k, s', s2. repeat split; [exact Hk | | exact Hs].
    cbn [take]. econstructor; eauto.
Qed.
End For_loop.

Section Identify.
Variables (hPhysical : Z) (idd : Z).

Local Abbreviation call pt_i :=
  (fn pt_i hPhysical identify_command idd sizeof_IDENTIFY_DEVICE_DATA
     SPT_TIMEOUT_VALUE).
Local Abbreviation fail_all :=
  (failing hPhysical identify_command idd).

(** Identify when the bridge at place [k] is the first that succeeds. *)
Lemma Identify_success (Hok : SmartH_ok H) (k : nat) pt_k (s s1 s2 : St) :
  length (block s) = 512%nat →
  pt !! k = Some pt_k →
  fail_all (take k pt) s s1 →
  call pt_k s1 = Some (SPT_SUCCESS, s2) →
  ∃ (smart : bool) (evs : list event),
    SmartCommands (block s2) = Some smart ∧
    Identify hPhysical (Some idd) s
    = Some (TRUE, mkSt (world s2) (block s2) (trace s ++ evs)) ∧
    attempts evs = map type (take (S k) pt) ∧
    successes evs = [type pt_k] ∧
    smart_reports evs = [smart] ∧
    no_ata evs = false.
Proof.
  intros Hblk Hk Hfail Hcall.
  pose proof (pt_quiet hPhysical identify_command idd
                sizeof_IDENTIFY_DEVICE_DATA SPT_TIMEOUT_VALUE) as Hq.
  destruct (failing_trace _ _ _ (take k pt) s s1
              (Forall_take _ k _ Hq) Hfail)
    as (Hlen1 & evs1 & Ht1 & Ha1 & Hs1 & Hr1 & Hn1).
  destruct (proj1 (Forall_lookup _ _) Hq k pt_k Hk _ _ _ Hcall)
    as (Hlen2 & evs2 & Ht2 & Ha2 & Hs2 & Hr2 & Hn2).
  assert (is_Some (block s2 !! offsetof_CommandSetSupport)) as [b Hb].
  { apply lookup_lt_is_Some. rewrite Hlen2, Hlen1, Hblk.
    apply (smart_byte_in_idd _ Hok). }
  assert (SmartCommands (block s2)
          = Some (Z.testbit b bitof_SmartCommands)) as Hsm.
  { unfold SmartCommands. rewrite Hb. reflexivity. }
  pose proof (lookup_lt_Some _ _ _ Hk) as Hlt.
  assert (Identify_for pt 0 hPhysical identify_command idd s
          = Identify_for (pt_k :: drop (S k) pt) (Z.of_nat k) hPhysical
              identify_command idd s1) as Hrun.
  { rewrite <- (take_drop_middle pt k pt_k Hk) at 1.
    rewrite (Identify_for_failing _ _ _ _ _ 0 _ _ Hfail).
    rewrite length_take. f_equal. lia. }
  rewrite (Identify_for_success _ _ _ _ _ _ _ _ _ Hcall Hsm) in Hrun.
  exists (Z.testbit b bitof_SmartCommands).
  eexists. split; [exact Hsm|].
  split.
  - unfold Identify. fold identify_command.
    unfold mbind at 1, M_bind at 1. rewrite Hrun.
    destruct (Z.geb_spec (Z.of_nat k) (Z.of_nat (length pt))) as [Hge|_];
      [lia|].
    unfold mbind, M_bind, mret, M_ret. cbn [world block trace].
    rewrite Ht2, Ht1, <- !app_assoc. reflexivity.
  - unfold attempts, successes, smart_reports, no_ata in *.
    rewrite !omap_app, !existsb_app, Ha1, Hs1, Hr1, Hn1, Ha2, Hs2, Hr2, Hn2.
    rewrite (take_S_r _ _ _ Hk), map_app.
    destruct (Z.testbit b bitof_SmartCommands); repeat split.
Qed.

(** Identify when no bridge succeeds. *)
Lemma Identify_exhausted (s s1 : St) :
  fail_all pt s s1 →
  ∃ evs : list event,
    Identify hPhysical (Some idd) s
    = Some (TRUE, mkSt (world s1) (block s1) (trace s ++ evs)) ∧
    attempts evs = map type pt ∧
    successes evs = [] ∧
    smart_reports evs = [] ∧
    no_ata evs = true.
Proof.
  intros Hfail.
  pose proof (pt_quiet hPhysical identify_command idd
                sizeof_IDENTIFY_DEVICE_DATA SPT_TIMEOUT_VALUE) as Hq.
  destruct (failing_trace _ _ _ pt s s1 Hq Hfail)
    as (Hlen1 & evs1 & Ht1 & Ha1 & Hs1 & Hr1 & Hn1).
  exists (evs1 ++ [Uprintf "NO ATA FOR YOU!\n" []]). split.
  - unfold Identify. fold identify_command.
    unfold mbind at 1, M_bind at 1.
    rewrite <- (app_nil_r pt) at 1.
    rewrite (Identify_for_failing _ _ _ _ _ 0 _ _ Hfail).
    cbn [Identify_for mret M_ret].
    destruct (Z.geb_spec (0 + Z.of_nat (length pt)) (Z.of_nat (length pt)))
      as [_|Hlt]; [|lia].
    unfold mbind, M_bind, mret, M_ret, uprintf, emit.
    cbn [world block trace].
    rewrite Ht1, <- !app_assoc. reflexivity.
  - unfold attempts, successes, smart_reports, no_ata in *.
    rewrite !omap_app, !existsb_app, Ha1, Hs1, Hr1, Hn1. repeat split.
Qed.

(** C1.  When some bridge succeeds, the buffer holds 512 bytes, among
    them the byte [b] of CommandSetSupport that holds the SmartCommands
    bit, and Identify logs "SMART support detected!" exactly when that bit
    of [b] is set, "No SMART support" when it is clear, and only one of
    the two.  When all bridges fail, Identify logs neither line but "NO ATA
    FOR YOU!".  One of the two cases always applies: whatever the device
    does, Identify runs to its end and returns TRUE, and what it has
    logged about S.M.A.R.T. is nothing, or the bit as the buffer holds it
    at the end. *)
Theorem Identify_smart_report (Hok : SmartH_ok H) (s : St) :
  (∀ (k : nat) pt_k (s1 s2 : St),
     length (block s) = 512%nat →
     pt !! k = Some pt_k →
     fail_all (take k pt) s s1 →
     call pt_k s1 = Some (SPT_SUCCESS, s2) →
     ∃ (b : Z) (s' : St) (evs : list event),
       length (block s2) = 512%nat ∧
       block s2 !! offsetof_CommandSetSupport = Some b ∧
       Identify hPhysical (Some idd) s = Some (TRUE, s') ∧
       trace s' = trace s ++ evs ∧
       block s' = block s2 ∧
       smart_reports evs = [Z.testbit b bitof_SmartCommands] ∧
       no_ata evs = false) ∧
  (∀ s1 : St,
     fail_all pt s s1 →
     ∃ (s' : St) (evs : list event),
       Identify hPhysical (Some idd) s = Some (TRUE, s') ∧
       trace s' = trace s ++ evs ∧
       smart_reports evs = [] ∧
       no_ata evs = true) ∧
  (length (block s) = 512%nat →
   ∃ (s' : St) (evs : list event),
     Identify hPhysical (Some idd) s = Some (TRUE, s') ∧
     trace s' = trace s ++ evs ∧
     (smart_reports evs = [] ∧ no_ata evs = true ∨
      ∃ b : Z,
        block s' !! offsetof_CommandSetSupport = Some b ∧
        smart_reports evs = [Z.testbit b bitof_SmartCommands] ∧
        no_ata evs = false)).
Proof.
  assert (∀ (k : nat) pt_k (s1 s2 : St),
            length (block s) = 512%nat →
            pt !! k = Some pt_k →
            fail_all (take k pt) s s1 →
            call pt_k s1 = Some (SPT_SUCCESS, s2) →
            ∃ (b : Z) (evs : list event),
              length (block s2) = 512%nat ∧
              block s2 !! offsetof_CommandSetSupport = Some b ∧
              Identify hPhysical (Some idd) s
              = Some (TRUE, mkSt (world s2) (block s2) (trace s ++ evs)) ∧
              smart_reports evs = [Z.testbit b bitof_SmartCommands] ∧
              no_ata evs = false) as Hsucc.
  { intros k pt_k s1 s2 Hblk Hk Hfail Hcall.
    pose proof (pt_quiet hPhysical identify_command idd
                  sizeof_IDENTIFY_DEVICE_DATA SPT_TIMEOUT_VALUE) as Hq.
    destruct (failing_trace _ _ _ (take k pt) s s1
                (Forall_take _ k _ Hq) Hfail) as (Hlen1 & _).
    destruct (proj1 (Forall_lookup _ _) Hq k pt_k Hk _ _ _ Hcall)
      as (Hlen2 & _).
    destruct (Identify_success Hok k pt_k s s1 s2 Hblk Hk Hfail Hcall)
      as (smart & evs & Hsm & Hrun & _ & _ & Hr & Hn).
    unfold SmartCommands in Hsm.
    destruct (block s2 !! offsetof_CommandSetSupport) as [b|] eqn:Hb;
      [|discriminate].
    cbn [mbind option_bind] in Hsm. injection Hsm as <-.
    exists b, evs. split; [congruence|]. auto. }
  split; [|split].
  - intros k pt_k s1 s2 Hblk Hk Hfail Hcall.
    destruct (Hsucc k pt_k s1 s2 Hblk Hk Hfail Hcall)
      as (b & evs & Hlen & Hb & Hrun & Hr & Hn).
    exists b. eexists _, evs. split; [exact Hlen|]. split; [exact Hb|].
    split; [exact Hrun|]. auto.
  - intros s1 Hfail.
    destruct (Identify_exhausted s s1 Hfail) as (evs & Hrun & _ & _ & Hr & Hn).
    eexists _, evs. split; [exact Hrun|]. auto.
  - intros Hblk.
    destruct (failing_or_success hPhysical identify_command idd pt s
                (pt_total _ _ _ _ _))
      as [[s1 Hfail] | (k & pt_k & s1 & s2 & Hk & Hfail & Hcall)].
    + destruct (Identify_exhausted s s1 Hfail)
        as (evs & Hrun & _ & _ & Hr & Hn).
      eexists _, evs. split; [exact Hrun|]. auto.
    + destruct (Hsucc k pt_k s1 s2 Hblk Hk Hfail Hcall)
        as (b & evs & _ & Hb & Hrun & Hr & Hn).
      eexists _, evs. split; [exact Hrun|]. split; [reflexivity|].
      right. exists b. auto.
Qed.
End Identify.
End Quiet.

Ltac run_failing :=
  repeat (eapply failing_cons;
          [lazy; reflexivity | discriminate | reflexivity |]);
  apply failing_nil.

Lemma Identify_smart_report_witness :
  (let s := mkSt (D := bridge prolific_only (identify_data true)) O
              (replicate 512 0) [] in
   ∃ (s' : St),
     Identify (H := acs_header) 0 (Some 0x1000) s = Some (TRUE, s') ∧
     block s' !! 164%nat = Some 1 ∧
     smart_reports (trace s') = [true] ∧
     no_ata (trace s') = false) ∧
  (let s := mkSt (D := bridge prolific_only (identify_data false)) O
              (replicate 512 0) [] in
   ∃ (s' : St),
     Identify (H := acs_header) 0 (Some 0x1000) s = Some (TRUE, s') ∧
     block s' !! 164%nat = Some 0 ∧
     smart_reports (trace s') = [false] ∧
     no_ata (trace s') = false).
Proof.
  split; intros s.
  - destruct (Identify_smart_report (H := acs_header)
                (D := bridge prolific_only (identify_data true)) 0 0x1000
                acs_header_ok s)
      as (Hsucc & _).
    edestruct (Hsucc 2%nat)
      as (b & s' & evs & _ & Hb & Hrun & Ht & Hblk & Hr & Hn);
      [reflexivity | reflexivity | run_failing | lazy; reflexivity |].
    exists s'. split; [exact Hrun|].
    rewrite Hblk, Ht. split; [reflexivity|].
    injection Hb as <-. split; [exact Hr | exact Hn].
  - destruct (Identify_smart_report (H := acs_header)
                (D := bridge prolific_only (identify_data false)) 0 0x1000
                acs_header_ok s)
      as (Hsucc & _).
    edestruct (Hsucc 2%nat)
      as (b & s' & evs & _ & Hb & Hrun & Ht & Hblk & Hr & Hn);
      [reflexivity | reflexivity | run_failing | lazy; reflexivity |].
    exists s'. split; [exact Hrun|].
    rewrite Hblk, Ht. split; [reflexivity|].
    injection Hb as <-. split; [exact Hr | exact Hn].
Defined.

(** ** C strings *)

Lemma strlen_c_array (s : string) : is_Some (strlen (c_array s)).
Proof.
  induction s as [|c s IH]; [by eexists|].
  change (c_array (String c s)) with (c :: c_array s). cbn [strlen].
  destruct (Ascii.eqb c Ascii.zero); [by eexists|].
  destruct IH as [n ->]. by eexists.
Qed.

(** Up to and including the terminator, a string can be read. *)
Lemma strlen_lookup (a : list ascii) (n i : nat) :
  strlen a = Some n → (i ≤ n)%nat → is_Some (a !! i).
Proof.
  revert n i. induction a as [|c a IH]; intros n i Hn Hi; [discriminate|].
  destruct i as [|i]; [by eexists|].
  cbn [strlen] in Hn. destruct (Ascii.eqb c Ascii.zero).
  - injection Hn as <-. lia.
  - destruct (strlen a) as [m|] eqn:Hm; [|discriminate].
    injection Hn as <-. apply (IH m); [reflexivity | lia].
Qed.

(** [_strnicmp] stays inside two terminated strings. *)
Lemma _strnicmp_safe (count : nat) (a b : list ascii) :
  is_Some (strlen a) → is_Some (strlen b) → is_Some (_strnicmp a b count).
Proof.
  revert a b. induction count as [|count IH]; intros a b Ha Hb; [by eexists|].
  destruct a as [|c1 a]; [destruct Ha; discriminate|].
  destruct b as [|c2 b]; [destruct Hb; discriminate|].
  cbn [_strnicmp head tail mbind option_bind].
  destruct (negb _) eqn:Ene; [by eexists|].
  apply negb_false_iff, Z.eqb_eq in Ene.
  destruct (Z.eqb_spec (tolower (Z.of_N (Ascii.N_of_ascii c1))) 0) as [|Hnz];
    [by eexists|].
  apply IH.
  - cbn [strlen] in Ha. destruct (Ascii.eqb_spec c1 Ascii.zero) as [->|_].
    + exfalso. apply Hnz. reflexivity.
    + destruct (strlen a); [by eexists|]. destruct Ha; discriminate.
  - cbn [strlen] in Hb. destruct (Ascii.eqb_spec c2 Ascii.zero) as [->|_].
    + exfalso. apply Hnz. rewrite Ene. reflexivity.
    + destruct (strlen b); [by eexists|]. destruct Hb; discriminate.
Qed.

(** ** IsHDD *)

(** The first loop never reads outside [strid] or a name of the table. *)
Lemma IsHDD_for_str_safe (entries : list str_score) (a : list ascii)
    (ilen : nat) (score : Z) :
  Forall (λ e, ∃ m, strlen (c_array (name e)) = Some (S m)) entries →
  strlen a = Some ilen →
  is_Some (IsHDD_for_str entries (Some a) ilen score).
Proof.
  intros Hent Ha. induction Hent as [|e entries [m Hm] _ IH]; [by eexists|].
  cbn [IsHDD_for_str]. rewrite Hm. cbn [mbind option_bind].
  destruct (ilen <? S m)%nat eqn:Elt; [by eexists|].
  apply Nat.ltb_ge in Elt.
  destruct (strlen_lookup _ _ m Hm) as [last Hlast]; [lia|].
  rewrite Hlast. cbn [mbind option_bind].
  destruct (_strnicmp_safe (S m - (if Ascii.eqb last "#" then 1 else 0))
              a (c_array (name e))) as [r Hr]; [by eexists | by eexists|].
  rewrite Hr. cbn [mbind option_bind].
  destruct (r =? 0); [|exact IH].
  destruct (negb _); [by eexists|].
  destruct (strlen_lookup _ _ (S m) Ha Elt) as [c Hc]. rewrite Hc.
  cbn [mbind option_bind]. destruct (_ && _); [by eexists | exact IH].
Qed.

Lemma manufacturer_str_names :
  Forall (λ e, ∃ m, strlen (c_array (name e)) = Some (S m)) manufacturer_str.
Proof. repeat constructor; eexists; reflexivity. Qed.

(** IsHDD reads nothing outside the model string, for every string and for
    NULL. *)
Lemma IsHDD_safe (drive_type vid pid : Z) (s : string) :
  is_Some (IsHDD drive_type vid pid (c_str s)) ∧
  is_Some (IsHDD drive_type vid pid None).
Proof.
  split; [|by eexists].
  unfold IsHDD, c_str, safe_strlen.
  destruct (strlen_c_array s) as [ilen Hlen]. rewrite Hlen.
  cbn [mbind option_bind].
  destruct (IsHDD_for_str_safe manufacturer_str (c_array s) ilen
              (if drive_type =? DRIVE_FIXED then 0 + 3 else 0)
              manufacturer_str_names Hlen) as [sc Hsc].
  rewrite Hsc. by eexists.
Qed.

(** A model string shorter than every name of the table gets no bonus from
    the first loop. *)
Lemma IsHDD_short (drive_type vid pid : Z) (s : string) :
  (String.length s < 3)%nat →
  IsHDD drive_type vid pid (c_str s)
  = Some (IsHDD_for_vid manufacturer_vid vid
            (if drive_type =? DRIVE_FIXED then 3 else 0)).
Proof.
  intros Hs. unfold IsHDD.
  destruct s as [|c1 [|c2 [|c3 s]]]; cbn [String.length] in Hs; try lia;
    cbn [c_str c_array String.list_ascii_of_string app safe_strlen strlen].
  - reflexivity.
  - destruct (Ascii.eqb c1 Ascii.zero); reflexivity.
  - destruct (Ascii.eqb c1 Ascii.zero); [reflexivity|].
    destruct (Ascii.eqb c2 Ascii.zero); reflexivity.
Qed.

(** ** The loop of IsHDD and the scan *)

Lemma length_list_ascii_of_string (s : string) :
  length (String.list_ascii_of_string s) = String.length s.
Proof. induction s as [|c s IH]; [reflexivity|]. cbn. by rewrite IH. Qed.

Lemma strlen_terminated (l x : list ascii) :
  Ascii.zero ∉ l → strlen (l ++ Ascii.zero :: x) = Some (length l).
Proof.
  induction l as [|c l IH]; intros Hl; [reflexivity|].
  apply not_elem_of_cons in Hl as [Hc Hl]. cbn [app strlen length].
  destruct (Ascii.eqb_spec c Ascii.zero) as [->|_]; [done|].
  rewrite (IH Hl). reflexivity.
Qed.

Lemma code_lower (c : ascii) :
  Z.of_N (Ascii.N_of_ascii (Spec.lower c))
  = tolower (Z.of_N (Ascii.N_of_ascii c)).
Proof.
  unfold Spec.lower, tolower.
  pose proof (Ascii.N_ascii_bounded c) as Hb.
  destruct (N.leb_spec 65 (Ascii.N_of_ascii c)) as [H1|H1];
    destruct (N.leb_spec (Ascii.N_of_ascii c) 90) as [H2|H2];
    destruct (Z.leb_spec 65 (Z.of_N (Ascii.N_of_ascii c)));
    destruct (Z.leb_spec (Z.of_N (Ascii.N_of_ascii c)) 90);
    cbn [andb]; try lia.
  rewrite Ascii.N_ascii_embedding by lia. lia.
Qed.

Lemma lower_eqb (a b : ascii) :
  Ascii.eqb (Spec.lower a) (Spec.lower b)
  = (tolower (Z.of_N (Ascii.N_of_ascii a))
     =? tolower (Z.of_N (Ascii.N_of_ascii b))).
Proof.
  rewrite <- !code_lower.
  destruct (Ascii.eqb_spec (Spec.lower a) (Spec.lower b)) as [->|Hne].
  - symmetry. apply Z.eqb_refl.
  - symmetry. apply Z.eqb_neq. intros Heq. apply Hne.
    rewrite <- (Ascii.ascii_N_embedding (Spec.lower a)),
            <- (Ascii.ascii_N_embedding (Spec.lower b)).
    f_equal. lia.
Qed.

Lemma tolower_nonzero (c : ascii) :
  c ≠ Ascii.zero → tolower (Z.of_N (Ascii.N_of_ascii c)) ≠ 0.
Proof.
  intros Hc Hz. apply Hc.
  rewrite <- (Ascii.ascii_N_embedding c).
  unfold tolower in Hz.
  destruct (_ && _) eqn:E.
  - apply andb_true_iff in E as [E1 _]. apply Z.leb_le in E1. lia.
  - replace (Ascii.N_of_ascii c) with 0%N by lia. reflexivity.
Qed.

(** On the first [n] characters of two strings without NUL, [_strnicmp]
    gives 0 exactly when they agree without regard to case. *)
Lemma _strnicmp_starts_with (n : nat) (a b x y : list ascii) :
  (n ≤ length a)%nat → (n ≤ length b)%nat →
  Ascii.zero ∉ a → Ascii.zero ∉ b →
  ∃ r : Z, _strnicmp (a ++ x) (b ++ y) n = Some r ∧
           (r =? 0) = Spec.starts_with (take n b) a.
Proof.
  revert a b. induction n as [|n IH]; intros a b Ha Hb Hza Hzb.
  { exists 0. split; reflexivity. }
  destruct a as [|c1 a]; [cbn in Ha; lia|].
  destruct b as [|c2 b]; [cbn in Hb; lia|].
  apply not_elem_of_cons in Hza as [Hc1 Hza].
  apply not_elem_of_cons in Hzb as [Hc2 Hzb].
  cbn [app _strnicmp head tail mbind option_bind take Spec.starts_with].
  rewrite lower_eqb. rewrite (Z.eqb_sym (tolower (Z.of_N (Ascii.N_of_ascii c2)))).
  destruct (Z.eqb_spec (tolower (Z.of_N (Ascii.N_of_ascii c1)))
                       (tolower (Z.of_N (Ascii.N_of_ascii c2)))) as [Heq|Hne];
    cbn [negb andb].
  - destruct (Z.eqb_spec (tolower (Z.of_N (Ascii.N_of_ascii c1))) 0) as [Hz|_].
    + exfalso. apply (tolower_nonzero c1); auto.
    + apply IH; cbn in Ha, Hb; auto with lia.
  - eexists. split; [reflexivity|]. apply Z.eqb_neq. lia.
Qed.

Lemma is_digit_char_val (c : ascii) :
  (char_val c >=? char_val "0") && (char_val c <=? char_val "9")
  = Spec.is_digit c.
Proof.
  unfold Spec.is_digit, char_val. change (Z.of_N (Ascii.N_of_ascii "0")) with 48.
  change (Z.of_N (Ascii.N_of_ascii "9")) with 57. cbn [Z.ltb Z.compare Pos.compare Pos.compare_cont].
  pose proof (Ascii.N_ascii_bounded c) as Hb.
  rewrite Z.geb_leb.
  destruct (Z.ltb_spec (Z.of_N (Ascii.N_of_ascii c)) 128);
    destruct (N.leb_spec 48 (Ascii.N_of_ascii c));
    destruct (N.leb_spec (Ascii.N_of_ascii c) 57);
    cbn [andb];
    repeat match goal with
    | |- context [?a <=? ?b] => destruct (Z.leb_spec a b)
    end; cbn [andb]; try reflexivity; lia.
Qed.

(** One turn of the first loop of IsHDD, on a string without NUL. *)
Lemma IsHDD_for_str_step (e : str_score) (rest : list str_score) (s : string)
    (score : Z) :
  good_name e →
  Ascii.zero ∉ String.list_ascii_of_string s →
  IsHDD_for_str (e :: rest) (c_str s) (String.length s) score
  = if (String.length s <? String.length (name e))%nat then Some score
    else if Loop.entry_matches (name e) s
         then Some (score + str_score_score e)
         else IsHDD_for_str rest (c_str s) (String.length s) score.
Proof.
  intros [Hne Hze] Hzs.
  cbn [IsHDD_for_str]. unfold c_str, c_array, Loop.entry_matches.
  set (en := String.list_ascii_of_string (name e)) in *.
  set (l := String.list_ascii_of_string s) in *.
  rewrite (strlen_terminated en [] Hze). cbn [mbind option_bind].
  rewrite <- !length_list_ascii_of_string. fold en l.
  destruct (Nat.ltb_spec (length l) (length en)) as [Hlt|Hge]; [reflexivity|].
  destruct (length en) as [|m] eqn:Hm; [by destruct en|].
  assert ((en ++ [Ascii.zero]) !! m = last en) as Hlast.
  { rewrite last_lookup, Hm. cbn [pred]. apply lookup_app_l. lia. }
  rewrite Hlast. unfold Spec.is_wildcard.
  destruct (last en) as [c|] eqn:Hc;
    [|rewrite last_None in Hc; contradiction].
  cbn [mbind option_bind].
  destruct (_strnicmp_starts_with
              (S m - (if Ascii.eqb c "#" then 1 else 0)) l en
              [Ascii.zero] [Ascii.zero]) as (r & Hr & Hr0);
    [destruct (Ascii.eqb c "#"); lia | destruct (Ascii.eqb c "#"); lia
    | exact Hzs | exact Hze |].
  rewrite Hr. cbn [mbind option_bind]. rewrite Hr0.
  destruct (Ascii.eqb c "#"); cbn [negb].
  - replace (S m - 1)%nat with m by lia.
    destruct (Spec.starts_with (take m en) l); [|reflexivity].
    cbn [andb].
    destruct (decide (S m < length l)%nat) as [Hin|Hout].
    + rewrite lookup_app_l by exact Hin.
      destruct (lookup_lt_is_Some_2 l (S m) Hin) as [d Hd]. rewrite Hd.
      cbn [mbind option_bind]. rewrite is_digit_char_val. reflexivity.
    + assert (length l = S m) as Hl by lia.
      rewrite lookup_app_r by lia. rewrite Hl, Nat.sub_diag.
      rewrite (lookup_ge_None_2 l (S m)) by lia. reflexivity.
  - rewrite take_ge by lia. destruct (Spec.starts_with en l); reflexivity.
Qed.

(** The first loop of IsHDD adds what the scan awards. *)
Lemma IsHDD_for_str_award (entries : list str_score) (s : string) (score : Z) :
  Forall good_name entries →
  Ascii.zero ∉ String.list_ascii_of_string s →
  IsHDD_for_str entries (c_str s) (String.length s) score
  = Some (score + Loop.award entries s).
Proof.
  intros Hent Hzs. induction Hent as [|e entries He _ IH].
  - cbn. f_equal. lia.
  - rewrite (IsHDD_for_str_step e entries s score He Hzs). cbn [Loop.award].
    destruct (_ <? _)%nat; [f_equal; lia|].
    destruct (Loop.entry_matches (name e) s); [reflexivity | exact IH].
Qed.

Lemma manufacturer_str_good : Forall good_name manufacturer_str.
Proof.
  repeat constructor; try discriminate;
    apply (bool_decide_unpack _); vm_compute; exact I.
Qed.

(** IsHDD on a model string: 3 for a fixed drive, the points of the scan of
    the manufacturer table, the points of the vendor ID. *)
Lemma IsHDD_award (drive_type vid pid : Z) (s : string) :
  Ascii.zero ∉ String.list_ascii_of_string s →
  IsHDD drive_type vid pid (c_str s)
  = Some (IsHDD_for_vid manufacturer_vid vid
            ((if drive_type =? DRIVE_FIXED then 3 else 0)
             + Loop.award manufacturer_str s)).
Proof.
  intros Hzs. unfold IsHDD.
  change (safe_strlen (c_str s))
    with (strlen (String.list_ascii_of_string s ++ [Ascii.zero])).
  rewrite (strlen_terminated _ [] Hzs), length_list_ascii_of_string.
  cbn [mbind option_bind].
  rewrite (IsHDD_for_str_award _ _ _ manufacturer_str_good Hzs).
  cbn [mbind option_bind]. destruct (drive_type =? DRIVE_FIXED); reflexivity.
Qed.

(** The loop and the specification agree on the literal entries. *)
Lemma literal_entry_matches (entry s : string) :
  Spec.is_wildcard (String.list_ascii_of_string entry) = false →
  Loop.entry_matches entry s = Spec.entry_matches entry s.
Proof.
  intros Hw. unfold Loop.entry_matches, Spec.entry_matches.
  rewrite Hw. reflexivity.
Qed.

(** C9.  Whatever [pid] is: a fixed drive with vendor ID 0x0bc2 and model
    "ST1000DM003" scores 23; a removable drive with vendor ID 0x0951 and
    model "Cruzer Blade" scores 0; a fixed drive with vendor ID 0x0000 and
    model "SAMSUNG HD103SJ" scores 13. *)
Theorem IsHDD_examples (pid : Z) :
  IsHDD DRIVE_FIXED 0x0bc2 pid (c_str "ST1000DM003") = Some 23 ∧
  IsHDD DRIVE_REMOVABLE 0x0951 pid (c_str "Cruzer Blade") = Some 0 ∧
  IsHDD DRIVE_FIXED 0x0000 pid (c_str "SAMSUNG HD103SJ") = Some 13.
Proof. repeat split; reflexivity. Qed.

(** C10.  The score does not depend on [pid]. *)
Theorem IsHDD_pid_independent (drive_type vid p1 p2 : Z)
    (strid : option (list ascii)) :
  IsHDD drive_type vid p1 strid = IsHDD drive_type vid p2 strid.
Proof.
  (* [pid] occurs in no expression of the body *)
  unfold IsHDD. destruct (safe_strlen strid) as [ilen|]; reflexivity.
Qed.

(** C2 at two model strings.  "ST1" starts with "ST" followed by a digit,
    so that the entry "ST#" matches it in the words of the specification,
    but IsHDD gives it no bonus; "STX9" matches no entry, but IsHDD gives it
    the bonus: for a wildcard entry the loop tests [strid[mlen]], the
    character after the one in the place of '#'. *)
Theorem IsHDD_wildcard_tests_next_character :
  Spec.manufacturer_match "ST1" = true ∧
  IsHDD DRIVE_REMOVABLE 0 0 (c_str "ST1") = Some 0 ∧
  Spec.manufacturer_match "STX9" = false ∧
  IsHDD DRIVE_REMOVABLE 0 0 (c_str "STX9") = Some 10.
Proof. repeat split; reflexivity. Qed.

(** * Further properties *)

(** ** SptStrerr *)

Lemma acs_header_signs : SmartH_signs acs_header.
Proof. split; [reflexivity|]. repeat constructor. Qed.

Lemma hex_digit_value (d : Z) :
  0 ≤ d < 16 → hex_value (hex_digit d) = Some d.
Proof.
  intros Hd.
  assert (∀ n : nat, (n < 16)%nat →
            hex_value (hex_digit (Z.of_nat n)) = Some (Z.of_nat n)) as Hn.
  { intros n Hn. do 16 (destruct n as [|n]; [reflexivity|]). lia. }
  rewrite <- (Z2Nat.id d) by lia. apply Hn. lia.
Qed.

Section Strerr_more.
Context {H : SmartH}.

(** X1.  For a code from 1 to 255 SptStrerr gives "SCSI status: 0x"
    followed by two upper-case hexadecimal digits whose value is the code,
    and the message fits the 64 bytes of the static buffer [scsi_err]. *)
Theorem SptStrerr_scsi_status (errcode : Z) :
  0 < errcode ≤ 0xff →
  ∃ hi lo : ascii,
    SptStrerr errcode = "SCSI status: 0x" +:+ String hi (String lo EmptyString) ∧
    (h ← hex_value hi; l ← hex_value lo; Some (16 * h + l)) = Some errcode ∧
    (String.length (SptStrerr errcode) < 64)%nat.
Proof.
  intros He. unfold SptStrerr.
  btest ((errcode >? 0) && (errcode <=? 255)); [|lia].
  unfold uint8_t. rewrite Z.mod_small by lia.
  exists (hex_digit (errcode / 16)), (hex_digit (errcode mod 16)).
  split; [reflexivity|]. split; [|simpl; lia].
  rewrite !hex_digit_value.
  - cbn [mbind option_bind]. f_equal. pose proof (Z.div_mod errcode 16). lia.
  - split; [apply Z.div_pos; lia | apply Z.div_lt_upper_bound; lia].
  - apply Z.mod_pos_bound. lia.
Qed.

Lemma SptStrerr_table (errcode : Z) :
  ¬ 0 < errcode ≤ 0xff →
  SptStrerr errcode = table_find spt_messages "Unknown error" errcode.
Proof.
  intros He. unfold SptStrerr.
  btest ((errcode >? 0) && (errcode <=? 255)); [lia|]. reflexivity.
Qed.
End Strerr_more.

Lemma table_find_lookup (tbl : list (Z * string)) (d : string) (i : nat)
    (k : Z) (m : string) :
  NoDup tbl.*1 → tbl !! i = Some (k, m) → table_find tbl d k = m.
Proof.
  revert i. induction tbl as [|[k' m'] tbl IH]; intros i Hnd Hi; [done|].
  cbn [fmap list_fmap fst] in Hnd. apply NoDup_cons in Hnd as [Hk' Hnd].
  cbn [table_find]. destruct i as [|i].
  - injection Hi as -> ->. by rewrite Z.eqb_refl.
  - cbn in Hi. destruct (Z.eqb_spec k k') as [->|_]; [|by eapply IH].
    exfalso. apply Hk'. apply (list_elem_of_fmap_2 fst _ (k', m)).
    eapply list_elem_of_lookup_2. exact Hi.
Qed.

Lemma table_find_default (tbl : list (Z * string)) (d : string) (k : Z) :
  k ∉ tbl.*1 → table_find tbl d k = d.
Proof.
  induction tbl as [|[k' m'] tbl IH]; intros Hk; [done|].
  cbn [fmap list_fmap fst] in Hk. apply not_elem_of_cons in Hk as [Hne Hk].
  cbn [table_find]. destruct (Z.eqb_spec k k'); [done|]. by apply IH.
Qed.

Section Strerr_codes.
Context {H : SmartH}.

(** X2.  With case labels that are pairwise distinct, SPT_SUCCESS being 0
    and the error codes negative, SptStrerr gives each of the nine status
    codes of its [switch] its own message, in the order of the source, and
    "Unknown error" for every other code outside 1..255. *)
Theorem SptStrerr_codes (Hok : SmartH_ok H) (Hsg : SmartH_signs H) :
  SptStrerr <$>
    [SPT_SUCCESS; SPT_ERROR_CDB_LENGTH; SPT_ERROR_BUFFER; SPT_ERROR_DIRECTION;
     SPT_ERROR_EXTENDED_CDB; SPT_ERROR_CDB_OPCODE; SPT_ERROR_TIMEOUT;
     SPT_ERROR_INVALID_PARAMETER; SPT_ERROR_CHECK_STATUS]
  = ["Success"; "Invalid CDB length";
     "Buffer must be aligned to a page boundary and less than 64KB in size";
     "Invalid Direction";
     "Extended and variable length CDB commands are not supported";
     "Opcodes above 0xC0 are not supported"; "Timeout";
     "Invalid DeviceIoControl parameter"; "SCSI error (check Status)"] ∧
  (∀ errcode : Z,
     ¬ 0 < errcode ≤ 0xff →
     errcode ∉ [SPT_SUCCESS; SPT_ERROR_CDB_LENGTH; SPT_ERROR_BUFFER;
                SPT_ERROR_DIRECTION; SPT_ERROR_EXTENDED_CDB;
                SPT_ERROR_CDB_OPCODE; SPT_ERROR_TIMEOUT;
                SPT_ERROR_INVALID_PARAMETER; SPT_ERROR_CHECK_STATUS] →
     SptStrerr errcode = "Unknown error").
Proof.
  pose proof (spt_labels _ Hok) as Hnd.
  pose proof (success_zero _ Hsg) as H0.
  pose proof (errors_negative _ Hsg) as Hneg.
  repeat (apply Forall_cons_1 in Hneg as [? Hneg]).
  split.
  - cbn [fmap list_fmap].
    repeat (apply (f_equal2 cons);
            [rewrite SptStrerr_table by lia;
             first [ apply (table_find_lookup spt_messages _ 0 _ _ Hnd eq_refl)
                   | apply (table_find_lookup spt_messages _ 1 _ _ Hnd eq_refl)
                   | apply (table_find_lookup spt_messages _ 2 _ _ Hnd eq_refl)
                   | apply (table_find_lookup spt_messages _ 3 _ _ Hnd eq_refl)
                   | apply (table_find_lookup spt_messages _ 4 _ _ Hnd eq_refl)
                   | apply (table_find_lookup spt_messages _ 5 _ _ Hnd eq_refl)
                   | apply (table_find_lookup spt_messages _ 6 _ _ Hnd eq_refl)
                   | apply (table_find_lookup spt_messages _ 7 _ _ Hnd eq_refl)
                   | apply (table_find_lookup spt_messages _ 8 _ _ Hnd eq_refl)]
            |]).
    reflexivity.
  - intros errcode He Hnot. rewrite SptStrerr_table by exact He.
    apply table_find_default. exact Hnot.
Qed.
End Strerr_codes.

Lemma SptStrerr_codes_witness :
  SptStrerr (H := acs_header) (-2)
  = "Buffer must be aligned to a page boundary and less than 64KB in size" ∧
  SptStrerr (H := acs_header) (-99) = "Unknown error".
Proof.
  destruct (SptStrerr_codes (H := acs_header) acs_header_ok acs_header_signs)
    as [Hmsg Hdef].
  split.
  - exact (f_equal (λ l, default EmptyString (l !! 2%nat)) Hmsg).
  - apply Hdef; [lia|]. apply (bool_decide_unpack _). vm_compute. exact I.
Defined.

Lemma SptStrerr_scsi_status_witness :
  ∃ hi lo : ascii,
    SptStrerr (H := acs_header) 2
    = "SCSI status: 0x" +:+ String hi (String lo EmptyString) ∧
    (h ← hex_value hi; l ← hex_value lo; Some (16 * h + l)) = Some 2 ∧
    (String.length (SptStrerr (H := acs_header) 2) < 64)%nat.
Proof. apply (SptStrerr_scsi_status (H := acs_header) 2). lia. Defined.

(** ** The result and the request of ScsiPassthroughDirect *)

Section Transport_result.
Context {H : SmartH} {D : Host}.
Variables (hPhysical : Z) (Cdb : list Z).
Variables (CdbLen Direction DataBuffer BufLen Timeout : Z).

Local Abbreviation run :=
  (ScsiPassthroughDirect hPhysical Cdb CdbLen Direction DataBuffer BufLen
     Timeout).
Local Abbreviation request :=
  (submitted
     (take (Z.to_nat CdbLen) Cdb ++ replicate (16 - Z.to_nat CdbLen) 0)
     CdbLen Direction DataBuffer BufLen Timeout).

(** A run of ScsiPassthroughDirect: a failed check, or one request and the
    value computed from the answer of the device. *)
Lemma ScsiPassthroughDirect_cases (s s' : St) (r : Z) :
  0 ≤ CdbLen →
  run s = Some (r, s') →
  (s' = s ∧
   r ∈ [SPT_ERROR_CDB_LENGTH; SPT_ERROR_BUFFER; SPT_ERROR_DIRECTION;
        SPT_ERROR_EXTENDED_CDB; SPT_ERROR_CDB_OPCODE]) ∨
  (checks_pass Cdb CdbLen Direction DataBuffer BufLen ∧
   (Z.to_nat CdbLen ≤ length Cdb)%nat ∧
   r = outcome (DeviceIoControl (world s) hPhysical request (block s)).1
         (GetLastError
            (DeviceIoControl (world s) hPhysical request (block s)).2) ∧
   s' = mkSt (DeviceIoControl (world s) hPhysical request (block s)).2
          (dma_write
             (ioctl_data
                (DeviceIoControl (world s) hPhysical request (block s)).1)
             (block s))
          (trace s ++ [IoControl hPhysical request])).
Proof.
  intros Hlen0 Hrun.
  destruct (decide (CdbLen = 0 ∨ CdbLen > 16)) as [Hc|Hc].
  { rewrite check_cdb_length in Hrun by exact Hc. injection Hrun as <- <-.
    left. split; [reflexivity|]. rewrite !elem_of_cons. tauto. }
  assert (0 < CdbLen ≤ 16) as Hlen by lia.
  destruct (decide (DataBuffer mod 16 ≠ 0 ∨ BufLen > 65535)) as [Hb|Hb].
  { rewrite check_buffer in Hrun by auto. injection Hrun as <- <-.
    left. split; [reflexivity|]. rewrite !elem_of_cons. tauto. }
  assert (DataBuffer mod 16 = 0 ∧ BufLen ≤ 65535) as [Hal Hbuf] by lia.
  destruct (decide (Direction > SCSI_IOCTL_DATA_UNSPECIFIED)) as [Hd|Hd].
  { rewrite check_direction in Hrun by auto. injection Hrun as <- <-.
    left. split; [reflexivity|]. rewrite !elem_of_cons. tauto. }
  assert (Direction ≤ SCSI_IOCTL_DATA_UNSPECIFIED) as Hdir by lia.
  destruct (Cdb !! 0%nat) as [op|] eqn:Hop.
  2:{ exfalso. revert Hrun. unfold ScsiPassthroughDirect.
      btest ((CdbLen =? 0) || (CdbLen >? sizeof_sptd_Cdb));
        [unfold sizeof_sptd_Cdb in *; lia|].
      btest (negb (DataBuffer mod 16 =? 0) || (BufLen >? 65535)); [lia|].
      btest (Direction >? SCSI_IOCTL_DATA_UNSPECIFIED); [lia|].
      unfold mbind, M_bind, load. rewrite Hop. discriminate. }
  destruct (check_opcode hPhysical Cdb CdbLen Direction DataBuffer BufLen
              Timeout s op Hlen Hal Hbuf Hdir Hop) as [Hext Hopc].
  destruct (decide (op = 0x7e ∨ op = 0x7f)) as [Hx|Hx].
  { rewrite Hext in Hrun by exact Hx. injection Hrun as <- <-.
    left. split; [reflexivity|]. rewrite !elem_of_cons. tauto. }
  destruct (decide (0xc0 ≤ op ∧ op ≠ USB_JMICRON_ATA_PASSTHROUGH
                    ∧ op ≠ USB_SUNPLUS_ATA_PASSTHROUGH)) as [Hv|Hv].
  { rewrite Hopc in Hrun by tauto. injection Hrun as <- <-.
    left. split; [reflexivity|]. rewrite !elem_of_cons. tauto. }
  assert (checks_pass Cdb CdbLen Direction DataBuffer BufLen) as Hpass.
  { repeat split; try lia. exists op. repeat split; try exact Hop; lia. }
  right. split; [exact Hpass|].
  destruct (decide (Z.to_nat CdbLen ≤ length Cdb)%nat) as [Hsrc|Hsrc].
  - split; [exact Hsrc|].
    rewrite (ScsiPassthroughDirect_submits _ _ _ _ _ _ _ s Hpass Hsrc) in Hrun.
    injection Hrun as <- <-. split; reflexivity.
  - exfalso. revert Hrun. unfold ScsiPassthroughDirect.
    btest ((CdbLen =? 0) || (CdbLen >? sizeof_sptd_Cdb));
      [unfold sizeof_sptd_Cdb in *; lia|].
    btest (negb (DataBuffer mod 16 =? 0) || (BufLen >? 65535)); [lia|].
    btest (Direction >? SCSI_IOCTL_DATA_UNSPECIFIED); [lia|].
    unfold mbind, M_bind, load. rewrite Hop.
    btest ((op =? 126) || (op =? 127)); [lia|].
    btest ((op >=? 192) && negb (op =? USB_JMICRON_ATA_PASSTHROUGH)
           && negb (op =? USB_SUNPLUS_ATA_PASSTHROUGH)); [lia|].
    unfold lift, memcpy. rewrite decide_False by tauto. discriminate.
Qed.

(** X3.  With SPT_SUCCESS being 0, negative error codes and a SCSI status
    that is a byte, the value of ScsiPassthroughDirect follows the
    convention of its comment.  It is 0 (SPT_SUCCESS) exactly when one request was sent, the
    call of DeviceIoControl returned TRUE and left the SCSI status 0; it is
    positive, at most 255, and the SCSI status of the device when one
    request was sent and the status is not 0; it is negative otherwise:
    one of SPT_ERROR_TIMEOUT, SPT_ERROR_INVALID_PARAMETER and
    SPT_ERROR_UNKNOWN_ERROR when the request was sent and DeviceIoControl
    returned FALSE with status 0, or one of the five codes of the checks
    with the state unchanged. *)
Theorem ScsiPassthroughDirect_result (Hsg : SmartH_signs H)
    (Hst : status_is_byte D) (s s' : St) (r : Z) :
  0 ≤ CdbLen →
  run s = Some (r, s') →
  let res := (DeviceIoControl (world s) hPhysical request (block s)).1 in
  (r = 0 ∧ r = SPT_SUCCESS ∧ ioctl_ret res = true ∧ ioctl_ScsiStatus res = 0 ∧
   trace s' = trace s ++ [IoControl hPhysical request]) ∨
  (0 < r ≤ 255 ∧ r = ioctl_ScsiStatus res ∧
   trace s' = trace s ++ [IoControl hPhysical request]) ∨
  (r < 0 ∧ ioctl_ret res = false ∧ ioctl_ScsiStatus res = 0 ∧
   r ∈ [SPT_ERROR_TIMEOUT; SPT_ERROR_INVALID_PARAMETER;
        SPT_ERROR_UNKNOWN_ERROR] ∧
   trace s' = trace s ++ [IoControl hPhysical request]) ∨
  (r < 0 ∧ s' = s ∧
   r ∈ [SPT_ERROR_CDB_LENGTH; SPT_ERROR_BUFFER; SPT_ERROR_DIRECTION;
        SPT_ERROR_EXTENDED_CDB; SPT_ERROR_CDB_OPCODE]).
Proof.
  intros Hlen0 Hrun res.
  destruct Hsg as [H0 Hneg].
  rewrite !Forall_cons in Hneg.
  destruct Hneg as (Hn1 & Hn2 & Hn3 & Hn4 & Hn5 & Hn6 & Hn7 & Hn8 & Hn9 & _).
  destruct (ScsiPassthroughDirect_cases s s' r Hlen0 Hrun)
    as [[-> Hr] | (Hpass & Hsrc & Hr & Hs')].
  - right; right; right. split; [|split; [reflexivity | exact Hr]].
    rewrite !elem_of_cons, elem_of_nil in Hr. lia.
  - fold res in Hr. pose proof (Hst (world s) hPhysical request (block s)) as Hb.
    fold res in Hb.
    assert (trace s' = trace s ++ [IoControl hPhysical request]) as Htr
      by (rewrite Hs'; reflexivity).
    unfold outcome in Hr.
    destruct (ioctl_ret res) eqn:Hret; cbn [andb] in Hr.
    + destruct (ioctl_ScsiStatus res =? 0) eqn:Hz; cbn [negb] in Hr.
      * left. apply Z.eqb_eq in Hz. repeat split; try assumption; lia.
      * right; left. apply Z.eqb_neq in Hz. repeat split; try assumption; lia.
    + destruct (ioctl_ScsiStatus res =? 0) eqn:Hz; cbn [negb] in Hr.
      * right; right; left. apply Z.eqb_eq in Hz.
        assert (r ∈ [SPT_ERROR_TIMEOUT; SPT_ERROR_INVALID_PARAMETER;
                     SPT_ERROR_UNKNOWN_ERROR]) as Hin.
        { rewrite !elem_of_cons.
          destruct (_ =? ERROR_SEM_TIMEOUT); [tauto|].
          destruct (_ =? ERROR_INVALID_PARAMETER); tauto. }
        repeat split; try assumption.
        rewrite !elem_of_cons, elem_of_nil in Hin. lia.
      * right; left. apply Z.eqb_neq in Hz. repeat split; try assumption; lia.
Qed.

(** X4.  ScsiPassthroughDirect sends at most one request.  For a length
    and a direction that are not negative, as their types say, the request
    it sends loses nothing in the casts to [uint8_t] and [uint16_t]: its
    CdbLength is [CdbLen], from 1 to 16, its DataTransferLength is
    [BufLen], at most 65535, its buffer is [DataBuffer], a multiple of 16,
    its direction is one of the three SCSI_IOCTL_DATA values, its timeout
    is [Timeout]; its CDB has 16 bytes, the first [CdbLen] bytes of [Cdb]
    followed by zeros, and its opcode is none of 0x7E and 0x7F and is
    below 0xC0 or the JMicron or the SunPlus opcode. *)
Theorem ScsiPassthroughDirect_request (s s' : St) (r : Z) :
  0 ≤ CdbLen → 0 ≤ BufLen → 0 ≤ Direction →
  run s = Some (r, s') →
  requests (trace s') = requests (trace s) ∨
  ∃ sptd : SCSI_PASS_THROUGH_DIRECT,
    requests (trace s') = requests (trace s) ++ [(hPhysical, sptd)] ∧
    sptd_CdbLength sptd = CdbLen ∧ 0 < CdbLen ≤ 16 ∧
    sptd_DataTransferLength sptd = BufLen ∧ BufLen ≤ 0xFFFF ∧
    sptd_DataBuffer sptd = DataBuffer ∧ DataBuffer mod 16 = 0 ∧
    sptd_DataIn sptd = Direction ∧
    Direction ∈ [SCSI_IOCTL_DATA_OUT; SCSI_IOCTL_DATA_IN;
                 SCSI_IOCTL_DATA_UNSPECIFIED] ∧
    sptd_TimeOutValue sptd = Timeout ∧
    length (sptd_Cdb sptd) = 16%nat ∧
    take (Z.to_nat CdbLen) (sptd_Cdb sptd) = take (Z.to_nat CdbLen) Cdb ∧
    drop (Z.to_nat CdbLen) (sptd_Cdb sptd)
    = replicate (16 - Z.to_nat CdbLen) 0 ∧
    ∃ op : Z, sptd_Cdb sptd !! 0%nat = Some op ∧ opcode_allowed op.
Proof.
  intros Hlen0 Hbuf0 Hdir0 Hrun.
  destruct (ScsiPassthroughDirect_cases s s' r Hlen0 Hrun)
    as [[-> Hr] | (Hpass & Hsrc & Hr & Hs')]; [left; reflexivity|].
  right. exists request.
  destruct Hpass as (Hlen & Hal & Hbuf & Hdir & op & Hop & Hvend).
  assert (length (take (Z.to_nat CdbLen) Cdb) = Z.to_nat CdbLen) as Htk
    by (rewrite length_take; lia).
  split.
  { rewrite Hs'. cbn [trace]. unfold requests. rewrite omap_app. reflexivity. }
  cbn [submitted sptd_CdbLength sptd_DataTransferLength sptd_DataBuffer
         sptd_DataIn sptd_TimeOutValue sptd_Cdb].
  repeat match goal with |- _ ∧ _ => split end;
    try reflexivity; try assumption; try lia.
  - unfold uint8_t. apply Z.mod_small. lia.
  - unfold uint16_t. apply Z.mod_small. lia.
  - rewrite !elem_of_cons.
    unfold SCSI_IOCTL_DATA_OUT, SCSI_IOCTL_DATA_IN,
      SCSI_IOCTL_DATA_UNSPECIFIED in *. lia.
  - rewrite length_app, length_replicate, Htk. lia.
  - rewrite take_app_length'; [reflexivity | symmetry; exact Htk].
  - rewrite drop_app_length'; [reflexivity | symmetry; exact Htk].
  - exists op. split; [|exact Hvend].
    rewrite lookup_app_l by lia. rewrite lookup_take_lt by lia. exact Hop.
Qed.
End Transport_result.

Lemma bridge_status_byte (accepts : SCSI_PASS_THROUGH_DIRECT → bool)
    (data : list Z) : status_is_byte (bridge accepts data).
Proof.
  intros w h sptd buf. cbn. destruct (accepts sptd); cbn; lia.
Qed.

Lemma ScsiPassthroughDirect_result_witness :
  let s := mkSt (D := bridge prolific_only []) O (replicate 512 0) [] in
  ∃ (s' : St (D := bridge prolific_only [])),
    ScsiPassthroughDirect (H := acs_header) 0 [0xA1; 0; 0] 3
      SCSI_IOCTL_DATA_IN 0x1000 512 2 s = Some (2, s') ∧
    trace s' ≠ trace s.
Proof.
  intros s. eexists. split; [lazy; reflexivity|].
  match goal with |- trace ?s' ≠ _ =>
    destruct (ScsiPassthroughDirect_result (H := acs_header)
                (D := bridge prolific_only []) 0 [0xA1; 0; 0] 3
                SCSI_IOCTL_DATA_IN 0x1000 512 2 acs_header_signs
                (bridge_status_byte _ _) s s' 2 ltac:(lia)
                ltac:(lazy; reflexivity))
      as [(Hr & _) | [(_ & _ & Htr) | [(Hr & _) | (Hr & _)]]]
  end; [discriminate Hr | | lia | lia].
  rewrite Htr. discriminate.
Defined.

Lemma ScsiPassthroughDirect_request_witness :
  let s := mkSt (D := bridge prolific_only []) O (replicate 512 0) [] in
  ∃ (r : Z) (s' : St (D := bridge prolific_only []))
    (sptd : SCSI_PASS_THROUGH_DIRECT),
    ScsiPassthroughDirect (H := acs_header) 7 [0xA1; 8; 14] 3
      SCSI_IOCTL_DATA_IN 0x1000 512 2 s = Some (r, s') ∧
    requests (trace s') = [(7, sptd)] ∧
    sptd_Cdb sptd = [0xA1; 8; 14] ++ replicate 13 0.
Proof.
  intros s. eexists _, _, _. split; [lazy; reflexivity|].
  match goal with |- requests (trace ?s') = _ ∧ _ =>
    destruct (ScsiPassthroughDirect_request (H := acs_header)
                (D := bridge prolific_only []) 7 [0xA1; 8; 14] 3
                SCSI_IOCTL_DATA_IN 0x1000 512 2 s s' 2
                ltac:(lia) ltac:(lia) ltac:(unfold SCSI_IOCTL_DATA_IN; lia)
                ltac:(lazy; reflexivity))
      as [Hnone | (sptd & Hreq & _)]
  end; [discriminate Hnone|].
  split; reflexivity.
Defined.

(** ** The CDBs of the bridges *)

Lemma lor_byte (d m : Z) : is_byte d → is_byte m → is_byte (Z.lor d m).
Proof.
  unfold is_byte. intros Hd Hm.
  assert (0 ≤ Z.lor d m) as H0 by (apply Z.lor_nonneg; lia).
  split; [exact H0|].
  destruct (decide (Z.lor d m = 0)) as [->|Hne]; [lia|].
  change 256 with (2 ^ 8). apply Z.log2_lt_pow2; [lia|].
  rewrite Z.log2_lor by lia.
  assert (∀ x, 0 ≤ x < 256 → Z.log2 x < 8) as Hlog.
  { intros x Hx. destruct (decide (x = 0)) as [->|]; [reflexivity|].
    apply Z.log2_lt_pow2; [lia|]. change (2 ^ 8) with 256. lia. }
  pose proof (Hlog d Hd). pose proof (Hlog m Hm). lia.
Qed.

Lemma uint8_t_byte (x : Z) : is_byte (uint8_t x).
Proof. unfold is_byte, uint8_t. apply Z.mod_pos_bound. lia. Qed.

Section Layouts.
Context {H : SmartH}.
Variables (Command : ATA_PASSTHROUGH_CMD) (BufLen : Z).

Lemma SatAtaPassthrough_Cdb_fields :
  ∃ b1 b2 : Z,
    (b1, b2) ∈ [(6, 12); (8, 14); (10, 6)] ∧
    SatAtaPassthrough_Cdb Command BufLen
    = [SAT_ATA_PASSTHROUGH_12; b1; b2; Features Command;
       uint8_t (Z.shiftr BufLen SECTOR_SIZE_SHIFT_BIT); Lba_low Command;
       Lba_mid Command; Lba_high Command; Device Command; AtaCmd Command;
       0; 0].
Proof.
  unfold SatAtaPassthrough_Cdb.
  destruct (negb (BufLen =? 0));
    [destruct (_ =? ATA_PASSTHROUGH_DATA_NONE);
     [|destruct (_ =? ATA_PASSTHROUGH_DATA_IN);
       [|destruct (_ =? ATA_PASSTHROUGH_DATA_OUT)]]|];
    eexists _, _; (split; [|reflexivity]); rewrite !elem_of_cons; auto.
Qed.

Lemma _UsbJMPLAtaPassthrough_Cdb_fields :
  _UsbJMPLAtaPassthrough_Cdb Command BufLen
  = [USB_JMICRON_ATA_PASSTHROUGH;
     if negb (BufLen =? 0)
        && (GetAtaDirection (AtaCmd Command) (Features Command)
            =? ATA_PASSTHROUGH_DATA_OUT)
     then 0x00 else 0x10;
     0; uint8_t (Z.shiftr BufLen 8); uint8_t BufLen; Features Command;
     uint8_t (Z.shiftr BufLen SECTOR_SIZE_SHIFT_BIT); Lba_low Command;
     Lba_mid Command; Lba_high Command; Device Command; AtaCmd Command;
     0x06; 0x7b].
Proof. reflexivity. Qed.

Lemma UsbSunPlusAtaPassthrough_Cdb_fields :
  UsbSunPlusAtaPassthrough_Cdb Command BufLen
  = [USB_SUNPLUS_ATA_PASSTHROUGH; 0; 0x22;
     if negb (BufLen =? 0) then
       if GetAtaDirection (AtaCmd Command) (Features Command)
          =? ATA_PASSTHROUGH_DATA_IN then 0x10
       else if GetAtaDirection (AtaCmd Command) (Features Command)
               =? ATA_PASSTHROUGH_DATA_OUT then 0x11
       else 0
     else 0;
     uint8_t (Z.shiftr BufLen SECTOR_SIZE_SHIFT_BIT); Features Command;
     uint8_t (Z.shiftr BufLen SECTOR_SIZE_SHIFT_BIT); Lba_low Command;
     Lba_mid Command; Lba_high Command; Z.lor (Device Command) 0xa0;
     AtaCmd Command].
Proof.
  unfold UsbSunPlusAtaPassthrough_Cdb.
  destruct (negb (BufLen =? 0));
    [destruct (_ =? ATA_PASSTHROUGH_DATA_IN);
     [|destruct (_ =? ATA_PASSTHROUGH_DATA_OUT)]|]; reflexivity.
Qed.

Lemma UsbCypressAtaPassthrough_Cdb_fields :
  UsbCypressAtaPassthrough_Cdb Command BufLen
  = [USB_CYPRESS_ATA_PASSTHROUGH; USB_CYPRESS_ATA_PASSTHROUGH;
     if (AtaCmd Command =? ATA_IDENTIFY_DEVICE)
        || (AtaCmd Command =? ATA_IDENTIFY_PACKET_DEVICE)
     then 0x80 else 0;
     0xBE; 1; 0; Features Command;
     uint8_t (Z.shiftr BufLen SECTOR_SIZE_SHIFT_BIT); Lba_low Command;
     Lba_mid Command; Lba_high Command; Device Command; AtaCmd Command;
     0; 0; 0].
Proof.
  unfold UsbCypressAtaPassthrough_Cdb. destruct (_ || _); reflexivity.
Qed.
End Layouts.

Section Sent.
Context {H : SmartH} {D : Host}.

(** The only request that a run of ScsiPassthroughDirect can have added. *)
Lemma ScsiPassthroughDirect_sent hPhysical Cdb CdbLen Direction DataBuffer
    BufLen Timeout (s s' : St) (r : Z) (sptd : SCSI_PASS_THROUGH_DIRECT) :
  0 ≤ CdbLen →
  ScsiPassthroughDirect hPhysical Cdb CdbLen Direction DataBuffer BufLen
    Timeout s = Some (r, s') →
  trace s' = trace s ++ [IoControl hPhysical sptd] →
  sptd = submitted
           (take (Z.to_nat CdbLen) Cdb ++ replicate (16 - Z.to_nat CdbLen) 0)
           CdbLen Direction DataBuffer BufLen Timeout.
Proof.
  intros Hlen Hrun Htr.
  destruct (ScsiPassthroughDirect_cases _ _ _ _ _ _ _ _ _ _ Hlen Hrun)
    as [[-> _] | (_ & _ & _ & ->)].
  - rewrite <- (app_nil_r (trace s)) in Htr at 1.
    apply app_inv_head in Htr. discriminate.
  - cbn [trace] in Htr. apply app_inv_head in Htr. congruence.
Qed.
End Sent.

Section Bridge_layouts.
Context {H : SmartH} {D : Host}.
Variables (hPhysical : Z) (Command : ATA_PASSTHROUGH_CMD).
Variables (DataBuffer BufLen Timeout : Z).

(** X5.  The 12 bytes of SatAtaPassthrough.  Bytes 1 and 2 are 0x06 and
    0x0C when no data is transferred (empty buffer or direction None),
    0x08 and 0x0E for a data-in and 0x0A and 0x06 for a data-out transfer;
    the last two bytes are 0.  In every case the extend bit (bit 0 of
    byte 1) and ck_cond (bit 5 of byte 2) are clear, byte_block (bit 2 of
    byte 2) is set, and t_dir (bit 3 of byte 2) is clear exactly for a
    data-out transfer with a buffer that is not empty. *)
Theorem SatAtaPassthrough_control (Hok : SmartH_ok H) :
  let Direction := GetAtaDirection (AtaCmd Command) (Features Command) in
  let layout (b1 b2 : Z) :=
    [SAT_ATA_PASSTHROUGH_12; b1; b2; Features Command;
     uint8_t (BufLen / 512); Lba_low Command; Lba_mid Command;
     Lba_high Command; Device Command; AtaCmd Command; 0; 0] in
  (BufLen = 0 ∨ Direction = ATA_PASSTHROUGH_DATA_NONE →
   SatAtaPassthrough_Cdb Command BufLen = layout 0x06 0x0C) ∧
  (BufLen ≠ 0 → Direction = ATA_PASSTHROUGH_DATA_IN →
   SatAtaPassthrough_Cdb Command BufLen = layout 0x08 0x0E) ∧
  (BufLen ≠ 0 → Direction = ATA_PASSTHROUGH_DATA_OUT →
   SatAtaPassthrough_Cdb Command BufLen = layout 0x0A 0x06) ∧
  ∃ b1 b2 : Z,
    SatAtaPassthrough_Cdb Command BufLen = layout b1 b2 ∧
    Z.testbit b1 0 = false ∧ Z.testbit b2 5 = false ∧
    Z.testbit b2 2 = true ∧
    (Z.testbit b2 3 = false ↔
     BufLen ≠ 0 ∧ Direction = ATA_PASSTHROUGH_DATA_OUT).
Proof.
  destruct (direction_distinct Hok) as (Hni & Hno & Hio).
  intros Direction layout. subst layout. cbv beta.
  rewrite <- (sector_shift_div BufLen Hok).
  pose proof (GetAtaDirection_range (AtaCmd Command) (Features Command))
    as Hrange. fold Direction in Hrange.
  rewrite !elem_of_cons, elem_of_nil in Hrange.
  unfold SatAtaPassthrough_Cdb. fold Direction.
  assert (∀ b2 : Z, Z.testbit b2 3 = true →
            ¬ (BufLen ≠ 0 ∧ Direction = ATA_PASSTHROUGH_DATA_OUT) →
            Z.testbit b2 3 = false ↔
            BufLen ≠ 0 ∧ Direction = ATA_PASSTHROUGH_DATA_OUT) as Hbit.
  { intros b2 Hb Hnot. rewrite Hb. split; [discriminate | tauto]. }
  destruct (Z.eqb_spec BufLen 0) as [Hz|Hz]; cbn [negb].
  { split; [reflexivity|]. split; [intros; lia|]. split; [intros; lia|].
    eexists _, _. split; [reflexivity|].
    split; [reflexivity|]. split; [reflexivity|]. split; [reflexivity|].
    apply Hbit; [reflexivity | tauto]. }
  destruct (Z.eqb_spec Direction ATA_PASSTHROUGH_DATA_NONE) as [Hn|Hn].
  { split; [reflexivity|]. split; [intros; congruence|].
    split; [intros; congruence|].
    eexists _, _. split; [reflexivity|].
    split; [reflexivity|]. split; [reflexivity|]. split; [reflexivity|].
    apply Hbit; [reflexivity | intros [_ ?]; congruence]. }
  destruct (Z.eqb_spec Direction ATA_PASSTHROUGH_DATA_IN) as [Hi|Hi].
  { split; [tauto|]. split; [reflexivity|]. split; [intros; congruence|].
    eexists _, _. split; [reflexivity|].
    split; [reflexivity|]. split; [reflexivity|]. split; [reflexivity|].
    apply Hbit; [reflexivity | intros [_ ?]; congruence]. }
  destruct (Z.eqb_spec Direction ATA_PASSTHROUGH_DATA_OUT) as [Ho|Ho].
  { split; [tauto|]. split; [intros; congruence|]. split; [reflexivity|].
    eexists _, _. split; [reflexivity|].
    split; [reflexivity|]. split; [reflexivity|]. split; [reflexivity|].
    split; [tauto | reflexivity]. }
  exfalso. tauto.
Qed.

(** X6.  The 12 bytes of UsbSunPlusAtaPassthrough: the SunPlus opcode, 0,
    0x22, the mode byte (0x10 for a data-in and 0x11 for a data-out
    transfer with a non-empty buffer, else 0), the sector count,
    Features, the sector count again, the three LBA bytes, the device
    byte with the bits of 0xA0 set, and the ATA opcode.  For a length up
    to 65535 the sector-count byte is [BufLen / 512].  The function hands
    them to ScsiPassthroughDirect with length 12: that request, padded
    with four zeros, is sent once the checks pass, and no other request
    is ever sent. *)
Theorem UsbSunPlusAtaPassthrough_spec (Hok : SmartH_ok H) (s : St) :
  let Direction := GetAtaDirection (AtaCmd Command) (Features Command) in
  let Cdb := UsbSunPlusAtaPassthrough_Cdb Command BufLen in
  let layout (mode : Z) :=
    [USB_SUNPLUS_ATA_PASSTHROUGH; 0; 0x22; mode; uint8_t (BufLen / 512);
     Features Command; uint8_t (BufLen / 512); Lba_low Command;
     Lba_mid Command; Lba_high Command; Z.lor (Device Command) 0xa0;
     AtaCmd Command] in
  (BufLen = 0 ∨ Direction = ATA_PASSTHROUGH_DATA_NONE → Cdb = layout 0) ∧
  (BufLen ≠ 0 → Direction = ATA_PASSTHROUGH_DATA_IN → Cdb = layout 0x10) ∧
  (BufLen ≠ 0 → Direction = ATA_PASSTHROUGH_DATA_OUT → Cdb = layout 0x11) ∧
  (0 ≤ BufLen ≤ 0xFFFF → uint8_t (BufLen / 512) = BufLen / 512) ∧
  Z.land (Z.lor (Device Command) 0xa0) 0xa0 = 0xa0 ∧
  UsbSunPlusAtaPassthrough hPhysical Command DataBuffer BufLen Timeout s
  = ScsiPassthroughDirect hPhysical Cdb 12 Direction DataBuffer BufLen
      Timeout s ∧
  (checks_pass Cdb 12 Direction DataBuffer BufLen →
   ∃ (r : Z) (s' : St),
     UsbSunPlusAtaPassthrough hPhysical Command DataBuffer BufLen Timeout s
     = Some (r, s') ∧
     trace s' = trace s ++
       [IoControl hPhysical
          (submitted (Cdb ++ [0; 0; 0; 0]) 12 Direction DataBuffer BufLen
             Timeout)]) ∧
  (∀ (r : Z) (s' : St) (sptd : SCSI_PASS_THROUGH_DIRECT),
     UsbSunPlusAtaPassthrough hPhysical Command DataBuffer BufLen Timeout s
     = Some (r, s') →
     trace s' = trace s ++ [IoControl hPhysical sptd] →
     sptd = submitted (Cdb ++ [0; 0; 0; 0]) 12 Direction DataBuffer BufLen
              Timeout).
Proof.
  destruct (direction_distinct Hok) as (Hni & Hno & Hio).
  intros Direction Cdb layout.
  assert (Cdb = layout
            (if negb (BufLen =? 0) then
               if Direction =? ATA_PASSTHROUGH_DATA_IN then 0x10
               else if Direction =? ATA_PASSTHROUGH_DATA_OUT then 0x11
               else 0
             else 0)) as HCdb.
  { subst Cdb layout. cbv beta. rewrite <- (sector_shift_div BufLen Hok).
    apply UsbSunPlusAtaPassthrough_Cdb_fields. }
  assert (take (Z.to_nat 12) Cdb ++ replicate (16 - Z.to_nat 12) 0
          = Cdb ++ [0; 0; 0; 0]) as Hpad by (rewrite HCdb; reflexivity).
  split; [|split; [|split; [|split; [|split; [|split; [|split]]]]]].
  - rewrite HCdb. intros [-> | Hn]; [reflexivity|].
    destruct (negb (BufLen =? 0)); [|reflexivity].
    destruct (Z.eqb_spec Direction ATA_PASSTHROUGH_DATA_IN); [congruence|].
    destruct (Z.eqb_spec Direction ATA_PASSTHROUGH_DATA_OUT); [congruence|].
    reflexivity.
  - rewrite HCdb. intros Hz Hd.
    destruct (Z.eqb_spec BufLen 0); [contradiction|].
    cbn [negb]. rewrite Hd, Z.eqb_refl. reflexivity.
  - rewrite HCdb. intros Hz Hd.
    destruct (Z.eqb_spec BufLen 0); [contradiction|].
    cbn [negb].
    destruct (Z.eqb_spec Direction ATA_PASSTHROUGH_DATA_IN); [congruence|].
    rewrite Hd, Z.eqb_refl. reflexivity.
  - apply sector_count_exact.
  - apply Z.bits_inj'. intros n _. rewrite Z.land_spec, Z.lor_spec.
    destruct (Z.testbit 160 n), (Z.testbit (Device Command) n); reflexivity.
  - reflexivity.
  - intros Hpass.
    pose proof (ScsiPassthroughDirect_submits hPhysical Cdb 12 Direction
                  DataBuffer BufLen Timeout s Hpass) as Hrun.
    cbv zeta in Hrun. rewrite Hpad in Hrun.
    eexists _, _. split; [apply Hrun|reflexivity].
    rewrite HCdb. cbn. lia.
  - intros r s' sptd Hrun Htr. rewrite <- Hpad.
    exact (ScsiPassthroughDirect_sent _ _ 12 _ _ _ _ _ _ _ _ ltac:(lia)
             Hrun Htr).
Qed.

(** X7.  The 16 bytes of UsbCypressAtaPassthrough: the Cypress opcode
    twice, 0x80 for IDENTIFY DEVICE and IDENTIFY PACKET DEVICE and 0 for
    every other command, 0xBE, 1, 0, Features, the sector count, the
    three LBA bytes, the device byte, the ATA opcode and three zeros.
    For IDENTIFY PACKET DEVICE, when it is no label of the [switch] of
    GetAtaDirection, the identify bit is set while the direction of the
    request is None.  The function hands the bytes to
    ScsiPassthroughDirect with length 16: that request is sent once the
    checks pass, and no other request is ever sent. *)
Theorem UsbCypressAtaPassthrough_spec (Hok : SmartH_ok H) (s : St) :
  let Direction := GetAtaDirection (AtaCmd Command) (Features Command) in
  let Cdb := UsbCypressAtaPassthrough_Cdb Command BufLen in
  let layout (identify : Z) :=
    [USB_CYPRESS_ATA_PASSTHROUGH; USB_CYPRESS_ATA_PASSTHROUGH; identify;
     0xBE; 1; 0; Features Command; uint8_t (BufLen / 512);
     Lba_low Command; Lba_mid Command; Lba_high Command; Device Command;
     AtaCmd Command; 0; 0; 0] in
  (AtaCmd Command ∈ [ATA_IDENTIFY_DEVICE; ATA_IDENTIFY_PACKET_DEVICE] →
   Cdb = layout 0x80) ∧
  (AtaCmd Command ∉ [ATA_IDENTIFY_DEVICE; ATA_IDENTIFY_PACKET_DEVICE] →
   Cdb = layout 0) ∧
  (0 ≤ BufLen ≤ 0xFFFF → uint8_t (BufLen / 512) = BufLen / 512) ∧
  (AtaCmd Command = ATA_IDENTIFY_PACKET_DEVICE →
   ATA_IDENTIFY_PACKET_DEVICE ∉
     [ATA_IDENTIFY_DEVICE; ATA_READ_LOG_EXT; ATA_SMART_CMD;
      ATA_DATA_SET_MANAGEMENT] →
   Cdb !! 2%nat = Some 0x80 ∧ Direction = ATA_PASSTHROUGH_DATA_NONE) ∧
  UsbCypressAtaPassthrough hPhysical Command DataBuffer BufLen Timeout s
  = ScsiPassthroughDirect hPhysical Cdb 16 Direction DataBuffer BufLen
      Timeout s ∧
  (checks_pass Cdb 16 Direction DataBuffer BufLen →
   ∃ (r : Z) (s' : St),
     UsbCypressAtaPassthrough hPhysical Command DataBuffer BufLen Timeout s
     = Some (r, s') ∧
     trace s' = trace s ++
       [IoControl hPhysical
          (submitted Cdb 16 Direction DataBuffer BufLen Timeout)]) ∧
  (∀ (r : Z) (s' : St) (sptd : SCSI_PASS_THROUGH_DIRECT),
     UsbCypressAtaPassthrough hPhysical Command DataBuffer BufLen Timeout s
     = Some (r, s') →
     trace s' = trace s ++ [IoControl hPhysical sptd] →
     sptd = submitted Cdb 16 Direction DataBuffer BufLen Timeout).
Proof.
  intros Direction Cdb layout.
  assert (Cdb = layout
            (if (AtaCmd Command =? ATA_IDENTIFY_DEVICE)
                || (AtaCmd Command =? ATA_IDENTIFY_PACKET_DEVICE)
             then 0x80 else 0)) as HCdb.
  { subst Cdb layout. cbv beta. rewrite <- (sector_shift_div BufLen Hok).
    apply UsbCypressAtaPassthrough_Cdb_fields. }
  assert (take (Z.to_nat 16) Cdb ++ replicate (16 - Z.to_nat 16) 0 = Cdb)
    as Hpad by (rewrite HCdb; reflexivity).
  split; [|split; [|split; [|split; [|split; [|split]]]]].
  - rewrite HCdb, !elem_of_cons, elem_of_nil. intros Hid.
    btest ((AtaCmd Command =? ATA_IDENTIFY_DEVICE)
           || (AtaCmd Command =? ATA_IDENTIFY_PACKET_DEVICE));
      [reflexivity | tauto].
  - rewrite HCdb, !not_elem_of_cons. intros Hid.
    btest ((AtaCmd Command =? ATA_IDENTIFY_DEVICE)
           || (AtaCmd Command =? ATA_IDENTIFY_PACKET_DEVICE));
      [tauto | reflexivity].
  - apply sector_count_exact.
  - intros Hcmd Hnot. split.
    + rewrite HCdb, Hcmd, Z.eqb_refl, orb_true_r. reflexivity.
    + subst Direction. rewrite Hcmd. apply GetAtaDirection_default, Hnot.
  - reflexivity.
  - intros Hpass.
    pose proof (ScsiPassthroughDirect_submits hPhysical Cdb 16 Direction
                  DataBuffer BufLen Timeout s Hpass) as Hrun.
    cbv zeta in Hrun. rewrite Hpad in Hrun.
    eexists _, _. split; [apply Hrun|reflexivity].
    rewrite HCdb. cbn. lia.
  - intros r s' sptd Hrun Htr. rewrite <- Hpad at 1.
    exact (ScsiPassthroughDirect_sent _ _ 16 _ _ _ _ _ _ _ _ ltac:(lia)
             Hrun Htr).
Qed.
End Bridge_layouts.

Section Encoders.
Context {H : SmartH}.

(** X8.  The CDBs of SatAtaPassthrough, of _UsbJMPLAtaPassthrough and of
    UsbCypressAtaPassthrough determine the command: two commands with the
    same CDB are the same.  The CDB of UsbSunPlusAtaPassthrough determines
    every field but Device, of which it keeps [Device | 0xA0]: two
    commands have the same CDB exactly when they agree on the other fields
    and on [Device | 0xA0], and setting the bits of 0xA0 in Device changes
    nothing. *)
Theorem Cdb_injective (c1 c2 : ATA_PASSTHROUGH_CMD) (BufLen : Z) :
  (SatAtaPassthrough_Cdb c1 BufLen = SatAtaPassthrough_Cdb c2 BufLen →
   c1 = c2) ∧
  (_UsbJMPLAtaPassthrough_Cdb c1 BufLen = _UsbJMPLAtaPassthrough_Cdb c2 BufLen →
   c1 = c2) ∧
  (UsbCypressAtaPassthrough_Cdb c1 BufLen
   = UsbCypressAtaPassthrough_Cdb c2 BufLen → c1 = c2) ∧
  (UsbSunPlusAtaPassthrough_Cdb c1 BufLen
   = UsbSunPlusAtaPassthrough_Cdb c2 BufLen ↔
   AtaCmd c1 = AtaCmd c2 ∧ Features c1 = Features c2 ∧
   Lba_low c1 = Lba_low c2 ∧ Lba_mid c1 = Lba_mid c2 ∧
   Lba_high c1 = Lba_high c2 ∧
   Z.lor (Device c1) 0xa0 = Z.lor (Device c2) 0xa0) ∧
  UsbSunPlusAtaPassthrough_Cdb
    {| AtaCmd := AtaCmd c1; Features := Features c1; Lba_low := Lba_low c1;
       Lba_mid := Lba_mid c1; Lba_high := Lba_high c1;
       Device := Z.lor (Device c1) 0xa0 |} BufLen
  = UsbSunPlusAtaPassthrough_Cdb c1 BufLen.
Proof.
  split; [|split; [|split; [|split]]].
  - destruct (SatAtaPassthrough_Cdb_fields c1 BufLen) as (a1 & a2 & _ & ->).
    destruct (SatAtaPassthrough_Cdb_fields c2 BufLen) as (b1 & b2 & _ & ->).
    intros Heq. injection Heq as _ _ Hf Hl Hm Hh Hd Hc.
    destruct c1, c2. cbn in *. congruence.
  - rewrite !_UsbJMPLAtaPassthrough_Cdb_fields.
    intros Heq. injection Heq as _ Hf Hl Hm Hh Hd Hc.
    destruct c1, c2. cbn in *. congruence.
  - rewrite !UsbCypressAtaPassthrough_Cdb_fields.
    intros Heq. injection Heq as _ Hf Hl Hm Hh Hd Hc.
    destruct c1, c2. cbn in *. congruence.
  - rewrite !UsbSunPlusAtaPassthrough_Cdb_fields. split.
    + intros Heq. injection Heq as _ Hf Hl Hm Hh Hd Hc.
      repeat split; assumption.
    + intros (-> & -> & -> & -> & -> & ->). reflexivity.
  - rewrite !UsbSunPlusAtaPassthrough_Cdb_fields.
    cbn [AtaCmd Features Lba_low Lba_mid Lba_high Device].
    rewrite <- Z.lor_assoc. reflexivity.
Qed.

(** X9.  When the fields of the command and the four opcodes of the
    bridges are bytes, every value that the four bridge functions store in
    [Cdb] is a byte: no assignment to the [uint8_t] array truncates. *)
Theorem Cdb_bytes (Hop : byte_opcodes) (Command : ATA_PASSTHROUGH_CMD)
    (BufLen : Z) :
  byte_command Command →
  Forall is_byte (SatAtaPassthrough_Cdb Command BufLen) ∧
  Forall is_byte (_UsbJMPLAtaPassthrough_Cdb Command BufLen) ∧
  Forall is_byte (UsbSunPlusAtaPassthrough_Cdb Command BufLen) ∧
  Forall is_byte (UsbCypressAtaPassthrough_Cdb Command BufLen).
Proof.
  intros (Hc & Hf & Hl & Hm & Hh & Hd).
  unfold byte_opcodes in Hop. rewrite !Forall_cons in Hop.
  destruct Hop as (Hsat & Hjm & Hsp & Hcy & _).
  assert (∀ x, 0 ≤ x < 256 → is_byte x) as Hlit by (intros x Hx; exact Hx).
  split; [|split; [|split]].
  - destruct (SatAtaPassthrough_Cdb_fields Command BufLen)
      as (b1 & b2 & Hb & ->).
    rewrite !elem_of_cons, elem_of_nil in Hb.
    repeat apply Forall_cons_2; try apply Forall_nil_2;
      try assumption; try apply uint8_t_byte; try (apply Hlit; lia);
      apply Hlit; destruct Hb as [Hb | [Hb | [Hb | []]]];
      injection Hb as -> ->; lia.
  - rewrite _UsbJMPLAtaPassthrough_Cdb_fields.
    repeat apply Forall_cons_2; try apply Forall_nil_2;
      try assumption; try apply uint8_t_byte; try (apply Hlit; lia).
    destruct (_ && _); apply Hlit; lia.
  - rewrite UsbSunPlusAtaPassthrough_Cdb_fields.
    repeat apply Forall_cons_2; try apply Forall_nil_2;
      try assumption; try apply uint8_t_byte; try (apply Hlit; lia).
    + destruct (negb _); [|apply Hlit; lia].
      destruct (_ =? _); [apply Hlit; lia|].
      destruct (_ =? _); apply Hlit; lia.
    + apply lor_byte; [assumption | apply Hlit; lia].
  - rewrite UsbCypressAtaPassthrough_Cdb_fields.
    repeat apply Forall_cons_2; try apply Forall_nil_2;
      try assumption; try apply uint8_t_byte; try (apply Hlit; lia).
    destruct (_ || _); apply Hlit; lia.
Qed.
End Encoders.

Section Table.
Context {H : SmartH} {D : Host}.
Variables (hPhysical : Z) (Command : ATA_PASSTHROUGH_CMD).
Variables (DataBuffer BufLen Timeout : Z).

Local Abbreviation Direction :=
  (GetAtaDirection (AtaCmd Command) (Features Command)).

(** What an entry of the table hands to ScsiPassthroughDirect. *)
Lemma pt_calls (pt_i : AtaPassThroughType) :
  pt_i ∈ pt →
  (type pt_i = "SAT" → BufLen mod 512 = 0) →
  ∃ (Cdb : list Z) (CdbLen op : Z),
    (type pt_i, CdbLen, op) ∈
      [("SAT", 12, SAT_ATA_PASSTHROUGH_12);
       ("JMicron", 14, USB_JMICRON_ATA_PASSTHROUGH);
       ("Prolific", 12, USB_JMICRON_ATA_PASSTHROUGH);
       ("SunPlus", 12, USB_SUNPLUS_ATA_PASSTHROUGH);
       ("Cypress", 16, USB_CYPRESS_ATA_PASSTHROUGH)] ∧
    Cdb !! 0%nat = Some op ∧ (Z.to_nat CdbLen ≤ length Cdb)%nat ∧
    fn pt_i hPhysical Command DataBuffer BufLen Timeout
    = ScsiPassthroughDirect hPhysical Cdb CdbLen Direction DataBuffer BufLen
        Timeout.
Proof.
  unfold pt. rewrite !elem_of_cons, elem_of_nil.
  intros [-> | [-> | [-> | [-> | [-> | []]]]]] Hsat; cbn [fn type] in *.
  - destruct (SatAtaPassthrough_Cdb_fields Command BufLen)
      as (b1 & b2 & _ & HCdb).
    exists (SatAtaPassthrough_Cdb Command BufLen), 12, SAT_ATA_PASSTHROUGH_12.
    split; [rewrite !elem_of_cons; auto|].
    split; [rewrite HCdb; reflexivity|].
    split; [rewrite HCdb; cbn; lia|].
    unfold SatAtaPassthrough.
    btest (negb (BufLen mod 512 =? 0)); [|reflexivity].
    specialize (Hsat eq_refl). lia.
  - exists (_UsbJMPLAtaPassthrough_Cdb Command BufLen), 14,
      USB_JMICRON_ATA_PASSTHROUGH.
    split; [rewrite !elem_of_cons; auto|].
    split; [reflexivity|]. split; [cbn; lia | reflexivity].
  - exists (_UsbJMPLAtaPassthrough_Cdb Command BufLen), 12,
      USB_JMICRON_ATA_PASSTHROUGH.
    split; [rewrite !elem_of_cons; auto|].
    split; [reflexivity|]. split; [cbn; lia | reflexivity].
  - exists (UsbSunPlusAtaPassthrough_Cdb Command BufLen), 12,
      USB_SUNPLUS_ATA_PASSTHROUGH.
    split; [rewrite !elem_of_cons; auto 6|].
    rewrite UsbSunPlusAtaPassthrough_Cdb_fields at 1 2.
    split; [reflexivity|]. split; [cbn; lia | reflexivity].
  - exists (UsbCypressAtaPassthrough_Cdb Command BufLen), 16,
      USB_CYPRESS_ATA_PASSTHROUGH.
    split; [rewrite !elem_of_cons; auto 7|].
    rewrite UsbCypressAtaPassthrough_Cdb_fields at 1 2.
    split; [reflexivity|]. split; [cbn; lia | reflexivity].
Qed.

(** X10.  With a header whose bridge opcodes and directions
    ScsiPassthroughDirect accepts, a buffer at a multiple of 16 and a
    length up to 65535 (a multiple of 512 for SAT; the other four do not
    test it), each function of the table [pt] sends exactly one request:
    with the direction of the command, the length, the buffer and the
    timeout it was given, the CDB length and the opcode of its bridge (SAT
    12, JMicron 14, Prolific 12 with the JMicron opcode, SunPlus 12,
    Cypress 16), and it returns what ScsiPassthroughDirect makes of the
    answer of the device. *)
Theorem pt_sends_one_request (Hop : opcodes_allowed)
    (Hdir : directions_recognized) (pt_i : AtaPassThroughType) (s : St) :
  pt_i ∈ pt →
  DataBuffer mod 16 = 0 → 0 ≤ BufLen ≤ 0xFFFF →
  (type pt_i = "SAT" → BufLen mod 512 = 0) →
  ∃ (r : Z) (s' : St) (sptd : SCSI_PASS_THROUGH_DIRECT) (op : Z),
    fn pt_i hPhysical Command DataBuffer BufLen Timeout s = Some (r, s') ∧
    trace s' = trace s ++ [IoControl hPhysical sptd] ∧
    r = outcome (DeviceIoControl (world s) hPhysical sptd (block s)).1
          (GetLastError
             (DeviceIoControl (world s) hPhysical sptd (block s)).2) ∧
    world s' = (DeviceIoControl (world s) hPhysical sptd (block s)).2 ∧
    sptd_DataIn sptd = Direction ∧
    sptd_DataTransferLength sptd = BufLen ∧
    sptd_DataBuffer sptd = DataBuffer ∧
    sptd_TimeOutValue sptd = Timeout ∧
    sptd_Cdb sptd !! 0%nat = Some op ∧
    (type pt_i, sptd_CdbLength sptd, op) ∈
      [("SAT", 12, SAT_ATA_PASSTHROUGH_12);
       ("JMicron", 14, USB_JMICRON_ATA_PASSTHROUGH);
       ("Prolific", 12, USB_JMICRON_ATA_PASSTHROUGH);
       ("SunPlus", 12, USB_SUNPLUS_ATA_PASSTHROUGH);
       ("Cypress", 16, USB_CYPRESS_ATA_PASSTHROUGH)].
Proof.
  intros Hin Hal Hbuf Hsat.
  destruct (pt_calls pt_i Hin Hsat) as (Cdb & CdbLen & op & Hrow & H0 & Hsrc & ->).
  assert (0 < CdbLen ≤ 16 ∧ opcode_allowed op) as [Hlen Hallowed].
  { unfold opcodes_allowed in Hop. rewrite !Forall_cons in Hop.
    destruct Hop as (Hsat' & Hjm & Hsp & Hcy & _).
    rewrite !elem_of_cons, elem_of_nil in Hrow.
    destruct Hrow as [Hr | [Hr | [Hr | [Hr | [Hr | []]]]]];
      injection Hr as _ -> ->; (split; [lia | assumption]). }
  assert (Direction ≤ SCSI_IOCTL_DATA_UNSPECIFIED) as Hd.
  { unfold directions_recognized in Hdir. rewrite !Forall_cons in Hdir.
    pose proof (GetAtaDirection_range (AtaCmd Command) (Features Command))
      as Hrange.
    rewrite !elem_of_cons, elem_of_nil in Hrange.
    destruct Hrange as [-> | [-> | [-> | []]]]; lia. }
  assert (checks_pass Cdb CdbLen Direction DataBuffer BufLen) as Hpass.
  { split; [exact Hlen|]. split; [exact Hal|]. split; [lia|].
    split; [exact Hd|]. exists op. split; [exact H0 | exact Hallowed]. }
  pose proof (ScsiPassthroughDirect_submits hPhysical Cdb CdbLen Direction
                DataBuffer BufLen Timeout s Hpass Hsrc) as Hrun.
  cbv zeta in Hrun.
  eexists _, _, _, op. split; [exact Hrun|].
  split; [reflexivity|].
  unfold submitted.
  cbn [trace world sptd_DataIn sptd_DataTransferLength
         sptd_DataBuffer sptd_TimeOutValue sptd_Cdb sptd_CdbLength].
  split; [reflexivity|]. split; [reflexivity|]. split; [reflexivity|].
  split; [unfold uint16_t; apply Z.mod_small; lia|].
  split; [reflexivity|]. split; [reflexivity|].
  split.
  - rewrite lookup_app_l by (rewrite length_take; lia).
    rewrite lookup_take_lt by lia. exact H0.
  - replace (uint8_t CdbLen) with CdbLen; [exact Hrow|].
    unfold uint8_t. symmetry. apply Z.mod_small. lia.
Qed.

(** An entry of the table is SatAtaPassthrough refusing the length, or a
    call of ScsiPassthroughDirect. *)
Lemma pt_cases (pt_i : AtaPassThroughType) :
  pt_i ∈ pt →
  (BufLen mod 512 ≠ 0 ∧
   ∀ s : St,
     fn pt_i hPhysical Command DataBuffer BufLen Timeout s
     = Some (SPT_ERROR_BUFFER,
             mkSt (world s) (block s)
               (trace s ++
                [Uprintf
                   "SatAtaPassthrough: BufLen must be a multiple of <block size>\n"
                   []]))) ∨
  ∃ (Cdb : list Z) (CdbLen : Z),
    0 < CdbLen ≤ 16 ∧
    fn pt_i hPhysical Command DataBuffer BufLen Timeout
    = ScsiPassthroughDirect hPhysical Cdb CdbLen Direction DataBuffer BufLen
        Timeout.
Proof.
  intros Hin.
  destruct (decide (type pt_i = "SAT" ∧ BufLen mod 512 ≠ 0)) as [[Ht Hm]|Hn].
  - left. split; [exact Hm|]. intros s. revert Hin Ht.
    unfold pt. rewrite !elem_of_cons, elem_of_nil.
    intros [-> | [-> | [-> | [-> | [-> | []]]]]]; try discriminate.
    intros _. cbn [fn]. unfold SatAtaPassthrough.
    btest (negb (BufLen mod 512 =? 0)); [reflexivity | lia].
  - right.
    destruct (pt_calls pt_i Hin) as (Cdb & CdbLen & op & Hrow & _ & _ & Hfn).
    { intros Ht. destruct (decide (BufLen mod 512 = 0)); tauto. }
    exists Cdb, CdbLen. split; [|exact Hfn].
    rewrite !elem_of_cons, elem_of_nil in Hrow.
    destruct Hrow as [Hr | [Hr | [Hr | [Hr | [Hr | []]]]]];
      injection Hr as _ -> _; lia.
Qed.

(** X11.  A function of the table [pt] returns SPT_SUCCESS only after it
    has sent one request for which DeviceIoControl returned TRUE and left
    the SCSI status 0; the device and the buffer are then as this call
    left them. *)
Theorem pt_success_sound (Hsg : SmartH_signs H) (pt_i : AtaPassThroughType)
    (s s' : St) :
  pt_i ∈ pt →
  fn pt_i hPhysical Command DataBuffer BufLen Timeout s
  = Some (SPT_SUCCESS, s') →
  ∃ sptd : SCSI_PASS_THROUGH_DIRECT,
    trace s' = trace s ++ [IoControl hPhysical sptd] ∧
    ioctl_ret (DeviceIoControl (world s) hPhysical sptd (block s)).1 = true ∧
    ioctl_ScsiStatus (DeviceIoControl (world s) hPhysical sptd (block s)).1
    = 0 ∧
    world s' = (DeviceIoControl (world s) hPhysical sptd (block s)).2 ∧
    block s'
    = dma_write
        (ioctl_data (DeviceIoControl (world s) hPhysical sptd (block s)).1)
        (block s).
Proof.
  intros Hin Hrun.
  destruct Hsg as [H0 Hneg]. rewrite !Forall_cons in Hneg.
  destruct Hneg as (Hn1 & Hn2 & Hn3 & Hn4 & Hn5 & Hn6 & Hn7 & Hn8 & Hn9 & _).
  destruct (pt_cases pt_i Hin) as [[_ Hsat] | (Cdb & CdbLen & Hlen & Hfn)].
  { rewrite Hsat in Hrun. injection Hrun as Hr _. lia. }
  rewrite Hfn in Hrun.
  destruct (ScsiPassthroughDirect_cases hPhysical Cdb CdbLen Direction
              DataBuffer BufLen Timeout s s' SPT_SUCCESS
              (Z.lt_le_incl _ _ (proj1 Hlen)) Hrun)
    as [[_ Hr] | (_ & _ & Hr & ->)].
  { rewrite !elem_of_cons, elem_of_nil in Hr. lia. }
  eexists. split; [reflexivity|]. cbn [world block].
  unfold outcome in Hr.
  match type of Hr with
  | context [ioctl_ret ?r] => set (res := r) in *
  end.
  destruct (ioctl_ret res); cbn [andb] in Hr.
  - destruct (Z.eqb_spec (ioctl_ScsiStatus res) 0) as [Hz|Hz];
      cbn [negb] in Hr; [auto | lia].
  - exfalso.
    destruct (Z.eqb_spec (ioctl_ScsiStatus res) 0) as [Hz|Hz];
      cbn [negb] in Hr; [|lia].
    destruct (_ =? ERROR_SEM_TIMEOUT); [lia|].
    destruct (_ =? ERROR_INVALID_PARAMETER); lia.
Qed.

(** X12.  Each function of the table [pt] returns SPT_ERROR_BUFFER for a
    buffer that is not at a multiple of 16 and for a length above 65535,
    and sends nothing: the device and the content of the buffer are
    unchanged. *)
Theorem pt_buffer_error (pt_i : AtaPassThroughType) (s : St) :
  pt_i ∈ pt →
  DataBuffer mod 16 ≠ 0 ∨ BufLen > 0xFFFF →
  ∃ s' : St,
    fn pt_i hPhysical Command DataBuffer BufLen Timeout s
    = Some (SPT_ERROR_BUFFER, s') ∧
    requests (trace s') = requests (trace s) ∧
    world s' = world s ∧ block s' = block s.
Proof.
  intros Hin Hbad.
  destruct (pt_cases pt_i Hin) as [[_ Hsat] | (Cdb & CdbLen & Hlen & Hfn)].
  - eexists. split; [apply Hsat|]. cbn [trace world block].
    unfold requests. rewrite omap_app. cbn. rewrite app_nil_r. auto.
  - exists s. rewrite Hfn. split; [|auto].
    apply check_buffer; assumption.
Qed.
End Table.

Lemma acs_header_opcodes : opcodes_allowed (H := acs_header).
Proof.
  unfold opcodes_allowed, opcode_allowed.
  repeat apply Forall_cons_2; try apply Forall_nil_2; cbn; lia.
Qed.

Lemma acs_header_byte_opcodes : byte_opcodes (H := acs_header).
Proof.
  unfold byte_opcodes, is_byte.
  repeat apply Forall_cons_2; try apply Forall_nil_2; cbn; lia.
Qed.

Lemma acs_header_directions : directions_recognized (H := acs_header).
Proof.
  unfold directions_recognized.
  repeat apply Forall_cons_2; try apply Forall_nil_2; cbn;
    unfold SCSI_IOCTL_DATA_UNSPECIFIED, SCSI_IOCTL_DATA_OUT,
      SCSI_IOCTL_DATA_IN; lia.
Qed.

Lemma SatAtaPassthrough_control_witness :
  SatAtaPassthrough_Cdb (H := acs_header)
    (identify_command (H := acs_header)) 512
  = [0xA1; 0x08; 0x0E; 0; 1; 0; 0; 0; 0; 0xEC; 0; 0].
Proof.
  destruct (SatAtaPassthrough_control (H := acs_header)
              (identify_command (H := acs_header)) 512 acs_header_ok)
    as (_ & Hin & _).
  apply Hin; [discriminate | reflexivity].
Defined.

Lemma UsbSunPlusAtaPassthrough_spec_witness :
  UsbSunPlusAtaPassthrough_Cdb (H := acs_header)
    (identify_command (H := acs_header)) 512
  = [0xF8; 0; 0x22; 0x10; 1; 0; 1; 0; 0; 0; 0xA0; 0xEC].
Proof.
  destruct (UsbSunPlusAtaPassthrough_spec (H := acs_header)
              (D := bridge (λ _, true) []) 0
              (identify_command (H := acs_header)) 0x1000 512 2 acs_header_ok
              (mkSt (D := bridge (λ _, true) []) O (replicate 512 0) []))
    as (_ & Hin & _).
  apply Hin; [discriminate | reflexivity].
Defined.

Lemma UsbCypressAtaPassthrough_spec_witness :
  UsbCypressAtaPassthrough_Cdb (H := acs_header)
    (identify_command (H := acs_header)) 512
  = [0x24; 0x24; 0x80; 0xBE; 1; 0; 0; 1; 0; 0; 0; 0; 0xEC; 0; 0; 0].
Proof.
  destruct (UsbCypressAtaPassthrough_spec (H := acs_header)
              (D := bridge (λ _, true) []) 0
              (identify_command (H := acs_header)) 0x1000 512 2 acs_header_ok
              (mkSt (D := bridge (λ _, true) []) O (replicate 512 0) []))
    as (Hid & _).
  apply Hid. apply elem_of_cons. left. reflexivity.
Defined.

Lemma Cdb_bytes_witness :
  Forall is_byte
    (UsbSunPlusAtaPassthrough_Cdb (H := acs_header)
       (identify_command (H := acs_header)) 512).
Proof.
  destruct (Cdb_bytes (H := acs_header) acs_header_byte_opcodes
              (identify_command (H := acs_header)) 512)
    as (_ & _ & Hsp & _); [|exact Hsp].
  repeat split; cbn; lia.
Defined.

Lemma pt_sends_one_request_witness :
  let s := mkSt (D := bridge (λ _, true) []) O (replicate 512 0) [] in
  ∃ (r : Z) (s' : St (D := bridge (λ _, true) []))
    (sptd : SCSI_PASS_THROUGH_DIRECT),
    UsbCypressAtaPassthrough (H := acs_header) 0
      (identify_command (H := acs_header)) 0x1000 512 2 s = Some (r, s') ∧
    trace s' = [IoControl 0 sptd] ∧ sptd_DataTransferLength sptd = 512.
Proof.
  intros s.
  destruct (pt_sends_one_request (H := acs_header)
              (D := bridge (λ _, true) []) 0
              (identify_command (H := acs_header)) 0x1000 512 2
              acs_header_opcodes acs_header_directions
              {| fn := UsbCypressAtaPassthrough (H := acs_header);
                 type := "Cypress" |} s)
    as (r & s' & sptd & op & Hrun & Htr & _ & _ & _ & Hlen & _).
  - unfold pt. rewrite !elem_of_cons. auto 10.
  - reflexivity.
  - lia.
  - discriminate.
  - exists r, s', sptd. auto.
Defined.

Lemma pt_success_sound_witness :
  let s := mkSt (D := bridge (λ _, true) []) O (replicate 512 0) [] in
  ∃ (s' : St (D := bridge (λ _, true) []))
    (sptd : SCSI_PASS_THROUGH_DIRECT),
    SatAtaPassthrough (H := acs_header) 0
      (identify_command (H := acs_header)) 0x1000 512 2 s = Some (0, s') ∧
    trace s' = [IoControl 0 sptd].
Proof.
  intros s.
  assert (∃ s' : St (D := bridge (λ _, true) []),
            SatAtaPassthrough (H := acs_header) 0
              (identify_command (H := acs_header)) 0x1000 512 2 s
            = Some (0, s')) as [s' Hrun] by (eexists; lazy; reflexivity).
  destruct (pt_success_sound (H := acs_header)
              (D := bridge (λ _, true) []) 0
              (identify_command (H := acs_header)) 0x1000 512 2
              acs_header_signs
              {| fn := SatAtaPassthrough (H := acs_header); type := "SAT" |}
              s s')
    as (sptd & Htr & _).
  - unfold pt. rewrite !elem_of_cons. auto.
  - exact Hrun.
  - exists s', sptd. split; [exact Hrun | exact Htr].
Defined.

Lemma pt_buffer_error_witness :
  let s := mkSt (D := bridge (λ _, true) []) O (replicate 512 0) [] in
  ∃ s' : St (D := bridge (λ _, true) []),
    UsbSunPlusAtaPassthrough (H := acs_header) 0
      (identify_command (H := acs_header)) 0x1001 512 2 s = Some (-2, s') ∧
    requests (trace s') = [].
Proof.
  intros s.
  destruct (pt_buffer_error (H := acs_header)
              (D := bridge (λ _, true) []) 0
              (identify_command (H := acs_header)) 0x1001 512 2
              {| fn := UsbSunPlusAtaPassthrough (H := acs_header);
                 type := "SunPlus" |} s)
    as (s' & Hrun & Hreq & _).
  - unfold pt. rewrite !elem_of_cons. auto 10.
  - left. discriminate.
  - exists s'. split; [exact Hrun | exact Hreq].
Defined.

(** ** The requests of Identify *)

Section Identify_wire.
Context {H : SmartH} {D : Host}.
Variables (hPhysical idd : Z).

Lemma identify_direction :
  GetAtaDirection (AtaCmd identify_command) (Features identify_command)
  = ATA_PASSTHROUGH_DATA_IN.
Proof.
  unfold GetAtaDirection, identify_command. cbn [AtaCmd Features].
  rewrite Z.eqb_refl. reflexivity.
Qed.

Lemma identify_Cdbs (Hok : SmartH_ok H) :
  [ (12, take 12 (SatAtaPassthrough_Cdb identify_command 512)
         ++ replicate 4 0);
    (14, take 14 (_UsbJMPLAtaPassthrough_Cdb identify_command 512)
         ++ replicate 2 0);
    (12, take 12 (_UsbJMPLAtaPassthrough_Cdb identify_command 512)
         ++ replicate 4 0);
    (12, take 12 (UsbSunPlusAtaPassthrough_Cdb identify_command 512)
         ++ replicate 4 0);
    (16, take 16 (UsbCypressAtaPassthrough_Cdb identify_command 512)
         ++ replicate 0 0) ]
  = identify_cdbs.
Proof.
  destruct (direction_distinct Hok) as (Hni & Hno & Hio).
  assert (Z.shiftr 512 SECTOR_SIZE_SHIFT_BIT = 1) as Hsec
    by (rewrite (sector_shift _ Hok); reflexivity).
  rewrite _UsbJMPLAtaPassthrough_Cdb_fields,
    UsbSunPlusAtaPassthrough_Cdb_fields, UsbCypressAtaPassthrough_Cdb_fields.
  unfold SatAtaPassthrough_Cdb.
  rewrite identify_direction, Hsec.
  cbn [negb Z.eqb andb].
  change (512 =? 0) with false. cbn [negb andb].
  rewrite Z.eqb_refl.
  destruct (Z.eqb_spec ATA_PASSTHROUGH_DATA_IN ATA_PASSTHROUGH_DATA_NONE)
    as [Heq|_]; [congruence|].
  destruct (Z.eqb_spec ATA_PASSTHROUGH_DATA_IN ATA_PASSTHROUGH_DATA_OUT)
    as [Heq|_]; [congruence|].
  cbn [identify_command AtaCmd Features Lba_low Lba_mid Lba_high Device].
  rewrite Z.eqb_refl. reflexivity.
Qed.
End Identify_wire.

Section Identify_wire_loop.
Context {H : SmartH} {D : Host}.
Variables (hPhysical idd : Z).

Local Abbreviation call pt_i :=
  (fn pt_i hPhysical identify_command idd sizeof_IDENTIFY_DEVICE_DATA
     SPT_TIMEOUT_VALUE).

(** With a header whose opcodes and directions ScsiPassthroughDirect
    accepts and an aligned buffer, each bridge function sends its request
    of [identify_requests]. *)
Lemma pt_sends_identify (Hok : SmartH_ok H) (Hop : opcodes_allowed)
    (Hdir : directions_recognized) :
  idd mod 16 = 0 →
  Forall2 (λ pt_i q, sends (call pt_i) q) pt
    (identify_requests hPhysical idd).
Proof.
  intros Hal.
  unfold opcodes_allowed in Hop. rewrite !Forall_cons in Hop.
  destruct Hop as (Hsat & Hjm & Hsp & Hcy & _).
  unfold directions_recognized in Hdir. rewrite !Forall_cons in Hdir.
  destruct Hdir as (_ & Hin & _).
  assert (∀ (Cdb : list Z) (CdbLen op : Z) (n : nat),
            0 < CdbLen ≤ 16 → n = Z.to_nat CdbLen → (n ≤ length Cdb)%nat →
            Cdb !! 0%nat = Some op → opcode_allowed op →
            sends (ScsiPassthroughDirect hPhysical Cdb CdbLen
                     ATA_PASSTHROUGH_DATA_IN idd 512 SPT_TIMEOUT_VALUE)
              (identify_request hPhysical idd
                 (CdbLen, take n Cdb ++ replicate (16 - n) 0))) as Hsend.
  { intros Cdb CdbLen op n Hlen -> Hsrc H0 Hallowed s s' r Hrun.
    assert (checks_pass Cdb CdbLen ATA_PASSTHROUGH_DATA_IN idd 512) as Hpass.
    { split; [exact Hlen|]. split; [exact Hal|]. split; [lia|].
      split; [lia|]. exists op. split; [exact H0 | exact Hallowed]. }
    rewrite (ScsiPassthroughDirect_submits _ _ _ _ _ _ _ s Hpass Hsrc) in Hrun.
    injection Hrun as _ <-. cbn [trace identify_request fst snd].
    unfold submitted, uint8_t. rewrite (Z.mod_small CdbLen) by lia.
    reflexivity. }
  unfold identify_requests. rewrite <- (identify_Cdbs Hok).
  unfold pt. cbn [map].
  repeat apply Forall2_cons_2; try apply Forall2_nil_2; cbn [fn];
    unfold sizeof_IDENTIFY_DEVICE_DATA.
  - unfold SatAtaPassthrough.
    change (negb (512 mod 512 =? 0)) with false. cbv iota.
    rewrite identify_direction.
    destruct (SatAtaPassthrough_Cdb_fields identify_command 512)
      as (b1 & b2 & _ & HCdb).
    apply (Hsend _ 12 SAT_ATA_PASSTHROUGH_12 12%nat);
      [lia | reflexivity | rewrite HCdb; cbn; lia
       | rewrite HCdb; reflexivity | exact Hsat].
  - unfold UsbJmicronAtaPassthrough, _UsbJMPLAtaPassthrough.
    rewrite identify_direction.
    apply (Hsend _ 14 USB_JMICRON_ATA_PASSTHROUGH 14%nat);
      [lia | reflexivity | cbn; lia | reflexivity | exact Hjm].
  - unfold UsbProlificAtaPassthrough, _UsbJMPLAtaPassthrough.
    rewrite identify_direction.
    apply (Hsend _ 12 USB_JMICRON_ATA_PASSTHROUGH 12%nat);
      [lia | reflexivity | cbn; lia | reflexivity | exact Hjm].
  - unfold UsbSunPlusAtaPassthrough. rewrite identify_direction.
    apply (Hsend _ 12 USB_SUNPLUS_ATA_PASSTHROUGH 12%nat);
      [lia | reflexivity
       | rewrite UsbSunPlusAtaPassthrough_Cdb_fields; cbn; lia
       | rewrite UsbSunPlusAtaPassthrough_Cdb_fields; reflexivity
       | exact Hsp].
  - unfold UsbCypressAtaPassthrough. rewrite identify_direction.
    apply (Hsend _ 16 USB_CYPRESS_ATA_PASSTHROUGH 16%nat);
      [lia | reflexivity
       | rewrite UsbCypressAtaPassthrough_Cdb_fields; cbn; lia
       | rewrite UsbCypressAtaPassthrough_Cdb_fields; reflexivity
       | exact Hcy].
Qed.

(** The requests and the attempts of the loop of Identify, for bridge
    functions that send known requests. *)
Lemma Identify_for_wire (entries : list AtaPassThroughType)
    (qs : list (Z * SCSI_PASS_THROUGH_DIRECT)) (i r : Z) (s s' : St) :
  Forall2 (λ pt_i q, sends (call pt_i) q) entries qs →
  Identify_for entries i hPhysical identify_command idd s = Some (r, s') →
  ∃ (n : nat) (evs : list event),
    (n ≤ length entries)%nat ∧ (entries ≠ [] → (1 ≤ n)%nat) ∧
    trace s' = trace s ++ evs ∧
    requests evs = take n qs ∧
    attempts evs = map type (take n entries).
Proof.
  intros Hs. revert i s.
  induction Hs as [|e [h sptd] es qs' He Hes IH]; intros i s Hrun.
  { injection Hrun as _ <-. exists 0%nat, []. rewrite app_nil_r.
    repeat split; [cbn; lia | congruence]. }
  cbn [Identify_for] in Hrun. unfold mbind at 1, M_bind at 1 in Hrun.
  destruct (call e s) as [[r1 s1]|] eqn:Hcall; [|discriminate].
  pose proof (He s s1 r1 Hcall) as Ht1. cbn [fst snd] in Ht1.
  destruct (r1 =? SPT_SUCCESS).
  - exists 1%nat.
    unfold mbind, M_bind, uprintf, emit, read_SmartCommands, dump_idd, emit
      in Hrun.
    cbn [block world trace] in Hrun.
    destruct (SmartCommands (block s1)) as [smart|]; [|discriminate].
    destruct smart; cbn [block world trace mret M_ret] in Hrun;
      injection Hrun as _ <-; cbn [trace]; rewrite Ht1, <- !app_assoc;
      eexists; (split; [cbn; lia|]); (split; [intros _; lia|]);
      (split; [reflexivity|]); split; reflexivity.
  - unfold mbind at 1, M_bind at 1, uprintf, emit in Hrun.
    destruct (IH _ _ Hrun) as (n & evs & Hn & _ & Ht & Hq & Ha).
    cbn [trace] in Ht.
    exists (S n),
      (IoControl h sptd
       :: Uprintf "No joy with: %s (%s)\n" [type e; SptStrerr r1] :: evs).
    split; [cbn; lia|]. split; [intros _; lia|].
    split; [rewrite Ht, Ht1, <- !app_assoc; reflexivity|].
    split.
    + change (requests (IoControl h sptd :: Uprintf "No joy with: %s (%s)\n"
                          [type e; SptStrerr r1] :: evs))
        with ((h, sptd) :: requests evs).
      rewrite Hq. reflexivity.
    + change (attempts (IoControl h sptd :: Uprintf "No joy with: %s (%s)\n"
                          [type e; SptStrerr r1] :: evs))
        with (type e :: attempts evs).
      rewrite Ha. reflexivity.
Qed.

(** X13.  With a header whose bridge opcodes and directions
    ScsiPassthroughDirect accepts, and the 512 bytes at a multiple of 16
    that [_aligned_malloc] returns, Identify returns TRUE after it has
    tried the first [n] bridges of the table, 1 <= n <= 5, and sent one
    request per bridge tried: the first [n] of [identify_requests], each
    on the handle [hPhysical], for 512 bytes into the buffer, data-in,
    with the timeout SPT_TIMEOUT_VALUE, and with the CDB of its bridge for
    IDENTIFY DEVICE. *)
Theorem Identify_requests (Hok : SmartH_ok H) (Hop : opcodes_allowed)
    (Hdir : directions_recognized) (s : St) :
  idd mod 16 = 0 →
  length (block s) = 512%nat →
  ∃ (s' : St) (evs : list event) (n : nat),
    Identify hPhysical (Some idd) s = Some (TRUE, s') ∧
    trace s' = trace s ++ evs ∧
    (1 ≤ n ≤ 5)%nat ∧
    attempts evs = take n ["SAT"; "JMicron"; "Prolific"; "SunPlus"; "Cypress"] ∧
    requests evs = take n (identify_requests hPhysical idd).
Proof.
  intros Hal Hblk.
  assert (∃ s' : St, Identify hPhysical (Some idd) s = Some (TRUE, s'))
    as [s' Hrun].
  { destruct (failing_or_success hPhysical identify_command idd pt s
                (pt_total _ _ _ _ _))
      as [[s1 Hfail] | (k & pt_k & s1 & s2 & Hk & Hfail & Hcall)].
    - destruct (Identify_exhausted hPhysical idd s s1 Hfail) as (evs & Hrun & _).
      eauto.
    - destruct (Identify_success hPhysical idd Hok k pt_k s s1 s2 Hblk Hk
                  Hfail Hcall) as (smart & evs & _ & Hrun & _).
      eauto. }
  exists s'. pose proof Hrun as Hrun'.
  unfold Identify in Hrun'. fold identify_command in Hrun'.
  unfold mbind at 1, M_bind at 1 in Hrun'.
  destruct (Identify_for pt 0 hPhysical identify_command idd s)
    as [[i s1]|] eqn:Hfor; [|discriminate].
  destruct (Identify_for_wire pt (identify_requests hPhysical idd) 0 i s s1
              (pt_sends_identify Hok Hop Hdir Hal) Hfor)
    as (n & evs & Hn & Hn1 & Ht & Hq & Ha).
  assert (attempts evs
          = take n ["SAT"; "JMicron"; "Prolific"; "SunPlus"; "Cypress"])
    as Ha' by (rewrite Ha, <- firstn_map; reflexivity).
  assert (1 ≤ n ≤ 5)%nat as Hn' by (split; [apply Hn1; discriminate | exact Hn]).
  unfold mbind, M_bind, uprintf, emit, mret, M_ret in Hrun'.
  destruct (i >=? Z.of_nat (length pt)); injection Hrun' as <-.
  - exists (evs ++ [Uprintf "NO ATA FOR YOU!\n" []]), n.
    split; [exact Hrun|]. cbn [trace]. rewrite Ht, <- app_assoc.
    split; [reflexivity|]. split; [exact Hn'|].
    unfold attempts, requests in *. rewrite !omap_app, Ha', Hq. cbn.
    rewrite !app_nil_r. split; reflexivity.
  - exists evs, n. auto.
Qed.
End Identify_wire_loop.

Lemma Identify_requests_witness :
  let s := mkSt (D := bridge prolific_only (identify_data true)) O
             (replicate 512 0) [] in
  ∃ (s' : St (D := bridge prolific_only (identify_data true)))
    (evs : list event) (n : nat),
    Identify (H := acs_header) 7 (Some 0x1000) s = Some (TRUE, s') ∧
    trace s' = trace s ++ evs ∧
    (1 ≤ n ≤ 5)%nat ∧
    attempts evs
    = take n ["SAT"; "JMicron"; "Prolific"; "SunPlus"; "Cypress"] ∧
    requests evs = take n (identify_requests (H := acs_header) 7 0x1000).
Proof.
  intros s.
  apply (Identify_requests (H := acs_header)
           (D := bridge prolific_only (identify_data true)) 7 0x1000
           acs_header_ok acs_header_opcodes acs_header_directions s);
    reflexivity.
Defined.

(** ** The order of the probe *)

Section Probe_order.
Context {H : SmartH} {D : Host}.
Variables (hPhysical idd : Z).

Local Abbreviation call pt_i :=
  (fn pt_i hPhysical identify_command idd sizeof_IDENTIFY_DEVICE_DATA
     SPT_TIMEOUT_VALUE).
Local Abbreviation fail_all :=
  (failing hPhysical identify_command idd).

(** What a run of Identify has added to the log: the attempts on the first
    [n] bridges of the table and their requests. *)
Lemma Identify_trace_wire (Hok : SmartH_ok H) (Hop : opcodes_allowed)
    (Hdir : directions_recognized) (s s' : St) (r : Z) (evs : list event) :
  idd mod 16 = 0 →
  Identify hPhysical (Some idd) s = Some (r, s') →
  trace s' = trace s ++ evs →
  ∃ n : nat,
    (n ≤ 5)%nat ∧
    attempts evs = map type (take n pt) ∧
    requests evs = take n (identify_requests hPhysical idd).
Proof.
  intros Hal Hrun Htr.
  unfold Identify in Hrun. fold identify_command in Hrun.
  unfold mbind at 1, M_bind at 1 in Hrun.
  destruct (Identify_for pt 0 hPhysical identify_command idd s)
    as [[i s1]|] eqn:Hfor; [|discriminate].
  destruct (Identify_for_wire hPhysical idd pt
              (identify_requests hPhysical idd) 0 i s s1
              (pt_sends_identify hPhysical idd Hok Hop Hdir Hal) Hfor)
    as (n & evs1 & Hn & _ & Ht & Hq & Ha).
  exists n. split; [exact Hn|].
  unfold mbind, M_bind, uprintf, emit, mret, M_ret in Hrun.
  destruct (i >=? Z.of_nat (length pt)); injection Hrun as _ <-;
    cbn [trace] in Htr; rewrite Ht in Htr.
  - rewrite <- app_assoc in Htr. apply app_inv_head in Htr. subst evs.
    unfold attempts, requests in *. rewrite !omap_app, Ha, Hq. cbn.
    rewrite !app_nil_r. split; reflexivity.
  - apply app_inv_head in Htr. subst evs. split; assumption.
Qed.

(** C4.  The table holds the five bridge functions in the order
    SatAtaPassthrough, UsbJmicronAtaPassthrough, UsbProlificAtaPassthrough,
    UsbSunPlusAtaPassthrough, UsbCypressAtaPassthrough, under the names SAT,
    JMicron, Prolific, SunPlus, Cypress, and Identify calls them in that
    order.  When the function at place [k] is the first that returns
    SPT_SUCCESS, Identify logs its bridge as the successful one, the
    bridges it has tried are the first [k+1] of the table, the device and
    the buffer are left as that function left them, and the loop gives the
    same whatever bridges follow place [k] in the table: none of them is
    called.  When all five fail, exactly the five are tried and the log
    says that no bridge worked.  In both cases, with a header whose bridge
    opcodes and directions ScsiPassthroughDirect accepts and a buffer at a
    multiple of 16, the requests that reached the device are those of the
    bridges tried, one each and in the order of the table: the first
    [k+1] of [identify_requests], or all five.  One of the two cases
    always applies.  For the success case the block is the 512 bytes that
    [_aligned_malloc] returned. *)
Theorem Identify_probe_order (Hok : SmartH_ok H) (s : St) :
  map type pt = ["SAT"; "JMicron"; "Prolific"; "SunPlus"; "Cypress"] ∧
  map fn pt
  = [SatAtaPassthrough; UsbJmicronAtaPassthrough; UsbProlificAtaPassthrough;
     UsbSunPlusAtaPassthrough; UsbCypressAtaPassthrough] ∧
  (∀ (k : nat) pt_k (s1 s2 : St),
     length (block s) = 512%nat →
     pt !! k = Some pt_k →
     fail_all (take k pt) s s1 →
     call pt_k s1 = Some (SPT_SUCCESS, s2) →
     (∃ evs : list event,
        Identify hPhysical (Some idd) s
        = Some (TRUE, mkSt (world s2) (block s2) (trace s ++ evs)) ∧
        attempts evs = map type (take (S k) pt) ∧
        successes evs = [type pt_k] ∧
        no_ata evs = false ∧
        (opcodes_allowed → directions_recognized → idd mod 16 = 0 →
         requests evs = take (S k) (identify_requests hPhysical idd))) ∧
     (∀ others : list AtaPassThroughType,
        Identify_for (take k pt ++ pt_k :: others) 0 hPhysical
          identify_command idd s
        = Identify_for pt 0 hPhysical identify_command idd s)) ∧
  (∀ s1 : St,
     fail_all pt s s1 →
     ∃ evs : list event,
       Identify hPhysical (Some idd) s
       = Some (TRUE, mkSt (world s1) (block s1) (trace s ++ evs)) ∧
       attempts evs = map type pt ∧
       length (attempts evs) = 5%nat ∧
       successes evs = [] ∧
       no_ata evs = true ∧
       (opcodes_allowed → directions_recognized → idd mod 16 = 0 →
        requests evs = identify_requests hPhysical idd)) ∧
  ((∃ s1 : St, fail_all pt s s1) ∨
   (∃ (k : nat) pt_k (s1 s2 : St),
      pt !! k = Some pt_k ∧
      fail_all (take k pt) s s1 ∧
      call pt_k s1 = Some (SPT_SUCCESS, s2))).
Proof.
  assert (∀ (m : nat) (st : St) (evs : list event),
            (m ≤ 5)%nat →
            Identify hPhysical (Some idd) s = Some (TRUE, st) →
            trace st = trace s ++ evs →
            attempts evs = map type (take m pt) →
            opcodes_allowed → directions_recognized → idd mod 16 = 0 →
            requests evs = take m (identify_requests hPhysical idd)) as Hwire.
  { intros m st evs Hm Hrun Htr Ha Hop Hdir Hal.
    destruct (Identify_trace_wire Hok Hop Hdir s st TRUE evs Hal Hrun Htr)
      as (n & Hn & Ha' & Hq).
    rewrite Ha' in Ha. apply (f_equal length) in Ha.
    rewrite !length_map, !length_take in Ha. cbn [pt length] in Ha.
    replace n with m in Hq by lia. exact Hq. }
  split; [reflexivity|]. split; [reflexivity|].
  split; [|split]; cycle 2.
  { apply failing_or_success, pt_total. }
  - intros k pt_k s1 s2 Hblk Hk Hfail Hcall.
    destruct (Identify_success hPhysical idd Hok k pt_k s s1 s2 Hblk Hk
                Hfail Hcall)
      as (smart & evs & Hsm & Hrun & Ha & Hs & _ & Hn).
    pose proof (lookup_lt_Some _ _ _ Hk) as Hlt. cbn [pt length] in Hlt.
    split.
    + exists evs. split; [exact Hrun|]. split; [exact Ha|].
      split; [exact Hs|]. split; [exact Hn|].
      apply (Hwire (S k) _ evs ltac:(lia) Hrun eq_refl Ha).
    + intros others.
      rewrite <- (take_drop_middle pt k pt_k Hk) at 2.
      rewrite !(Identify_for_failing _ _ _ _ _ 0 _ _ Hfail).
      rewrite !(Identify_for_success _ _ _ _ _ _ _ _ _ Hcall Hsm).
      reflexivity.
  - intros s1 Hfail.
    destruct (Identify_exhausted hPhysical idd s s1 Hfail)
      as (evs & Hrun & Ha & Hs & _ & Hn).
    exists evs. split; [exact Hrun|]. split; [exact Ha|].
    split; [rewrite Ha; reflexivity|]. split; [exact Hs|].
    split; [exact Hn|].
    intros Hop Hdir Hal.
    exact (Hwire 5%nat _ evs ltac:(lia) Hrun eq_refl Ha Hop Hdir Hal).
Qed.
End Probe_order.

Lemma Identify_probe_order_witness :
  (let s := mkSt (D := bridge prolific_only (identify_data true)) O
              (replicate 512 0) [] in
   ∃ (s' : St) (evs : list event),
     Identify (H := acs_header) 7 (Some 0x1000) s = Some (TRUE, s') ∧
     trace s' = evs ∧
     attempts evs = ["SAT"; "JMicron"; "Prolific"] ∧
     successes evs = ["Prolific"] ∧
     requests evs = take 3 (identify_requests (H := acs_header) 7 0x1000) ∧
     no_ata evs = false) ∧
  (let s := mkSt (D := bridge (λ _, false) []) O (replicate 512 0) [] in
   ∃ (s' : St) (evs : list event),
     Identify (H := acs_header) 7 (Some 0x1000) s = Some (TRUE, s') ∧
     trace s' = evs ∧
     attempts evs = ["SAT"; "JMicron"; "Prolific"; "SunPlus"; "Cypress"] ∧
     successes evs = [] ∧
     requests evs = identify_requests (H := acs_header) 7 0x1000 ∧
     no_ata evs = true).
Proof.
  split; intros s.
  - destruct (Identify_probe_order (H := acs_header)
                (D := bridge prolific_only (identify_data true)) 7 0x1000
                acs_header_ok s)
      as (_ & _ & Hsucc & _).
    edestruct (Hsucc 2%nat) as [(evs & Hrun & Ha & Hs & Hn & Hq) _];
      [reflexivity | reflexivity | run_failing | lazy; reflexivity |].
    eexists _, evs. split; [exact Hrun|]. split; [reflexivity|].
    split; [exact Ha|]. split; [exact Hs|]. split; [|exact Hn].
    apply Hq;
      [exact acs_header_opcodes | exact acs_header_directions | reflexivity].
  - destruct (Identify_probe_order (H := acs_header)
                (D := bridge (λ _, false) []) 7 0x1000 acs_header_ok s)
      as (_ & _ & _ & Hall & _).
    edestruct Hall as (evs & Hrun & Ha & _ & Hs & Hn & Hq); [run_failing|].
    eexists _, evs. split; [exact Hrun|]. split; [reflexivity|].
    split; [exact Ha|]. split; [exact Hs|]. split; [|exact Hn].
    apply Hq;
      [exact acs_header_opcodes | exact acs_header_directions | reflexivity].
Defined.

(** ** The score of IsHDD *)

Lemma IsHDD_for_str_range (entries : list str_score)
    (strid : option (list ascii)) (ilen : nat) (score r : Z) :
  IsHDD_for_str entries strid ilen score = Some r →
  r = score ∨ ∃ e, e ∈ entries ∧ r = score + str_score_score e.
Proof.
  induction entries as [|e entries IH]; cbn [IsHDD_for_str].
  { intros Hr. injection Hr as <-. left. reflexivity. }
  assert (IsHDD_for_str entries strid ilen score = Some r →
          r = score ∨ ∃ e', e' ∈ e :: entries ∧ r = score + str_score_score e')
    as IH'.
  { intros Hr. destruct (IH Hr) as [-> | (e' & He' & ->)]; [left; reflexivity|].
    right. exists e'. split; [apply elem_of_cons; auto | reflexivity]. }
  assert (Some (score + str_score_score e) = Some r →
          r = score ∨ ∃ e', e' ∈ e :: entries ∧ r = score + str_score_score e')
    as Hhit.
  { intros Hr. injection Hr as <-. right. exists e.
    split; [apply elem_of_cons; auto | reflexivity]. }
  destruct (strlen _) as [mlen|]; [|discriminate]. cbn [mbind option_bind].
  destruct (_ <? _)%nat.
  { intros Hr. injection Hr as <-. left. reflexivity. }
  destruct (match mlen with O => None | S m => _ end) as [last|];
    [|discriminate].
  cbn [mbind option_bind].
  destruct strid as [str|]; [|discriminate]. cbn [mbind option_bind].
  destruct (_strnicmp _ _ _) as [c|]; [|discriminate].
  cbn [mbind option_bind].
  destruct (c =? 0); [|exact IH'].
  destruct (negb _); [exact Hhit|].
  destruct (str !! mlen) as [d|]; [|discriminate]. cbn [mbind option_bind].
  destruct (_ && _); [exact Hhit | exact IH'].
Qed.

Lemma IsHDD_for_vid_known (vid score : Z) :
  IsHDD_for_vid manufacturer_vid vid score
  = score + (if known_vid vid then 10 else 0).
Proof.
  unfold known_vid, manufacturer_vid.
  cbn [IsHDD_for_vid existsb vid_score_vid vid_score_score].
  repeat (destruct (vid =? _); [cbn [orb]; reflexivity|]).
  cbn [orb]. lia.
Qed.

(** X14.  For NULL and for every array that holds a NUL, IsHDD returns a
    score and reads nothing outside the array; the score is one of 0, 3,
    10, 13, 20 and 23, a multiple of 10 for a drive that is not fixed, and
    at most 13 for a vendor ID that is not in the table. *)
Theorem IsHDD_total (drive_type vid pid : Z) (strid : option (list ascii)) :
  (∀ a, strid = Some a → is_Some (strlen a)) →
  ∃ score : Z,
    IsHDD drive_type vid pid strid = Some score ∧
    score ∈ [0; 3; 10; 13; 20; 23] ∧
    (drive_type ≠ DRIVE_FIXED → score ∈ [0; 10; 20]) ∧
    (known_vid vid = false → score ∈ [0; 3; 10; 13]).
Proof.
  intros Hterm. unfold IsHDD.
  assert (∃ ilen sc,
            safe_strlen strid = Some ilen ∧
            IsHDD_for_str manufacturer_str strid ilen
              (if drive_type =? DRIVE_FIXED then 0 + 3 else 0) = Some sc)
    as (ilen & sc & -> & Hsc).
  { destruct strid as [a|].
    - destruct (Hterm a eq_refl) as [ilen Hlen]. exists ilen.
      destruct (IsHDD_for_str_safe manufacturer_str a ilen
                  (if drive_type =? DRIVE_FIXED then 0 + 3 else 0)
                  manufacturer_str_names Hlen) as [sc Hsc].
      exists sc. split; [exact Hlen | exact Hsc].
    - exists 0%nat. eexists. split; reflexivity. }
  cbn [mbind option_bind]. rewrite Hsc. cbn [mbind option_bind].
  eexists. split; [reflexivity|].
  rewrite IsHDD_for_vid_known.
  assert (sc = (if drive_type =? DRIVE_FIXED then 0 + 3 else 0)
          ∨ sc = (if drive_type =? DRIVE_FIXED then 0 + 3 else 0) + 10)
    as Hrange.
  { destruct (IsHDD_for_str_range _ _ _ _ _ Hsc) as [-> | (e & He & ->)];
      [left; reflexivity | right].
    f_equal. revert He. unfold manufacturer_str.
    rewrite !elem_of_cons, elem_of_nil.
    intros He. repeat (destruct He as [-> | He]; [reflexivity|]).
    contradiction. }
  rewrite !elem_of_cons.
  destruct (Z.eqb_spec drive_type DRIVE_FIXED) as [Hf|Hf];
    destruct (known_vid vid); destruct Hrange as [-> | ->];
    (split; [cbn; tauto|]); (split; intros Hx; cbn; first [tauto | congruence | discriminate]).
Qed.

Lemma starts_with_length (p l : list ascii) :
  Spec.starts_with p l = true → (length p ≤ length l)%nat.
Proof.
  revert l. induction p as [|a p IH]; intros l; [cbn; lia|].
  destruct l as [|b l]; [discriminate|]. cbn [Spec.starts_with length].
  intros Hs. apply andb_true_iff in Hs as [_ Hs]. apply IH in Hs. lia.
Qed.

(** An entry longer than the string does not match it. *)
Lemma entry_matches_short (entry s : string) :
  (String.length s < String.length entry)%nat →
  Loop.entry_matches entry s = false.
Proof.
  rewrite <- !length_list_ascii_of_string. unfold Loop.entry_matches.
  set (e := String.list_ascii_of_string entry).
  set (l := String.list_ascii_of_string s). intros Hlt.
  destruct (Spec.is_wildcard e).
  - rewrite (lookup_ge_None_2 l (length e)) by lia. apply andb_false_r.
  - destruct (Spec.starts_with e l) eqn:Hs; [|reflexivity].
    apply starts_with_length in Hs. lia.
Qed.

(** In a table ordered by length, leaving the loop at the first name that
    is longer than the string skips no entry that matches. *)
Lemma award_any (entries : list str_score) (s : string) :
  by_length entries →
  Forall (λ e, str_score_score e = 10) entries →
  Loop.award entries s = if any_entry_matches entries s then 10 else 0.
Proof.
  unfold any_entry_matches.
  induction entries as [|e entries IH]; intros Hord Hsc; [reflexivity|].
  destruct Hord as [Hle Hord]. apply Forall_cons_1 in Hsc as [He Hsc].
  cbn [Loop.award existsb].
  destruct (Nat.ltb_spec (String.length s) (String.length (name e)))
    as [Hlt|Hge].
  - rewrite (entry_matches_short _ _ Hlt). cbn [orb].
    replace (existsb _ entries) with false; [reflexivity|].
    symmetry. apply not_true_iff_false. intros Hex.
    apply existsb_exists in Hex as (e' & Hin & Hm).
    apply list_elem_of_In in Hin.
    rewrite Forall_forall in Hle. specialize (Hle e' Hin).
    rewrite entry_matches_short in Hm by lia. discriminate.
  - destruct (Loop.entry_matches (name e) s); [exact He|].
    cbn [orb]. apply IH; assumption.
Qed.

Lemma manufacturer_str_by_length : by_length manufacturer_str.
Proof. cbn. repeat split; repeat constructor. Qed.

(** X15.  The score of IsHDD for a model string: 3 for a fixed drive, plus
    10 when some entry of the manufacturer table matches the string as the
    loop tests it, plus 10 when the vendor ID is one of 0x04B4, 0x067B,
    0x0BC2 and 0x152D.  The table is in the order of the lengths of its
    names, so that leaving the loop at the first name longer than the
    string skips no entry that matches.  For NULL the score is that of the
    drive type and the vendor ID. *)
Theorem IsHDD_score (drive_type vid pid : Z) (s : string) :
  Ascii.zero ∉ String.list_ascii_of_string s →
  IsHDD drive_type vid pid (c_str s)
  = Some ((if drive_type =? DRIVE_FIXED then 3 else 0)
          + (if any_entry_matches manufacturer_str s then 10 else 0)
          + (if known_vid vid then 10 else 0)) ∧
  IsHDD drive_type vid pid None
  = Some ((if drive_type =? DRIVE_FIXED then 3 else 0)
          + (if known_vid vid then 10 else 0)) ∧
  (known_vid vid = true ↔ vid ∈ [0x04b4; 0x067b; 0x0bc2; 0x152d]).
Proof.
  intros Hzs. split; [|split].
  - rewrite (IsHDD_award drive_type vid pid s Hzs), IsHDD_for_vid_known.
    rewrite (award_any manufacturer_str s manufacturer_str_by_length)
      by (repeat constructor).
    reflexivity.
  - unfold IsHDD. cbn [safe_strlen mbind option_bind].
    change (IsHDD_for_str manufacturer_str None 0
              (if drive_type =? DRIVE_FIXED then 0 + 3 else 0))
      with (Some (if drive_type =? DRIVE_FIXED then 0 + 3 else 0)).
    cbn [mbind option_bind]. rewrite IsHDD_for_vid_known.
    destruct (drive_type =? DRIVE_FIXED); reflexivity.
  - unfold known_vid, manufacturer_vid. cbn [existsb vid_score_vid].
    rewrite !elem_of_cons, elem_of_nil, !orb_true_iff, !Z.eqb_eq.
    intuition discriminate.
Qed.

(** The scan gives the same for two strings that no test of an entry tells
    apart. *)
Lemma award_ext (entries : list str_score) (s1 s2 : string) :
  Forall (λ e,
    (String.length s1 <? String.length (name e))%nat
    = (String.length s2 <? String.length (name e))%nat ∧
    Loop.entry_matches (name e) s1 = Loop.entry_matches (name e) s2) entries →
  Loop.award entries s1 = Loop.award entries s2.
Proof.
  induction 1 as [|e entries [Hlen Hm] _ IH]; [reflexivity|].
  cbn [Loop.award]. rewrite Hlen, Hm, IH. reflexivity.
Qed.

Lemma starts_with_lower (p l1 l2 : list ascii) :
  map Spec.lower l1 = map Spec.lower l2 →
  Spec.starts_with p l1 = Spec.starts_with p l2.
Proof.
  revert l1 l2. induction p as [|a p IH]; intros l1 l2 Heq; [reflexivity|].
  destruct l1 as [|b1 l1], l2 as [|b2 l2]; try discriminate; [reflexivity|].
  cbn [map] in Heq. injection Heq as Hb Heq.
  cbn [Spec.starts_with]. rewrite Hb, (IH l1 l2 Heq). reflexivity.
Qed.

Lemma is_digit_lower (c : ascii) :
  Spec.is_digit (Spec.lower c) = Spec.is_digit c.
Proof.
  unfold Spec.is_digit, Spec.lower.
  pose proof (Ascii.N_ascii_bounded c) as Hb.
  destruct (N.leb_spec 65 (Ascii.N_of_ascii c)) as [H1|H1];
    destruct (N.leb_spec (Ascii.N_of_ascii c) 90) as [H2|H2];
    cbn [andb]; try reflexivity.
  rewrite Ascii.N_ascii_embedding by lia.
  destruct (N.leb_spec 48 (Ascii.N_of_ascii c + 32));
    destruct (N.leb_spec (Ascii.N_of_ascii c + 32) 57);
    destruct (N.leb_spec 48 (Ascii.N_of_ascii c));
    destruct (N.leb_spec (Ascii.N_of_ascii c) 57);
    cbn [andb]; try reflexivity; lia.
Qed.

(** X16.  IsHDD does not tell upper case from lower case in the model
    string: two strings that agree when their letters A-Z are replaced by
    a-z get the same score. *)
Theorem IsHDD_case_insensitive (drive_type vid pid : Z) (s1 s2 : string) :
  Ascii.zero ∉ String.list_ascii_of_string s1 →
  Ascii.zero ∉ String.list_ascii_of_string s2 →
  map Spec.lower (String.list_ascii_of_string s1)
  = map Spec.lower (String.list_ascii_of_string s2) →
  IsHDD drive_type vid pid (c_str s1) = IsHDD drive_type vid pid (c_str s2).
Proof.
  intros Hz1 Hz2 Heq.
  rewrite (IsHDD_award _ _ _ s1 Hz1), (IsHDD_award _ _ _ s2 Hz2).
  do 3 f_equal. apply award_ext, Forall_forall. intros e _.
  pose proof (f_equal length Heq) as Hlen.
  rewrite !length_map, !length_list_ascii_of_string in Hlen.
  split; [rewrite Hlen; reflexivity|].
  unfold Loop.entry_matches.
  set (l1 := String.list_ascii_of_string s1) in *.
  set (l2 := String.list_ascii_of_string s2) in *.
  destruct (Spec.is_wildcard _); [|apply starts_with_lower, Heq].
  rewrite (starts_with_lower _ l1 l2 Heq). f_equal.
  pose proof (f_equal (λ l, l !! length (String.list_ascii_of_string (name e)))
                Heq) as Hat.
  cbv beta in Hat. rewrite !list_lookup_fmap in Hat.
  destruct (l1 !! _) as [c1|], (l2 !! _) as [c2|]; try discriminate;
    [|reflexivity].
  injection Hat as Hc.
  rewrite <- (is_digit_lower c1), <- (is_digit_lower c2), Hc. reflexivity.
Qed.

Lemma starts_with_take (n : nat) (p l : list ascii) :
  (length p ≤ n)%nat →
  Spec.starts_with p (take n l) = Spec.starts_with p l.
Proof.
  revert n l. induction p as [|a p IH]; intros n l Hn; [reflexivity|].
  destruct n as [|n]; [cbn in Hn; lia|].
  destruct l as [|b l]; [reflexivity|].
  cbn [take Spec.starts_with]. rewrite IH by (cbn in Hn; lia). reflexivity.
Qed.

(** What an entry tests of a string lies in its first [n] characters, when
    the name is not longer, and shorter when it ends in '#'. *)
Lemma entry_matches_take (n : nat) (entry s : string) :
  (String.length entry ≤ n)%nat →
  (Spec.is_wildcard (String.list_ascii_of_string entry) = true →
   (String.length entry < n)%nat) →
  Loop.entry_matches entry s
  = (let l := take n (String.list_ascii_of_string s) in
     let e := String.list_ascii_of_string entry in
     if Spec.is_wildcard e then
       Spec.starts_with (take (length e - 1) e) l &&
       match l !! length e with
       | Some c => Spec.is_digit c
       | None => false
       end
     else Spec.starts_with e l).
Proof.
  rewrite <- !length_list_ascii_of_string. unfold Loop.entry_matches.
  set (e := String.list_ascii_of_string entry).
  set (l := String.list_ascii_of_string s). intros Hn Hw. cbv zeta.
  destruct (Spec.is_wildcard e).
  - rewrite starts_with_take by (rewrite length_take; lia).
    rewrite lookup_take_lt by (apply Hw; reflexivity). reflexivity.
  - rewrite starts_with_take by exact Hn. reflexivity.
Qed.

(** X17.  The score of IsHDD depends on the first seven characters of the
    model string only: two strings with the same first seven characters
    get the same score. *)
Theorem IsHDD_first_seven (drive_type vid pid : Z) (s1 s2 : string) :
  Ascii.zero ∉ String.list_ascii_of_string s1 →
  Ascii.zero ∉ String.list_ascii_of_string s2 →
  take 7 (String.list_ascii_of_string s1)
  = take 7 (String.list_ascii_of_string s2) →
  IsHDD drive_type vid pid (c_str s1) = IsHDD drive_type vid pid (c_str s2).
Proof.
  intros Hz1 Hz2 Heq.
  rewrite (IsHDD_award _ _ _ s1 Hz1), (IsHDD_award _ _ _ s2 Hz2).
  do 3 f_equal. apply award_ext.
  assert (Forall (λ e,
            (String.length (name e) ≤ 7)%nat ∧
            (Spec.is_wildcard (String.list_ascii_of_string (name e)) = true →
             (String.length (name e) < 7)%nat)) manufacturer_str) as Htable.
  { repeat constructor; cbn; first [lia | discriminate]. }
  eapply Forall_impl; [exact Htable|]. intros e [Hle Hw]. cbv beta.
  split.
  - pose proof (f_equal length Heq) as Hlen.
    rewrite !length_take, !length_list_ascii_of_string in Hlen.
    destruct (Nat.ltb_spec (String.length s1) (String.length (name e)));
      destruct (Nat.ltb_spec (String.length s2) (String.length (name e)));
      try reflexivity; lia.
  - rewrite (entry_matches_take 7 _ s1 Hle Hw),
            (entry_matches_take 7 _ s2 Hle Hw), Heq.
    reflexivity.
Qed.

Lemma IsHDD_total_witness :
  ∃ score : Z,
    IsHDD DRIVE_FIXED 0x152d 0x2329 (c_str "WDC WD10EZEX") = Some score ∧
    score ∈ [0; 3; 10; 13; 20; 23].
Proof.
  destruct (IsHDD_total DRIVE_FIXED 0x152d 0x2329 (c_str "WDC WD10EZEX"))
    as (score & Hrun & Hrange & _).
  - intros a Ha. injection Ha as <-. by eexists.
  - exists score. split; [exact Hrun | exact Hrange].
Defined.

Lemma IsHDD_score_witness :
  IsHDD DRIVE_FIXED 0x152d 0x2329 (c_str "WDC WD10EZEX") = Some 23.
Proof.
  destruct (IsHDD_score DRIVE_FIXED 0x152d 0x2329 "WDC WD10EZEX")
    as (Hrun & _); [|exact Hrun].
  apply (bool_decide_unpack _). vm_compute. exact I.
Defined.

Lemma IsHDD_case_insensitive_witness :
  IsHDD DRIVE_REMOVABLE 0 0 (c_str "Seagate Expansion")
  = IsHDD DRIVE_REMOVABLE 0 0 (c_str "SEAGATE EXPANSION").
Proof.
  apply IsHDD_case_insensitive;
    [apply (bool_decide_unpack _); vm_compute; exact I
    |apply (bool_decide_unpack _); vm_compute; exact I
    |reflexivity].
Defined.

Lemma IsHDD_first_seven_witness :
  IsHDD DRIVE_REMOVABLE 0 0 (c_str "SAMSUNG HD103SJ")
  = IsHDD DRIVE_REMOVABLE 0 0 (c_str "SAMSUNG").
Proof.
  apply IsHDD_first_seven;
    [apply (bool_decide_unpack _); vm_compute; exact I
    |apply (bool_decide_unpack _); vm_compute; exact I
    |reflexivity].
Defined.
